(** * StockPulse research agents: data collector, analyst guard, orchestrator

  A shallow embedding of [agents/data_collector.py], of the description
  guard of [agents/analyst.py] and of the node sequence of
  [graph/orchestrator.py], with the properties of the multi-source
  consensus engine proved over it.

  Conventions of the embedding.
  - A Python [str] is a Rocq [string]; one element of the Rocq string stands
    for one character of the Python string ([lower], [upper] and the
    whitespace test act on the ASCII range).
  - A Python [float] is an IEEE 754 binary64 number, the [spec_float] of
    the Standard Library with 53 bits of precision: sums and quotients
    round to nearest, ties to even, and the infinities, the signed zeros
    and NaN are values like the others. A comparison of a float with an
    [int] is a comparison of the exact values, as in Python.
  - A [dict] with a fixed set of keys is a record; the open-ended
    [company_info] dict is a [gmap string string].
  - A list that the code appends to in place is passed and returned
    explicitly; effects (calls to the outside world, exceptions) live in a
    small state-and-exception monad defined below. *)

From Stdlib Require Import ZArith QArith Qround Qabs Lqa Strings.String Strings.Ascii List Lia.
From Stdlib Require Import Numbers.DecimalString Floats.SpecFloat.
From stdpp Require Import gmap strings list.

Open Scope string_scope.

(** ** Python strings *)

Module PyStr.

Definition lower_ascii (c : ascii) : ascii :=
  let n := nat_of_ascii c in
  if (65 <=? n)%nat && (n <=? 90)%nat then ascii_of_nat (n + 32) else c.

Definition upper_ascii (c : ascii) : ascii :=
  let n := nat_of_ascii c in
  if (97 <=? n)%nat && (n <=? 122)%nat then ascii_of_nat (n - 32) else c.

Fixpoint smap (f : ascii -> ascii) (s : string) : string :=
  match s with
  | EmptyString => EmptyString
  | String c s' => String (f c) (smap f s')
  end.

(** [s.lower()] and [s.upper()] *)
Definition lower : string -> string := smap lower_ascii.
Definition upper : string -> string := smap upper_ascii.

(** [w in t] on strings: [w] occurs in [t] as a contiguous substring. *)
Fixpoint str_in (w t : string) : bool :=
  if String.prefix w t then true
  else match t with
       | EmptyString => false
       | String _ t' => str_in w t'
       end.

(** [s[:n]] *)
Fixpoint take (n : nat) (s : string) : string :=
  match n, s with
  | S n', String c s' => String c (take n' s')
  | _, _ => EmptyString
  end.

(** truthiness of a string: non-empty *)
Definition truthy (s : string) : bool :=
  match s with EmptyString => false | _ => true end.

(** [s.strip()] *)
Definition is_space (c : ascii) : bool :=
  let n := nat_of_ascii c in
  ((9 <=? n)%nat && (n <=? 13)%nat) || (n =? 32)%nat.

Fixpoint lstrip (s : string) : string :=
  match s with
  | String c s' => if is_space c then lstrip s' else s
  | EmptyString => EmptyString
  end.

Fixpoint rstrip (s : string) : string :=
  match s with
  | EmptyString => EmptyString
  | String c s' =>
      match rstrip s' with
      | EmptyString => if is_space c then EmptyString else String c EmptyString
      | r => String c r
      end
  end.

Definition strip (s : string) : string := rstrip (lstrip s).

End PyStr.

Import PyStr.

(** ** Python numbers and their formatting *)

Module PyNum.

(** [l.count(x)] on a list of strings *)
Definition count (x : string) (l : list string) : nat :=
  count_occ string_dec l x.

(** [str(n)] for a non-negative integer *)
Definition str_of_N (n : N) : string := NilZero.string_of_uint (N.to_uint n).

Definition str_of_nat (n : nat) : string := str_of_N (N.of_nat n).

Definition digit_char (d : Z) : ascii := ascii_of_N (48 + Z.to_N d).

(** Thousands grouping of the [","] format option, on the digits of the
  integer part listed least significant first. *)
Fixpoint group3_rev (ds : list ascii) : list ascii :=
  match ds with
  | a :: ((b :: ((c :: ((_ :: _) as rest)))))  =>
      a :: b :: c :: ","%char :: group3_rev rest
  | _ => ds
  end.

Definition thousands (s : string) : string :=
  string_of_list_ascii (rev (group3_rev (rev (list_ascii_of_string s)))).

(** *** Floats *)

Definition float : Type := spec_float.

Definition prec : Z := 53.
Definition emax : Z := 1024.

(** The float nearest to an integer, ties to even; an infinity when the
  integer is beyond the largest float. *)
Definition nearest (z : Z) : float := binary_normalize prec emax z 0 false.

(** [float(z)] on an [int]; [None] stands for [OverflowError]. *)
Definition float_of_int (z : Z) : option float :=
  match nearest z with
  | S754_infinity _ => None
  | x => Some x
  end.

(** [x + y] on floats: the exact sum rounded to nearest, ties to even. *)
Definition fadd (x y : float) : float := SFadd prec emax x y.

(** [x / n] for a float [x] and an [int] [n] that is not zero: the quotient
  by [float(n)], rounded. Where [float(n)] overflows Python raises
  [OverflowError]; the length of a list never does, and the embedding,
  whose lists have no bound, marks that quotient with NaN. *)
Definition fdiv_int (x : float) (n : Z) : float :=
  match float_of_int n with
  | Some y => SFdiv prec emax x y
  | None => S754_nan
  end.

(** [abs(x)] *)
Definition fabs (x : float) : float := SFabs x.

(** The rational number a finite float stands for; [0] for the zeros. The
  infinities and NaN stand for no number, and every function below treats
  them before it looks at the value. *)
Definition value (x : float) : Q :=
  match x with
  | S754_finite s m e =>
      let v := match e with
               | Zneg k => Zpos m # (2 ^ k)
               | _ => inject_Z (Zpos m * 2 ^ e)
               end in
      if s then (- v)%Q else v
  | _ => 0%Q
  end.

Definition is_finite (x : float) : bool :=
  match x with
  | S754_zero _ | S754_finite _ _ _ => true
  | _ => false
  end.

(** The sign a float is printed with; the sign of a NaN is never shown. *)
Definition sign_bit (x : float) : bool :=
  match x with
  | S754_zero s | S754_infinity s | S754_finite s _ _ => s
  | S754_nan => false
  end.

(** [x > n] and [x < n] for a float [x] and an [int] [n]: Python compares
  the exact values, and every comparison with NaN is false. *)
Definition gt (x : float) (n : Z) : bool :=
  match x with
  | S754_nan => false
  | S754_infinity s => negb s
  | _ => if Qlt_le_dec (inject_Z n) (value x) then true else false
  end.

Definition lt (x : float) (n : Z) : bool :=
  match x with
  | S754_nan => false
  | S754_infinity s => s
  | _ => if Qlt_le_dec (value x) (inject_Z n) then true else false
  end.

(** truthiness of a float: anything but a zero *)
Definition truthy (x : float) : bool :=
  match x with
  | S754_zero _ => false
  | _ => true
  end.

(** The magnitude of [x] in hundredths, rounded to nearest, ties to even:
  the digits that the presentation type [.2f] prints. *)
Definition hundredths (x : Q) : Z :=
  let a := (Z.abs (Qnum x) * 100)%Z in
  let d := Zpos (Qden x) in
  let f := (a / d)%Z in
  let r := (a mod d)%Z in
  if (2 * r <? d)%Z then f
  else if (d <? 2 * r)%Z then (f + 1)%Z
  else if Z.even f then f else (f + 1)%Z.

(** [format(x, spec)] of a float for the two specs the collector uses:
  [",.2f"] ([plus = false], [comma = true]) and
  ["+.2f"] ([plus = true], [comma = false]). *)
Definition format_2f (plus comma : bool) (x : float) : string :=
  let sign := if sign_bit x then "-" else if plus then "+" else "" in
  match x with
  | S754_nan => sign +:+ "nan"
  | S754_infinity _ => sign +:+ "inf"
  | _ =>
      let h := hundredths (value x) in
      let ip := str_of_N (Z.to_N (h / 100)) in
      let fp := (h mod 100)%Z in
      sign
        +:+ (if comma then thousands ip else ip)
        +:+ "."
        +:+ String (digit_char (fp / 10)) (String (digit_char (fp mod 10)) "")
  end.

(** [sum(l)] on floats: one rounded addition per element, from left to
  right, starting from [0] (the builtin of CPython up to 3.11; later
  versions add a compensation term). *)
Definition sum (l : list float) : float := fold_left fadd l (nearest 0).

End PyNum.

(** ** Values decoded from JSON, and the library functions the code calls *)

#[local] Unset Elimination Schemes.
Inductive json : Type :=
| JNull
| JBool (b : bool)
| JInt (z : Z)
| JFloat (x : PyNum.float)
| JStr (s : string)
| JArr (items : list json)
| JObj (fields : list (string * json)).
#[local] Set Elimination Schemes.

(** The two library functions whose results the collector consumes without
  the repository defining them: [re.findall(pattern, text, re.IGNORECASE)]
  for a pattern with one capturing group, and [float(s)] on a string
  ([None] stands for [ValueError]). *)
Class PyLib := {
  re_findall : string -> string -> list string;
  float_of_str : string -> option PyNum.float
}.

(** ** The evidence pool [stock_info] and the resolved signal *)

Record stock_info := {
  info_ticker : string;
  info_company : string;
  prices_found : list PyNum.float;
  trends_found : list string;
  recommendations_found : list string;
  sources_checked : list string
}.

Definition set_prices (ps : list PyNum.float) (si : stock_info) : stock_info :=
  {| info_ticker := info_ticker si; info_company := info_company si;
     prices_found := ps; trends_found := trends_found si;
     recommendations_found := recommendations_found si;
     sources_checked := sources_checked si |}.

Definition set_trends (ts : list string) (si : stock_info) : stock_info :=
  {| info_ticker := info_ticker si; info_company := info_company si;
     prices_found := prices_found si; trends_found := ts;
     recommendations_found := recommendations_found si;
     sources_checked := sources_checked si |}.

Definition set_recommendations (rs : list string) (si : stock_info) : stock_info :=
  {| info_ticker := info_ticker si; info_company := info_company si;
     prices_found := prices_found si; trends_found := trends_found si;
     recommendations_found := rs;
     sources_checked := sources_checked si |}.

Definition set_sources (ss : list string) (si : stock_info) : stock_info :=
  {| info_ticker := info_ticker si; info_company := info_company si;
     prices_found := prices_found si; trends_found := trends_found si;
     recommendations_found := recommendations_found si;
     sources_checked := ss |}.

(** The dict returned by [_fetch_indian_api] and by
  [_aggregate_stock_findings]; the keys only the first one sets are
  optional. *)
Record stock_data := {
  ticker : json;
  company : json;
  current_price : string;
  change_24hr : option string;
  price_change_pct : string;
  volume : option json;
  trend : string;
  recommendation : string;
  confidence : string;
  source : string;
  sources_analyzed : nat;
  data_type : string;
  verified : bool
}.

(** ** The extractor *)

Section Extractor.
Context `{PyLib}.

Definition inr_patterns : list string :=
  [ "₹\s*([\d,]+(?:\.\d+)?)";
    "rs\.?\s*([\d,]+(?:\.\d+)?)";
    "inr\s*([\d,]+(?:\.\d+)?)" ].

(** [match.replace(",", "")] *)
Fixpoint remove_commas (s : string) : string :=
  match s with
  | EmptyString => EmptyString
  | String c s' =>
      if Ascii.eqb c ","%char then remove_commas s' else String c (remove_commas s')
  end.

(** Body of the inner loop of [_extract_price_from_text]: the [try] parses
  the match, the bare [except] skips a match that does not parse. *)
Definition keep_price (prices : list PyNum.float) (m : string) : list PyNum.float :=
  match float_of_str (remove_commas m) with
  | Some price =>
      if PyNum.gt price 10 && PyNum.lt price 500000 then prices ++ [price] else prices
  | None => prices
  end.

Definition _extract_price_from_text (text : string) (si : stock_info) : stock_info :=
  set_prices
    (fold_left (fun prices pattern => fold_left keep_price (re_findall pattern text) prices)
               inr_patterns (prices_found si))
    si.

Definition bullish_words : list string :=
  ["rises"; "gains"; "jumps"; "surges"; "up"; "rallies"; "bullish"; "positive"; "growth"].

Definition bearish_words : list string :=
  ["falls"; "drops"; "declines"; "down"; "tumbles"; "bearish"; "negative"; "loss"].

(** [for word in words: if word in text: votes.append(vote); break] *)
Fixpoint vote_on_first_match (words : list string) (text vote : string)
         (votes : list string) : list string :=
  match words with
  | [] => votes
  | word :: rest =>
      if str_in word text then votes ++ [vote]
      else vote_on_first_match rest text vote votes
  end.

Definition _extract_trend_from_text (snippet title : string) (si : stock_info)
  : stock_info :=
  let text := lower (snippet +:+ " " +:+ title) in
  let si := set_trends (vote_on_first_match bullish_words text "bullish" (trends_found si)) si in
  set_trends (vote_on_first_match bearish_words text "bearish" (trends_found si)) si.

(** [any(w in text for w in words)] *)
Definition any_in (words : list string) (text : string) : bool :=
  existsb (fun w => str_in w text) words.

Definition _extract_recommendation_from_text (snippet title : string) (si : stock_info)
  : stock_info :=
  let text := lower (snippet +:+ " " +:+ title) in
  if any_in ["strong buy"; "buy rating"; "outperform"; "accumulate"] text then
    set_recommendations (recommendations_found si ++ ["BUY"]) si
  else if any_in ["sell rating"; "underperform"; "avoid"; "reduce"] text then
    set_recommendations (recommendations_found si ++ ["SELL"]) si
  else if any_in ["hold"; "neutral"; "maintain"] text then
    set_recommendations (recommendations_found si ++ ["HOLD"]) si
  else si.

End Extractor.

(** ** The aggregator *)

Definition rupee : string := "₹".

(** [sum(prices) / len(prices) if prices else None]; the length of a list
  that CPython can hold is below [2^63] and converts to a float. *)
Definition average_price (prices : list PyNum.float) : option PyNum.float :=
  match prices with
  | [] => None
  | _ => Some (PyNum.fdiv_int (PyNum.sum prices) (Z.of_nat (length prices)))
  end.

Definition trend_consensus (trends : list string) : string :=
  match trends with
  | [] => "neutral"
  | _ =>
      let bullish_count := PyNum.count "bullish" trends in
      let bearish_count := PyNum.count "bearish" trends in
      if (bearish_count <? bullish_count)%nat then "bullish"
      else if (bullish_count <? bearish_count)%nat then "bearish"
      else "neutral"
  end.

(** The pair [(recommendation, rec_confidence)]. *)
Definition recommendation_consensus (recs : list string) : string * string :=
  match recs with
  | [] => ("HOLD", "Low (limited data)")
  | _ =>
      let buy_count := PyNum.count "BUY" recs in
      let sell_count := PyNum.count "SELL" recs in
      let hold_count := PyNum.count "HOLD" recs in
      if (sell_count <=? buy_count)%nat && (hold_count <=? buy_count)%nat then
        ("BUY", if (2 <? buy_count)%nat then "Strong" else "Moderate")
      else if (buy_count <? sell_count)%nat && (hold_count <=? sell_count)%nat then
        ("SELL", if (2 <? sell_count)%nat then "Strong" else "Moderate")
      else ("HOLD", "Moderate")
  end.

Definition price_display (avg_price : option PyNum.float) : string :=
  match avg_price with
  | Some a => if PyNum.truthy a then rupee +:+ PyNum.format_2f false true a
              else "Data unavailable"
  | None => "Data unavailable"
  end.

Definition _aggregate_stock_findings (si : stock_info) (company_name ticker_ : string)
  : stock_data :=
  let prices := prices_found si in
  let avg_price := average_price prices in
  let trends := trends_found si in
  let trend_ := trend_consensus trends in
  let recs := recommendations_found si in
  let '(recommendation_, rec_confidence) := recommendation_consensus recs in
  let sources_count := length (remove_dups (sources_checked si)) in
  {| ticker := JStr ticker_;
     company := JStr company_name;
     current_price := price_display avg_price;
     change_24hr := None;
     price_change_pct :=
       match trends with
       | [] => "N/A"
       | _ => "~" +:+ PyNum.str_of_N
                (Z.to_N (Z.abs (Z.of_nat (PyNum.count "bullish" trends)
                                - Z.of_nat (PyNum.count "bearish" trends))))
                  +:+ "% (est.)"
       end;
     volume := None;
     trend := trend_;
     recommendation := recommendation_;
     confidence := rec_confidence;
     source := "Web search (" +:+ PyNum.str_of_nat sources_count +:+ " sources)";
     sources_analyzed := Nat.max sources_count 1;
     data_type := "web_aggregated";
     verified := false |}.

Definition empty_stock_info (company_name ticker_ : string) : stock_info :=
  {| info_ticker := ticker_; info_company := company_name;
     prices_found := []; trends_found := [];
     recommendations_found := []; sources_checked := [] |}.

(** ** Effects: exceptions and the calls to the outside world *)

Inductive exn : Type :=
| Exception (kind message : string).

Definition AttributeError : exn := Exception "AttributeError" "object has no attribute 'get'".
Definition TypeError : exn := Exception "TypeError" "unsupported operand".
Definition ValueError : exn := Exception "ValueError" "could not convert string to float".
Definition OverflowError : exn :=
  Exception "OverflowError" "int too large to convert to float".

(** [str(e)] *)
Definition exn_str (e : exn) : string := let 'Exception _ m := e in m.

Inductive outcome (A : Type) : Type :=
| Raised (e : exn)
| Returned (a : A).
Arguments Raised {A} e.
Arguments Returned {A} a.

(** A computation over a mutable state [S] that returns or raises; what it
  did to the state before raising stays done. *)
Definition M (S A : Type) : Type := S -> outcome A * S.

Definition ret {S A} (a : A) : M S A := fun s => (Returned a, s).

Definition raise {S A} (e : exn) : M S A := fun s => (Raised e, s).

Definition bind {S A B} (m : M S A) (k : A -> M S B) : M S B :=
  fun s => match m s with
           | (Returned a, s') => k a s'
           | (Raised e, s') => (Raised e, s')
           end.

(** [try: m  except Exception as e: handler e]; [exn] stands for the
    subclasses of [Exception], which is all that the handlers of this code
    base are written for (a bare [except] catches them too). *)
Definition try_catch {S A} (m : M S A) (handler : exn -> M S A) : M S A :=
  fun s => match m s with
           | (Returned a, s') => (Returned a, s')
           | (Raised e, s') => handler e s'
           end.

Definition of_outcome {S A} (o : outcome A) : M S A := fun s => (o, s).

Notation "'let*' x ':=' m 'in' k" := (bind m (fun x => k))
  (at level 10, x pattern, m at level 100, k at level 200).
Notation "m ';;' k" := (bind m (fun _ => k))
  (at level 100, k at level 200, right associativity).

(** [for x in xs: body x] *)
Fixpoint for_each {S A} (xs : list A) (body : A -> M S unit) : M S unit :=
  match xs with
  | [] => ret tt
  | x :: rest => body x ;; for_each rest body
  end.

(** What the process has asked of the outside world so far. *)
Inductive event : Type :=
| WikiPage (term : string)
| DdgsNews (query : string) (max_results : nat)
| DdgsText (query : string) (max_results : nat)
| HttpGet (url name api_key : string)
| LlmInvoke (prompt : string).

Abbreviation trace := (list event).

Record wiki_page := {
  page_summary : string;
  page_fullurl : string;
  page_title : string
}.

Record response := {
  status_code : Z;
  response_json : outcome json
}.

(** The outside world: each answer may depend on everything asked before, so
  that two identical requests need not be answered alike. A search hit is
  the dict the search client yields, a [gmap] from key to text.
  [wikipedia_page] answers [None] for a page that does not exist. *)
Class World := {
  wikipedia_page : trace -> string -> outcome (option wiki_page);
  ddgs_news : trace -> string -> nat -> outcome (list (gmap string string));
  ddgs_text : trace -> string -> nat -> outcome (list (gmap string string));
  session_get : trace -> string -> string -> string -> outcome response;
  llm_invoke : trace -> string -> outcome string;
  getenv : string -> option string;
  now_isoformat : trace -> string
}.

Section Calls.
Context `{World}.

Definition call_wiki (term : string) : M trace (option wiki_page) :=
  fun t => (wikipedia_page t term, (t ++ [WikiPage term])%list).

Definition call_news (query : string) (max_results : nat)
  : M trace (list (gmap string string)) :=
  fun t => (ddgs_news t query max_results, (t ++ [DdgsNews query max_results])%list).

Definition call_text (query : string) (max_results : nat)
  : M trace (list (gmap string string)) :=
  fun t => (ddgs_text t query max_results, (t ++ [DdgsText query max_results])%list).

Definition call_get (url name api_key : string) : M trace response :=
  fun t => (session_get t url name api_key, (t ++ [HttpGet url name api_key])%list).

(** [self.llm.invoke(prompt).content] *)
Definition call_llm (prompt : string) : M trace string :=
  fun t => (llm_invoke t prompt, (t ++ [LlmInvoke prompt])%list).

End Calls.

(** A function that works on the trace alone, called from one that also
  holds a local mutable object [L]. *)
Definition lift {L A} (m : M trace A) : M (trace * L) A :=
  fun '(t, l) => let '(r, t') := m t in (r, (t', l)).

(** In-place update of the local object. *)
Definition modify {L} (f : L -> L) : M (trace * L) unit :=
  fun '(t, l) => (Returned tt, (t, f l)).

Definition get_local {L} : M (trace * L) L :=
  fun '(t, l) => (Returned l, (t, l)).

(** Runs [m] on a fresh local object and hands the object back with the
  result. *)
Definition with_local {L A} (init : L) (m : M (trace * L) A) : M trace (A * L) :=
  fun t => match m (t, init) with
           | (Returned a, (t', l)) => (Returned (a, l), t')
           | (Raised e, (t', _)) => (Raised e, t')
           end.

(** [r.get(key, "")] on a search hit *)
Definition hit_get (r : gmap string string) (key : string) : string :=
  default "" (r !! key).

(** ** Python operations on JSON values *)

Module PyJson.

(** truthiness *)
Definition truthy (j : json) : bool :=
  match j with
  | JNull => false
  | JBool b => b
  | JInt z => negb (z =? 0)%Z
  | JFloat x => PyNum.truthy x
  | JStr s => PyStr.truthy s
  | JArr items => match items with [] => false | _ => true end
  | JObj fields => match fields with [] => false | _ => true end
  end.

(** [a or b] *)
Definition or (a b : json) : json := if truthy a then a else b.

Fixpoint assoc (key : string) (fields : list (string * json)) : option json :=
  match fields with
  | [] => None
  | (k, v) :: rest => if String.eqb k key then Some v else assoc key rest
  end.

(** [j.get(key, default)]: only a dict has the method. *)
Definition get (j : json) (key : string) (default : json) : outcome json :=
  match j with
  | JObj fields => Returned (match assoc key fields with Some v => v | None => default end)
  | _ => Raised AttributeError
  end.

(** [key in j]: key test on a dict, membership on a list, substring test on
  a string, [TypeError] on anything else. *)
Definition contains (key : string) (j : json) : outcome bool :=
  match j with
  | JObj fields => Returned (match assoc key fields with Some _ => true | None => false end)
  | JArr items =>
      Returned (existsb (fun x => match x with JStr s => String.eqb s key | _ => false end)
                        items)
  | JStr s => Returned (str_in key s)
  | _ => Raised TypeError
  end.

Definition is_dict (j : json) : bool :=
  match j with JObj _ => true | _ => false end.

(** [float(j)] *)
Definition float `{PyLib} (j : json) : outcome PyNum.float :=
  match j with
  | JInt z => match PyNum.float_of_int z with
              | Some x => Returned x
              | None => Raised OverflowError
              end
  | JFloat x => Returned x
  | JBool b => Returned (PyNum.nearest (if b then 1 else 0))
  | JStr s => match float_of_str s with
              | Some x => Returned x
              | None => Raised ValueError
              end
  | _ => Raised TypeError
  end.

End PyJson.

(** ** The authoritative API adapter *)

(** Computations that touch no state: [_fetch_indian_api] after the HTTP
  call, written in the monad over the unit state. *)
Abbreviation pure_m := (M unit).

Definition run_pure {A} (m : pure_m A) : outcome A := fst (m tt).

Definition _get_recommendation (change_pct : PyNum.float) : string :=
  if PyNum.gt change_pct 2 then "STRONG BUY"
  else if PyNum.gt change_pct 0 then "BUY"
  else if PyNum.gt change_pct (-2) then "HOLD"
  else "SELL".

Section IndianApi.
Context `{PyLib}.

(** The price the response resolves to ([None] for the early
  [return None]). *)
Definition resolve_price (data : json) : pure_m (option json) :=
  let* current_price := of_outcome (PyJson.get data "currentPrice" (JObj [])) in
  let* nse_price := of_outcome (PyJson.get current_price "NSE" (JInt 0)) in
  let* bse_price := of_outcome (PyJson.get current_price "BSE" (JInt 0)) in
  let price := PyJson.or nse_price bse_price in
  let* price :=
    if PyJson.truthy price then ret price
    else
      let* p := of_outcome (PyJson.get data "price" (JInt 0)) in
      let* l := of_outcome (PyJson.get data "lastPrice" (JInt 0)) in
      ret (PyJson.or p l) in
  if PyJson.truthy price then ret (Some price) else ret None.

(** [float(pct_change) if pct_change else 0]: the [int] zero of the [else]
  is written as the float [0.0], which compares and prints as it does. *)
Definition resolve_pct_change (data : json) : pure_m PyNum.float :=
  let* pct_change := of_outcome (PyJson.get data "percentChange" (JInt 0)) in
  let* pct_change :=
    if PyJson.is_dict pct_change then
      let* n := of_outcome (PyJson.get pct_change "NSE" (JInt 0)) in
      let* b := of_outcome (PyJson.get pct_change "BSE" (JInt 0)) in
      ret (PyJson.or n b)
    else ret pct_change in
  if PyJson.truthy pct_change then of_outcome (PyJson.float pct_change)
  else ret (PyNum.nearest 0).

Definition trend_of_change (pct_change : PyNum.float) : string :=
  if PyNum.gt pct_change 0 then "bullish"
  else if PyNum.lt pct_change 0 then "bearish"
  else "neutral".

Definition confidence_of_change (pct_change : PyNum.float) : string :=
  if PyNum.gt (PyNum.fabs pct_change) 2 then "High" else "Moderate".

(** Lines 184 to 231: from the decoded body to the returned dict. *)
Definition parse_quote (company_name : string) (data : json)
  : pure_m (option stock_data) :=
  let* has_error :=
    if negb (PyJson.truthy data) then ret true
    else of_outcome (PyJson.contains "error" data) in
  if has_error then
    (* the warning formats [data.get('error', 'No data')] *)
    let* _ := of_outcome (PyJson.get data "error" (JStr "No data")) in
    ret None
  else
    let* price := resolve_price data in
    match price with
    | None => ret None
    | Some price =>
        let* pct_change := resolve_pct_change data in
        let trend_ := trend_of_change pct_change in
        let* price_float := of_outcome (PyJson.float price) in
        let price_formatted := rupee +:+ PyNum.format_2f false true price_float in
        let* symbol :=
          of_outcome (PyJson.get data "symbol" (JStr (take 6 (upper company_name)))) in
        let* company_ :=
          of_outcome (PyJson.get data "companyName" (JStr company_name)) in
        let change := PyNum.format_2f true false pct_change +:+ "%" in
        let* volume_ := of_outcome (PyJson.get data "totalTradedVolume" (JStr "N/A")) in
        ret (Some {| ticker := symbol;
                     company := company_;
                     current_price := price_formatted;
                     change_24hr := Some change;
                     price_change_pct := change;
                     volume := Some volume_;
                     trend := trend_;
                     recommendation := _get_recommendation pct_change;
                     confidence := confidence_of_change pct_change;
                     source := "IndianAPI (Live NSE/BSE)";
                     sources_analyzed := 1;
                     data_type := "live";
                     verified := true |})
    end.

Context `{World}.

Definition indian_api_url : string := "https://stock.indianapi.in/stock".

Definition _fetch_indian_api (company_name api_key : string)
  : M trace (option stock_data) :=
  try_catch
    (let* response := call_get indian_api_url company_name api_key in
     if negb (status_code response =? 200)%Z then ret None
     else
       let* data := of_outcome (response_json response) in
       of_outcome (run_pure (parse_quote company_name data)))
    (fun _ => ret None).

End IndianApi.

(** ** The web-search adapter and the source priority resolver *)

Section WebSearch.
Context `{PyLib} `{World}.

Definition search_queries (company_name : string) : list string :=
  [ company_name +:+ " stock price today INR";
    company_name +:+ " share price live";
    company_name +:+ " stock buy or sell recommendation";
    company_name +:+ " stock forecast" ].

(** Body of the loop over the hits of one query. *)
Definition scan_hit (r : gmap string string) (si : stock_info) : stock_info :=
  let snippet := lower (hit_get r "body") in
  let title := hit_get r "title" in
  let source_ := hit_get r "href" in
  let si := set_sources
              (sources_checked si
                 ++ [if PyStr.truthy source_ then take 50 source_ else ""]) si in
  let si := _extract_price_from_text snippet si in
  let si := _extract_trend_from_text snippet title si in
  _extract_recommendation_from_text snippet title si.

(** The [try] block of [_scrape_stock_data_from_web]; [stock_info] is the
  local object it appends to. *)
Definition scrape_queries (queries : list string) : M (trace * stock_info) unit :=
  for_each queries (fun query =>
    let* results := lift (call_text query 3) in
    for_each results (fun r => modify (scan_hit r))).

Definition _scrape_stock_data_from_web (company_name ticker_ : string)
  : M trace stock_data :=
  let* (_, stock_info_) :=
    with_local (empty_stock_info company_name ticker_)
      (try_catch (scrape_queries (search_queries company_name)) (fun _ => ret tt)) in
  ret (_aggregate_stock_findings stock_info_ company_name ticker_).

(** The test that lets the authoritative result through. *)
Definition price_accepted (indian_data : option stock_data) : bool :=
  match indian_data with
  | Some d => PyStr.truthy (current_price d) && negb (str_in "N/A" (current_price d))
  | None => false
  end.

Definition api_key_usable (api_key : string) : bool :=
  PyStr.truthy api_key && negb (String.eqb api_key "your_indian_api_key_here").

Definition _get_stock_data_multi_source (company_name : string) : M trace stock_data :=
  let ticker_ := take 6 (upper company_name) in
  let api_key := default "" (getenv "INDIAN_API_KEY") in
  (* [Some d] stands for the early [return indian_data] *)
  let* early :=
    if api_key_usable api_key then
      let* indian_data := _fetch_indian_api company_name api_key in
      if price_accepted indian_data then ret indian_data else ret None
    else ret None in
  match early with
  | Some d => ret d
  | None => _scrape_stock_data_from_web company_name ticker_
  end.

End WebSearch.

(** ** The other source adapters *)

Record news_item := {
  news_title : string;
  news_summary : string;
  news_url : string;
  news_date : string
}.

Section Adapters.
Context `{World}.

Definition wiki_summary (p : wiki_page) : string :=
  if (800 <? String.length (page_summary p))%nat then take 800 (page_summary p)
  else page_summary p.

(** The loop over the search terms: it returns at the first page that
  exists. *)
Fixpoint first_existing_page (search_terms : list string)
  : M trace (option (gmap string string)) :=
  match search_terms with
  | [] => ret None
  | term :: rest =>
      let* page := call_wiki term in
      match page with
      | Some p =>
          ret (Some (<["description" := wiki_summary p]>
                       (<["url" := page_fullurl p]>
                          (<["title" := page_title p]> ∅))))
      | None => first_existing_page rest
      end
  end.

Definition _search_wikipedia (company_name : string)
  : M trace (option (gmap string string)) :=
  try_catch
    (first_existing_page
       [company_name; company_name +:+ " company"; company_name +:+ " corporation"])
    (fun _ => ret None).

Definition news_of_hit (r : gmap string string) : news_item :=
  {| news_title := hit_get r "title";
     news_summary := take 200 (hit_get r "body");
     news_url := hit_get r "url";
     news_date := hit_get r "date" |}.

Definition _search_news (company_name : string) : M trace (list news_item) :=
  try_catch
    (let* results := call_news (company_name +:+ " stock") 5 in
     ret (map news_of_hit results))
    (fun _ => ret []).

Definition _search_official_website (company_name : string)
  : M trace (option (gmap string string)) :=
  try_catch
    (let* results := call_text (company_name +:+ " official website") 1 in
     match results with
     | r :: _ => ret (Some (<["official_url" := hit_get r "href"]> ∅))
     | [] => ret None
     end)
    (fun _ => ret None).

End Adapters.

(** ** The collected profile, its quality tier, and [collect_data] *)

Record collected := {
  cd_company_name : string;
  cd_company_info : gmap string string;
  cd_news : list news_item;
  cd_stock_performance : option stock_data;
  cd_sources : list string;
  cd_data_quality : string;
  cd_timestamp : string;
  cd_error : option string
}.

Definition set_company_info (f : gmap string string -> gmap string string) (c : collected)
  : collected :=
  {| cd_company_name := cd_company_name c; cd_company_info := f (cd_company_info c);
     cd_news := cd_news c; cd_stock_performance := cd_stock_performance c;
     cd_sources := cd_sources c; cd_data_quality := cd_data_quality c;
     cd_timestamp := cd_timestamp c; cd_error := cd_error c |}.

Definition set_news (n : list news_item) (c : collected) : collected :=
  {| cd_company_name := cd_company_name c; cd_company_info := cd_company_info c;
     cd_news := n; cd_stock_performance := cd_stock_performance c;
     cd_sources := cd_sources c; cd_data_quality := cd_data_quality c;
     cd_timestamp := cd_timestamp c; cd_error := cd_error c |}.

Definition set_stock_performance (d : stock_data) (c : collected) : collected :=
  {| cd_company_name := cd_company_name c; cd_company_info := cd_company_info c;
     cd_news := cd_news c; cd_stock_performance := Some d;
     cd_sources := cd_sources c; cd_data_quality := cd_data_quality c;
     cd_timestamp := cd_timestamp c; cd_error := cd_error c |}.

Definition append_source (s : string) (c : collected) : collected :=
  {| cd_company_name := cd_company_name c; cd_company_info := cd_company_info c;
     cd_news := cd_news c; cd_stock_performance := cd_stock_performance c;
     cd_sources := cd_sources c ++ [s]; cd_data_quality := cd_data_quality c;
     cd_timestamp := cd_timestamp c; cd_error := cd_error c |}.

Definition set_data_quality (q : string) (c : collected) : collected :=
  {| cd_company_name := cd_company_name c; cd_company_info := cd_company_info c;
     cd_news := cd_news c; cd_stock_performance := cd_stock_performance c;
     cd_sources := cd_sources c; cd_data_quality := q;
     cd_timestamp := cd_timestamp c; cd_error := cd_error c |}.

Definition set_error (e : string) (c : collected) : collected :=
  {| cd_company_name := cd_company_name c; cd_company_info := cd_company_info c;
     cd_news := cd_news c; cd_stock_performance := cd_stock_performance c;
     cd_sources := cd_sources c; cd_data_quality := cd_data_quality c;
     cd_timestamp := cd_timestamp c; cd_error := Some e |}.

(** Truthiness of an [Optional[Dict]]: present and not empty. *)
Definition dict_truthy (d : option (gmap string string)) : bool :=
  match d with
  | Some m => negb (bool_decide (m = ∅))
  | None => false
  end.

(** The points [_assess_data_quality] adds up. *)
Definition quality_score (data : collected) : nat :=
  let score := 0%nat in
  let score :=
    if PyStr.truthy (default "" (cd_company_info data !! "description"))
    then (score + 2)%nat else score in
  let score :=
    match cd_news data with [] => score | _ => (score + 2)%nat end in
  let score :=
    if PyStr.truthy (match cd_stock_performance data with
                     | Some d => current_price d
                     | None => ""
                     end)
    then (score + 2)%nat else score in
  let score :=
    if (3 <=? length (cd_sources data))%nat then (score + 1)%nat else score in
  score.

Definition _assess_data_quality (data : collected) : string :=
  let score := quality_score data in
  if (5 <=? score)%nat then "high"
  else if (3 <=? score)%nat then "medium"
  else if (1 <=? score)%nat then "low"
  else "insufficient".

Section Collect.
Context `{World}.

(** The four adapter methods [collect_data] calls on [self]. *)
Variable search_wikipedia : string -> M trace (option (gmap string string)).
Variable search_news : string -> M trace (list news_item).
Variable search_official_website : string -> M trace (option (gmap string string)).
Variable get_stock_data_multi_source : string -> M trace stock_data.

Definition initial_collected (company_name timestamp : string) : collected :=
  {| cd_company_name := company_name;
     cd_company_info := ∅;
     cd_news := [];
     cd_stock_performance := None;
     cd_sources := [];
     cd_data_quality := "unknown";
     cd_timestamp := timestamp;
     cd_error := None |}.

(** [for article in news_data[:3]: if article.get('url'): sources.append(...)] *)
Definition cite_news (news_data : list news_item) : M (trace * collected) unit :=
  for_each (firstn 3 news_data) (fun article =>
    if PyStr.truthy (news_url article)
    then modify (append_source ("News: " +:+ news_url article))
    else ret tt).

(** The [try] block of [collect_data]; [collected_data] is the local object
  it fills in. *)
Definition collect_steps (company_name : string) : M (trace * collected) unit :=
  (* 1. Wikipedia *)
  let* wiki_data := lift (search_wikipedia company_name) in
  (if dict_truthy wiki_data then
     let wiki := default ∅ wiki_data in
     modify (set_company_info (fun info => wiki ∪ info)) ;;
     modify (append_source ("Wikipedia: " +:+ default "N/A" (wiki !! "url")))
   else ret tt) ;;
  (* 2. News search *)
  let* news_data := lift (search_news company_name) in
  (match news_data with
   | [] => ret tt
   | _ => modify (set_news news_data) ;; cite_news news_data
   end) ;;
  (* 3. Official website *)
  let* website_data := lift (search_official_website company_name) in
  (if dict_truthy website_data then
     modify (set_company_info (fun info => default ∅ website_data ∪ info))
   else ret tt) ;;
  (* 4. Stock performance; the dict returned always has its keys, so
     [if stock_data] holds *)
  let* stock_data_ := lift (get_stock_data_multi_source company_name) in
  modify (set_stock_performance stock_data_) ;;
  modify (append_source ("Stock: " +:+ source stock_data_)) ;;
  (* 5. Data quality *)
  let* data := get_local in
  modify (set_data_quality (_assess_data_quality data)).

Definition collect_data_with (company_name : string) : M trace collected :=
  fun t =>
    (let* (_, collected_data) :=
       with_local (initial_collected company_name (now_isoformat t))
         (try_catch (collect_steps company_name)
            (fun e =>
               modify (set_data_quality "error") ;;
               modify (set_error (exn_str e)))) in
     ret collected_data) t.

End Collect.

(** [DataCollectorAgent.collect_data] *)
Definition collect_data `{PyLib} `{World} : string -> M trace collected :=
  collect_data_with _search_wikipedia _search_news _search_official_website
                    _get_stock_data_multi_source.

(** ** The analyst's summary generator *)

Definition nl : string := String (ascii_of_nat 10) "".

Section Analyst.
Context `{World}.

Definition disambiguation (text : string) : bool :=
  str_in "can refer to" (lower text) || str_in "may refer to" (lower text).

(** Lines 79 to 83 of [_generate_summary]: the description the summary is
  written from. *)
Definition summary_description (raw_data : collected) : string :=
  let description := take 400 (default "" (cd_company_info raw_data !! "description")) in
  if disambiguation description then "" else description.

Definition summary_prompt (company_name description stock_info_ : string) : string :=
  "Write 2 sentences about " +:+ company_name +:+ " the COMPANY (not the person)."
    +:+ nl +:+ nl
    +:+ "Company Info: " +:+ description +:+ nl
    +:+ "Stock: " +:+ stock_info_ +:+ nl +:+ nl
    +:+ "Focus on what the company does. Just 2 short sentences. "
    +:+ "If info is limited, describe the industry.".

Definition _generate_summary (raw_data : collected) : M trace string :=
  let company_name := cd_company_name raw_data in
  let stock := cd_stock_performance raw_data in
  let description := summary_description raw_data in
  if negb (PyStr.truthy description) && negb (bool_decide (is_Some stock)) then
    ret ("**" +:+ company_name
           +:+ "** - A company in the market. Limited public information available.")
  else
    let stock_info_ :=
      match stock with
      | Some d => current_price d +:+ ", " +:+ trend d +:+ " trend"
      | None => "N/A, neutral trend"
      end in
    try_catch
      (let* content :=
         call_llm (summary_prompt company_name
                     (if PyStr.truthy description then description
                      else "A company in the technology/business sector")
                     stock_info_) in
       let result := strip content in
       if disambiguation result then
         ret ("**" +:+ company_name +:+ "**" +:+ nl +:+ nl +:+ company_name
                +:+ " is a company operating in the market. "
                +:+ "Stock analysis based on available data.")
       else ret ("**" +:+ company_name +:+ "**" +:+ nl +:+ nl +:+ result))
      (fun _ =>
         ret ("**" +:+ company_name +:+ "**" +:+ nl +:+ nl +:+ company_name
                +:+ " is a company. Analysis based on market data.")).

End Analyst.

(** ** The workflow sequencer *)

(** The three shapes [state["raw_data"]] takes: [{}], the one-key dict the
  collection node writes when the collector raises, and a collected
  profile. *)
Inductive raw_data : Type :=
| RawEmpty
| RawQualityOnly (data_quality : string)
| RawCollected (c : collected).

Record AgentState := {
  st_company_name : string;
  st_raw_data : raw_data;
  st_analysis_results : gmap string string;
  st_error : option string;
  st_validation_passed : bool
}.

Definition set_raw_data (r : raw_data) (s : AgentState) : AgentState :=
  {| st_company_name := st_company_name s; st_raw_data := r;
     st_analysis_results := st_analysis_results s; st_error := st_error s;
     st_validation_passed := st_validation_passed s |}.

Definition set_analysis_results (a : gmap string string) (s : AgentState) : AgentState :=
  {| st_company_name := st_company_name s; st_raw_data := st_raw_data s;
     st_analysis_results := a; st_error := st_error s;
     st_validation_passed := st_validation_passed s |}.

Definition set_state_error (e : string) (s : AgentState) : AgentState :=
  {| st_company_name := st_company_name s; st_raw_data := st_raw_data s;
     st_analysis_results := st_analysis_results s; st_error := Some e;
     st_validation_passed := st_validation_passed s |}.

Definition set_validation_passed (b : bool) (s : AgentState) : AgentState :=
  {| st_company_name := st_company_name s; st_raw_data := st_raw_data s;
     st_analysis_results := st_analysis_results s; st_error := st_error s;
     st_validation_passed := b |}.

(** [raw_data.get("data_quality", "unknown")] *)
Definition raw_quality (r : raw_data) : string :=
  match r with
  | RawEmpty => "unknown"
  | RawQualityOnly q => q
  | RawCollected c => cd_data_quality c
  end.

(** [bool(raw_data.get(key))] for the three keys the validation reads *)
Definition raw_has_company_info (r : raw_data) : bool :=
  match r with
  | RawCollected c => negb (bool_decide (cd_company_info c = ∅))
  | _ => false
  end.

Definition raw_has_news (r : raw_data) : bool :=
  match r with
  | RawCollected c => match cd_news c with [] => false | _ => true end
  | _ => false
  end.

Definition raw_has_sources (r : raw_data) : bool :=
  match r with
  | RawCollected c => match cd_sources c with [] => false | _ => true end
  | _ => false
  end.

Definition raw_truthy (r : raw_data) : bool :=
  match r with RawEmpty => false | _ => true end.

Definition insufficient_results (company_name data_quality : string) : gmap string string :=
  <["executive_summary" :=
      "⚠️ **Insufficient Data**" +:+ nl +:+ nl
        +:+ "No reliable information found for " +:+ company_name +:+ "."]>
    (<["market_insights" := "**Data Not Available**"]>
       (<["risks_opportunities" := "**Data Not Available**"]>
          (<["data_sources" := "- No sources found"]>
             (<["data_quality" := data_quality]> ∅)))).

Definition analysis_failed_results : gmap string string :=
  <["executive_summary" := "Analysis unavailable due to error"]>
    (<["market_insights" := "Analysis unavailable"]>
       (<["risks_opportunities" := "Analysis unavailable"]>
          (<["data_sources" := "- Error occurred"]>
             (<["data_quality" := "error"]> ∅)))).

Section Orchestrator.

(** The two collaborators the orchestrator is built with:
  [data_collector.collect_data] and [analyst.analyze]. *)
Variable collect : string -> M trace collected.
Variable analyze : raw_data -> M trace (gmap string string).

Definition _collect_data_node : M (trace * AgentState) unit :=
  try_catch
    (let* state := get_local in
     let* raw := lift (collect (st_company_name state)) in
     modify (set_raw_data (RawCollected raw)))
    (fun e =>
       modify (set_state_error ("Data collection error: " +:+ exn_str e)) ;;
       modify (set_raw_data (RawQualityOnly "error")) ;;
       modify (set_validation_passed false)).

Definition _validate_data_node : M (trace * AgentState) unit :=
  try_catch
    (let* state := get_local in
     let raw := st_raw_data state in
     let data_quality := raw_quality raw in
     let has_company_info := raw_has_company_info raw in
     let has_news := raw_has_news raw in
     let has_sources := raw_has_sources raw in
     let validation_passed :=
       negb (String.eqb data_quality "error")
       && (has_company_info || has_news || has_sources) in
     modify (set_validation_passed validation_passed) ;;
     if validation_passed then ret tt
     else modify (set_analysis_results
                    (insufficient_results (st_company_name state) data_quality)))
    (fun e =>
       modify (set_state_error ("Validation error: " +:+ exn_str e)) ;;
       modify (set_validation_passed false)).

Definition _should_analyze (state : AgentState) : bool :=
  st_validation_passed state.

Definition _analyze_data_node : M (trace * AgentState) unit :=
  try_catch
    (let* state := get_local in
     (if negb (raw_truthy (st_raw_data state))
      then raise (Exception "ValueError" "No data available for analysis")
      else ret tt) ;;
     let* analysis_results := lift (analyze (st_raw_data state)) in
     modify (set_analysis_results analysis_results))
    (fun e =>
       modify (set_state_error ("Analysis error: " +:+ exn_str e)) ;;
       modify (set_analysis_results analysis_failed_results)).

(** The compiled graph: collect, validate, then analyse only when
  [_should_analyze] says so. *)
Definition graph_invoke : M (trace * AgentState) unit :=
  _collect_data_node ;;
  _validate_data_node ;;
  let* state := get_local in
  if _should_analyze state then _analyze_data_node else ret tt.

Definition initial_state (company_name : string) : AgentState :=
  {| st_company_name := company_name;
     st_raw_data := RawEmpty;
     st_analysis_results := ∅;
     st_error := None;
     st_validation_passed := false |}.

Definition run (company_name : string) : M trace AgentState :=
  let* (_, final_state) := with_local (initial_state company_name) graph_invoke in
  ret final_state.

End Orchestrator.

(** ** Predicates used in the statements *)

(** Some word of [words] occurs in [text]. *)
Definition has_keyword (words : list string) (text : string) : Prop :=
  exists w, In w words /\ str_in w text = true.

(** The dict [_fetch_indian_api] returns for a response with the given
  fields whose price converts to the float [p] and whose percent change
  is [c]. *)
Definition quote_signal (company_name : string) (fields : list (string * json))
           (p c : PyNum.float) : stock_data :=
  {| ticker := default (JStr (take 6 (upper company_name))) (PyJson.assoc "symbol" fields);
     company := default (JStr company_name) (PyJson.assoc "companyName" fields);
     current_price := rupee +:+ PyNum.format_2f false true p;
     change_24hr := Some (PyNum.format_2f true false c +:+ "%");
     price_change_pct := PyNum.format_2f true false c +:+ "%";
     volume := Some (default (JStr "N/A") (PyJson.assoc "totalTradedVolume" fields));
     trend := trend_of_change c;
     recommendation := _get_recommendation c;
     confidence := confidence_of_change c;
     source := "IndianAPI (Live NSE/BSE)";
     sources_analyzed := 1;
     data_type := "live";
     verified := true |}.

(** The plausible price range: strictly between 10 and 500000, which no
  infinity and no NaN is. *)
Definition in_range (p : PyNum.float) : Prop :=
  PyNum.gt p 10 = true /\ PyNum.lt p 500000 = true.

(** A float that is plus infinity, or positive and at least 8: its leading
  bit has weight [2^3] or more. *)
Definition sizeable (x : PyNum.float) : Prop :=
  match x with
  | S754_infinity false => True
  | S754_finite false m e => (4 <= Zpos (digits2_pos m) + e)%Z
  | _ => False
  end.

(** [m] never raises. *)
Definition returns {S A} (m : M S A) : Prop :=
  forall s, exists a s', m s = (Returned a, s').

(** [m] keeps the property [P] of the local object, also when it raises. *)
Definition keeps {L A} (P : L -> Prop) (m : M (trace * L) A) : Prop :=
  forall t l, P l -> P (snd (snd (m (t, l)))).

(** ** Sample environments, used to run the definitions *)

Module Sample.

Fixpoint digits_value (s : string) (acc : N) : option N :=
  match s with
  | EmptyString => Some acc
  | String c rest =>
      let n := N_of_ascii c in
      if (48 <=? n)%N && (n <=? 57)%N then digits_value rest (acc * 10 + (n - 48))%N
      else None
  end.

Fixpoint split_dot (s : string) : string * option string :=
  match s with
  | EmptyString => (EmptyString, None)
  | String c rest =>
      if Ascii.eqb c "."%char then (EmptyString, Some rest)
      else let '(a, b) := split_dot rest in (String c a, b)
  end.

(** The float nearest to [a / b], for integers that are floats themselves
  (below [2^53] in magnitude): one rounded division. *)
Definition ratio (a b : Z) : PyNum.float :=
  SFdiv PyNum.prec PyNum.emax (PyNum.nearest a) (PyNum.nearest b).

(** [float] on plain decimal literals such as ["1234.5"], of at most 15
  digits. *)
Definition float_decimal (s : string) : option PyNum.float :=
  match s with
  | EmptyString => None
  | _ =>
      let '(ip, fp) := split_dot s in
      match digits_value ip 0%N, fp with
      | Some i, None => Some (PyNum.nearest (Z.of_N i))
      | Some i, Some f =>
          match f, digits_value f 0%N with
          | String _ _, Some fv =>
              let scale := (10 ^ N.of_nat (String.length f))%N in
              Some (ratio (Z.of_N (i * scale + fv)) (Z.of_N scale))
          | _, _ => None
          end
      | None, _ => None
      end
  end.

(** A stand-in for [re.findall]: it knows the one price of the sample
  snippet. *)
Definition findall (pattern text : string) : list string :=
  if String.prefix "₹" pattern && str_in "₹1,480.25" text then ["1,480.25"] else [].

#[export] Instance lib : PyLib :=
  {| re_findall := findall; float_of_str := float_decimal |}.

Definition hit (title body href : string) : gmap string string :=
  <["title" := title]> (<["body" := body]> (<["href" := href]> (<["url" := href]> ∅))).

Definition acme_quote : json :=
  JObj [("companyName", JStr "Acme Ltd"); ("symbol", JStr "ACME");
        ("currentPrice", JObj [("NSE", JFloat (ratio 12345 10));
                               ("BSE", JFloat (ratio 12344 10))]);
        ("percentChange", JFloat (ratio 31 10))].

(** The response of the end-to-end scenario: NSE price 1234.5, change 3.1. *)
Definition scenario_quote : json :=
  JObj [("currentPrice", JObj [("NSE", JFloat (ratio 12345 10))]);
        ("percentChange", JFloat (ratio 31 10))].

Definition scenario_signal : stock_data :=
  {| ticker := JStr "ACME"; company := JStr "Acme"; current_price := "₹1,234.50";
     change_24hr := Some "+3.10%"; price_change_pct := "+3.10%";
     volume := Some (JStr "N/A");
     trend := "bullish"; recommendation := "STRONG BUY"; confidence := "High";
     source := "IndianAPI (Live NSE/BSE)"; sources_analyzed := 1;
     data_type := "live"; verified := true |}.

(** No key, no page, no hit: every lookup comes back empty. *)
Definition silent : World :=
  {| wikipedia_page := fun _ _ => Returned None;
     ddgs_news := fun _ _ _ => Returned [];
     ddgs_text := fun _ _ _ => Returned [];
     session_get := fun _ _ _ _ => Raised (Exception "ConnectionError" "unreachable");
     llm_invoke := fun _ _ => Returned "";
     getenv := fun _ => None;
     now_isoformat := fun _ => "2024-01-01T00:00:00" |}.

(** Every call to the outside fails. *)
Definition failing : World :=
  {| wikipedia_page := fun _ _ => Raised (Exception "Timeout" "wikipedia timed out");
     ddgs_news := fun _ _ _ => Raised (Exception "RatelimitException" "202 Ratelimit");
     ddgs_text := fun _ _ _ => Raised (Exception "RatelimitException" "202 Ratelimit");
     session_get := fun _ _ _ _ => Raised (Exception "ConnectionError" "unreachable");
     llm_invoke := fun _ _ => Raised (Exception "APIError" "model unavailable");
     getenv := fun name => if String.eqb name "INDIAN_API_KEY" then Some "k-123" else None;
     now_isoformat := fun _ => "2024-01-01T00:00:00" |}.

(** The API key is set and the API answers with the Acme quote; the
  searches answer too. *)
Definition live : World :=
  {| wikipedia_page := fun _ term =>
       if String.eqb term "Acme"
       then Returned (Some {| page_summary := "Acme Ltd is a maker of anvils.";
                              page_fullurl := "https://en.wikipedia.org/wiki/Acme";
                              page_title := "Acme" |})
       else Returned None;
     ddgs_news := fun _ _ _ =>
       Returned [hit "Acme gains on strong results" "Shares of Acme rose."
                     "https://news.example/acme"];
     ddgs_text := fun _ _ _ =>
       Returned [hit "Acme share price" "Acme trades at ₹1,480.25, analysts say accumulate"
                     "https://quotes.example/acme"];
     session_get := fun _ _ _ _ =>
       Returned {| status_code := 200; response_json := Returned acme_quote |};
     llm_invoke := fun _ _ => Returned "Acme makes anvils. It is listed on the NSE.";
     getenv := fun name => if String.eqb name "INDIAN_API_KEY" then Some "k-123" else None;
     now_isoformat := fun _ => "2024-01-01T00:00:00" |}.

(** As [live], without an API key: the stock lookup goes to the web. *)
Definition web_only : World :=
  {| wikipedia_page := @wikipedia_page live;
     ddgs_news := @ddgs_news live;
     ddgs_text := @ddgs_text live;
     session_get := @session_get live;
     llm_invoke := @llm_invoke live;
     getenv := fun _ => None;
     now_isoformat := @now_isoformat live |}.

(** As [web_only], with an encyclopedia that answers the bare company name
  with a disambiguation page. *)
Definition ambiguous_summary : string :=
  "Mercury may refer to: a planet, a chemical element, or a car brand.".

Definition ambiguous : World :=
  {| wikipedia_page := fun _ term =>
       if String.eqb term "Mercury"
       then Returned (Some {| page_summary := ambiguous_summary;
                              page_fullurl := "https://en.wikipedia.org/wiki/Mercury";
                              page_title := "Mercury" |})
       else Returned None;
     ddgs_news := @ddgs_news live;
     ddgs_text := @ddgs_text live;
     session_get := @session_get live;
     llm_invoke := @llm_invoke live;
     getenv := fun _ => None;
     now_isoformat := @now_isoformat live |}.

(** As [ambiguous], but the encyclopedia has no page for the bare name: the
  page is found under the name followed by "company". *)
Definition suffixed_page : wiki_page :=
  {| page_summary := ambiguous_summary;
     page_fullurl := "https://en.wikipedia.org/wiki/Mercury_company";
     page_title := "Mercury company" |}.

Definition suffixed : World :=
  {| wikipedia_page := fun _ term =>
       if String.eqb term "Mercury company" then Returned (Some suffixed_page)
       else Returned None;
     ddgs_news := @ddgs_news live;
     ddgs_text := @ddgs_text live;
     session_get := @session_get live;
     llm_invoke := @llm_invoke live;
     getenv := fun _ => None;
     now_isoformat := @now_isoformat live |}.

(** As [web_only], with a search client that answers its first text search
  and fails from the second one on. *)
Definition flaky : World :=
  {| wikipedia_page := @wikipedia_page live;
     ddgs_news := @ddgs_news live;
     ddgs_text := fun t query max_results =>
       if forallb (fun e => match e with DdgsText _ _ => false | _ => true end) t
       then @ddgs_text live t query max_results
       else Raised (Exception "RatelimitException" "202 Ratelimit");
     session_get := @session_get live;
     llm_invoke := @llm_invoke live;
     getenv := fun _ => None;
     now_isoformat := @now_isoformat live |}.

End Sample.

(** The profile as it would be without its stock lookup. *)
Definition clear_stock_performance (c : collected) : collected :=
  {| cd_company_name := cd_company_name c; cd_company_info := cd_company_info c;
     cd_news := cd_news c; cd_stock_performance := None;
     cd_sources := cd_sources c; cd_data_quality := cd_data_quality c;
     cd_timestamp := cd_timestamp c; cd_error := cd_error c |}.

(** The shape of a non-negative amount printed with [",.2f"]: read from the
  right, two digits, a dot, then the integer part in groups of three digits
  separated by commas, the leftmost group holding one to three digits. *)
Definition is_digit (c : ascii) : bool :=
  let n := N_of_ascii c in (48 <=? n)%N && (n <=? 57)%N.

Fixpoint grouped_from_right (ds : list ascii) : bool :=
  match ds with
  | [] => false
  | [a] => is_digit a
  | [a; b] => is_digit a && is_digit b
  | [a; b; c] => is_digit a && is_digit b && is_digit c
  | a :: b :: c :: sep :: rest =>
      is_digit a && is_digit b && is_digit c && Ascii.eqb sep ","%char
      && grouped_from_right rest
  end.

Definition amount_shape (s : string) : bool :=
  match rev (list_ascii_of_string s) with
  | d2 :: d1 :: dot :: int_rev =>
      is_digit d2 && is_digit d1 && Ascii.eqb dot "."%char && grouped_from_right int_rev
  | _ => false
  end.

(** The characters a formatted amount is made of. *)
Definition amount_char (c : ascii) : bool :=
  is_digit c || Ascii.eqb c ","%char || Ascii.eqb c "."%char || Ascii.eqb c "-"%char.

(** The state the validation node leaves behind. *)
Definition validated (state : AgentState) : AgentState :=
  let raw := st_raw_data state in
  let validation_passed :=
    negb (String.eqb (raw_quality raw) "error")
    && (raw_has_company_info raw || raw_has_news raw || raw_has_sources raw) in
  if validation_passed then set_validation_passed true state
  else set_analysis_results
         (insufficient_results (st_company_name state) (raw_quality raw))
         (set_validation_passed false state).

(** The state the collection node leaves behind when the collector raises. *)
Definition collection_failed (e : exn) (state : AgentState) : AgentState :=
  set_validation_passed false
    (set_raw_data (RawQualityOnly "error")
       (set_state_error ("Data collection error: " +:+ exn_str e) state)).

(** ** The rest of the analyst *)

(** [sep.join(parts)] *)
Fixpoint join (sep : string) (parts : list string) : string :=
  match parts with
  | [] => ""
  | x :: rest =>
      match rest with
      | [] => x
      | _ => x +:+ sep +:+ join sep rest
      end
  end.

(** What the analyst reads from [raw_data] with [.get(key, default)]: a dict
    without the keys reads as the defaults. *)
Definition raw_view (r : raw_data) : collected :=
  match r with
  | RawCollected c => c
  | RawQualityOnly q =>
      {| cd_company_name := "Unknown"; cd_company_info := ∅; cd_news := [];
         cd_stock_performance := None; cd_sources := []; cd_data_quality := q;
         cd_timestamp := ""; cd_error := None |}
  | RawEmpty =>
      {| cd_company_name := "Unknown"; cd_company_info := ∅; cd_news := [];
         cd_stock_performance := None; cd_sources := []; cd_data_quality := "unknown";
         cd_timestamp := ""; cd_error := None |}
  end.

Definition _insufficient_data_response (company_name : string) (raw : raw_data)
  : gmap string string :=
  <["executive_summary" := "Limited data available for " +:+ company_name +:+ "."]>
    (<["market_insights" := "• Insufficient data for detailed analysis"]>
       (<["risks_opportunities" :=
            "Risks:" +:+ nl +:+ "• Limited public information" +:+ nl +:+ nl
              +:+ "Opportunities:" +:+ nl +:+ "• Requires further research"]>
          (<["data_sources" := "Limited sources found"]>
             (<["data_quality" := "insufficient"]> ∅)))).

Definition _error_response (company_name error : string) : gmap string string :=
  <["executive_summary" := "Error analyzing " +:+ company_name +:+ "."]>
    (<["market_insights" := "• Analysis unavailable"]>
       (<["risks_opportunities" := "• Technical error occurred"]>
          (<["data_sources" := "Error"]>
             (<["data_quality" := "error"]> ∅)))).

Definition insights_prompt (company_name news stock : string) : string :=
  "Give exactly 3 bullet insights for " +:+ company_name +:+ " stock." +:+ nl +:+ nl
    +:+ "News: " +:+ news +:+ nl
    +:+ "Stock: " +:+ stock +:+ nl +:+ nl
    +:+ "Format:" +:+ nl
    +:+ "• Insight 1 (max 12 words)" +:+ nl
    +:+ "• Insight 2 (max 12 words)  " +:+ nl
    +:+ "• Insight 3 (max 12 words)" +:+ nl +:+ nl
    +:+ "Only use provided data. No invented stats.".

Definition insights_fallback (trend_ : string) : string :=
  "• Stock showing " +:+ trend_ +:+ " trend" +:+ nl
    +:+ "• Market sentiment mixed" +:+ nl
    +:+ "• Monitor for changes".

Definition risks_prompt (company_name context news recommendation_ : string) : string :=
  "Analyze risks and opportunities for " +:+ company_name +:+ "." +:+ nl +:+ nl
    +:+ "Context: " +:+ context +:+ nl
    +:+ "News: " +:+ news +:+ nl
    +:+ "Recommendation: " +:+ recommendation_ +:+ nl +:+ nl
    +:+ "Format EXACTLY:" +:+ nl
    +:+ "Risks:" +:+ nl
    +:+ "• Risk 1 (max 10 words)" +:+ nl
    +:+ "• Risk 2 (max 10 words)" +:+ nl +:+ nl
    +:+ "Opportunities:" +:+ nl
    +:+ "• Opportunity 1 (max 10 words)" +:+ nl
    +:+ "• Opportunity 2 (max 10 words)" +:+ nl +:+ nl
    +:+ "Be specific. No generic statements.".

Definition risks_fallback : string :=
  "Risks:" +:+ nl
    +:+ "• Market volatility may affect returns" +:+ nl
    +:+ "• Limited historical data" +:+ nl +:+ nl
    +:+ "Opportunities:" +:+ nl
    +:+ "• Potential growth in sector" +:+ nl
    +:+ "• Entry point for investment".

Section AnalystAgent.
Context `{World}.

(** [news[:n]] rendered one title per line *)
Definition news_lines (n : nat) (news : list news_item) : string :=
  join nl (map (fun item => "- " +:+ news_title item) (firstn n news)).

Definition _generate_insights (raw_data : collected) : M trace string :=
  let company_name := cd_company_name raw_data in
  let news := cd_news raw_data in
  let stock := cd_stock_performance raw_data in
  let news_text := news_lines 4 news in
  let stock_text :=
    "Trend: " +:+ match stock with Some d => trend d | None => "N/A" end
      +:+ ", Price: " +:+ match stock with Some d => current_price d | None => "N/A" end in
  try_catch
    (let* content :=
       call_llm (insights_prompt company_name
                   (if PyStr.truthy news_text then news_text else "No recent news")
                   stock_text) in
     ret (strip content))
    (fun _ =>
       let trend_ := match stock with Some d => trend d | None => "neutral" end in
       ret (insights_fallback trend_)).

Definition _generate_risks_opportunities (raw_data : collected) : M trace string :=
  let company_name := cd_company_name raw_data in
  let news := cd_news raw_data in
  let stock := cd_stock_performance raw_data in
  let company_info := cd_company_info raw_data in
  let context := take 300 (default "" (company_info !! "description")) in
  let news_text := news_lines 3 news in
  let rec := match stock with Some d => recommendation d | None => "HOLD" end in
  try_catch
    (let* content :=
       call_llm (risks_prompt company_name
                   (if PyStr.truthy context then context else "Technology company")
                   (if PyStr.truthy news_text then news_text else "No recent news")
                   rec) in
     ret (strip content))
    (fun _ => ret risks_fallback).

(** [sources[:5]] rendered one bullet per line, or the placeholder *)
Definition sources_text (sources : list string) : string :=
  match sources with
  | [] => "No sources"
  | _ => join nl (map (fun s => "• " +:+ s) (firstn 5 sources))
  end.

Definition analyze (r : raw_data) : M trace (gmap string string) :=
  let raw := raw_view r in
  let company_name := cd_company_name raw in
  let data_quality := cd_data_quality raw in
  if String.eqb data_quality "insufficient" || String.eqb data_quality "error" then
    ret (_insufficient_data_response company_name r)
  else
    try_catch
      (let* summary := _generate_summary raw in
       let* insights := _generate_insights raw in
       let* risks := _generate_risks_opportunities raw in
       ret (<["executive_summary" := summary]>
              (<["market_insights" := insights]>
                 (<["risks_opportunities" := risks]>
                    (<["data_sources" := sources_text (cd_sources raw)]>
                       (<["data_quality" := data_quality]> ∅))))))
      (fun e => ret (_error_response company_name (exn_str e))).

End AnalystAgent.

(** The workflow as the application wires it: the data collector and the
    analyst handed to the orchestrator. *)
Definition orchestrator_run `{PyLib} `{World} (company_name : string) : M trace AgentState :=
  run collect_data analyze company_name.

(** The requests to the language model among the events of a trace. *)
Definition is_llm_call (e : event) : bool :=
  match e with LlmInvoke _ => true | _ => false end.

(** ** More sample environments *)

Module Replies.

(** A 200 answer with the given body. *)
Definition ok (data : json) : outcome response :=
  Returned {| status_code := 200; response_json := Returned data |}.

(** The API key is set and the API gives the same answer to every request;
    encyclopedia and searches are silent; the language model can be chosen. *)
Definition api (answer : outcome response) (llm : outcome string) : World :=
  {| wikipedia_page := fun _ _ => Returned None;
     ddgs_news := fun _ _ _ => Returned [];
     ddgs_text := fun _ _ _ => Returned [];
     session_get := fun _ _ _ _ => answer;
     llm_invoke := fun _ _ => llm;
     getenv := fun name => if String.eqb name "INDIAN_API_KEY" then Some "k-123" else None;
     now_isoformat := fun _ => "2024-01-01T00:00:00" |}.

Definition rate_limited : outcome response :=
  Returned {| status_code := 429; response_json := Returned Sample.scenario_quote |}.

Definition error_report : json := JObj [("error", JStr "Stock not found")].

Definition scalar_price : list (string * json) :=
  [("currentPrice", JFloat (Sample.ratio 12345 10));
   ("price", JFloat (Sample.ratio 12345 10))].

Definition bse_only : list (string * json) :=
  [("currentPrice", JObj [("NSE", JInt 0); ("BSE", JFloat (PyNum.nearest 1500))]);
   ("price", JFloat (PyNum.nearest 1499))].

Definition no_change : list (string * json) :=
  [("currentPrice", JObj [("NSE", JInt 250)]); ("symbol", JStr "ACME")].

(** Bodies that Python's JSON decoder accepts: [1e999] decodes to an
    infinity, the token [NaN] to a NaN. *)
Definition infinite_price : list (string * json) :=
  [("currentPrice", JObj [("NSE", JFloat (S754_infinity false))])].

Definition nan_change : list (string * json) :=
  [("currentPrice", JObj [("NSE", JInt 250)]); ("percentChange", JFloat S754_nan)].

Definition falling : list (string * json) :=
  [("currentPrice", JObj [("NSE", JInt 250)]);
   ("percentChange", JObj [("NSE", JFloat (Sample.ratio (-5) 2))])].

(** A profile as the collector leaves it for a company with a description,
    one news item and an aggregated stock signal. *)
Definition profile (description : string) : collected :=
  {| cd_company_name := "Acme";
     cd_company_info := <["description" := description]> ∅;
     cd_news := [{| news_title := "Acme gains on strong results";
                    news_summary := "Shares of Acme rose.";
                    news_url := "https://news.example/acme";
                    news_date := "2024-01-01" |}];
     cd_stock_performance :=
       Some (_aggregate_stock_findings (empty_stock_info "Acme" "ACME") "Acme" "ACME");
     cd_sources := ["News: https://news.example/acme"; "Stock: Web search (0 sources)"];
     cd_data_quality := "high";
     cd_timestamp := "2024-01-01T00:00:00";
     cd_error := None |}.

End Replies.

(** From every state that satisfies [P], [m] returns, and its result and the
    local object it leaves satisfy [Q]. *)
Definition hoare {L A} (P : L -> Prop) (m : M (trace * L) A) (Q : A -> L -> Prop) : Prop :=
  forall t l, P l -> exists a t' l', m (t, l) = (Returned a, (t', l')) /\ Q a l'.

(** What holds of the profile between the steps of [collect_data]: the name
    it was created with, no error, and at most [n] citations. *)
Definition collecting (company_name : string) (n : nat) (c : collected) : Prop :=
  cd_company_name c = company_name /\ cd_error c = None /\ (length (cd_sources c) <= n)%nat.

(** The prompts the insight and risk generators send for a profile. *)
Definition insights_request (raw : collected) : string :=
  insights_prompt (cd_company_name raw)
    (if PyStr.truthy (news_lines 4 (cd_news raw)) then news_lines 4 (cd_news raw)
     else "No recent news")
    ("Trend: " +:+ match cd_stock_performance raw with Some d => trend d | None => "N/A" end
       +:+ ", Price: "
       +:+ match cd_stock_performance raw with Some d => current_price d | None => "N/A" end).

Definition risks_request (raw : collected) : string :=
  risks_prompt (cd_company_name raw)
    (if PyStr.truthy (take 300 (default "" (cd_company_info raw !! "description")))
     then take 300 (default "" (cd_company_info raw !! "description"))
     else "Technology company")
    (if PyStr.truthy (news_lines 3 (cd_news raw)) then news_lines 3 (cd_news raw)
     else "No recent news")
    match cd_stock_performance raw with Some d => recommendation d | None => "HOLD" end.

(** The dict [analyze] builds from the three texts. *)
Definition analysis_of (summary insights risks : string) (raw : collected)
  : gmap string string :=
  <["executive_summary" := summary]>
    (<["market_insights" := insights]>
       (<["risks_opportunities" := risks]>
          (<["data_sources" := sources_text (cd_sources raw)]>
             (<["data_quality" := cd_data_quality raw]> ∅)))).

(** The tiers for which the analyst answers without looking at the data. *)
Definition without_data (raw : collected) : bool :=
  String.eqb (cd_data_quality raw) "insufficient" || String.eqb (cd_data_quality raw) "error".

Definition analysis_keys : list string :=
  ["executive_summary"; "market_insights"; "risks_opportunities"; "data_sources";
   "data_quality"].

(** The final state of a run whose profile passed validation. *)
Definition analysed (company_name : string) (c : collected)
           (results : gmap string string) (error : option string) : AgentState :=
  {| st_company_name := company_name;
     st_raw_data := RawCollected c;
     st_analysis_results := results;
     st_error := error;
     st_validation_passed := true |}.

(** The test of the validation node on a collected profile. *)
Definition usable (c : collected) : bool :=
  negb (String.eqb (cd_data_quality c) "error")
  && (negb (bool_decide (cd_company_info c = ∅))
      || match cd_news c with [] => false | _ => true end
      || match cd_sources c with [] => false | _ => true end).

(** The dict [_search_wikipedia] builds for a page. *)
Definition wiki_dict (p : wiki_page) : gmap string string :=
  <["description" := wiki_summary p]>
    (<["url" := page_fullurl p]> (<["title" := page_title p]> ∅)).

(** The three names [_search_wikipedia] tries, in order. *)
Definition wiki_terms (company_name : string) : list string :=
  [company_name; company_name +:+ " company"; company_name +:+ " corporation"].

(** The citations [collect_data] writes for a list of news items: one for
    each of the first three that has a url. *)
Definition news_citations (news : list news_item) : list string :=
  map (fun article => "News: " +:+ news_url article)
      (List.filter (fun article => PyStr.truthy (news_url article)) (firstn 3 news)).

(** The encyclopedia citation that goes with a company info dict: present
    when the dict has a page title. *)
Definition wiki_citations (info : gmap string string) : list string :=
  match info !! "title" with
  | Some _ => ["Wikipedia: " +:+ default "N/A" (info !! "url")]
  | None => []
  end.

(** What the search client answers to a list of queries sent one after the
    other from trace [t] with [max_results=3], up to its first failure. *)
Fixpoint answered `{World} (queries : list string) (t : trace)
  : list (list (gmap string string)) :=
  match queries with
  | [] => []
  | query :: rest =>
      match ddgs_text t query 3 with
      | Returned results => results :: answered rest (t ++ [DdgsText query 3])%list
      | Raised _ => []
      end
  end.

(** The hits of a list scanned in order into a pool of findings. *)
Definition scan_hits `{PyLib} (hits : list (gmap string string)) (si : stock_info)
  : stock_info :=
  fold_left (fun pool r => scan_hit r pool) hits si.

(** * Properties *)

(** ** The definitions at work *)

Example format_2f_1234_5 :
  PyNum.format_2f false true (Sample.ratio 12345 10) = "1,234.50".
Proof. vm_compute. reflexivity. Qed.

Example format_2f_million :
  PyNum.format_2f false true (PyNum.nearest 1000000) = "1,000,000.00".
Proof. vm_compute. reflexivity. Qed.

Example format_2f_tie_even : PyNum.format_2f false true (Sample.ratio 1 8) = "0.12".
Proof. vm_compute. reflexivity. Qed.

Example format_2f_tie_up : PyNum.format_2f false true (Sample.ratio 3 8) = "0.38".
Proof. vm_compute. reflexivity. Qed.

Example format_2f_plus : PyNum.format_2f true false (Sample.ratio 31 10) = "+3.10".
Proof. vm_compute. reflexivity. Qed.

Example format_2f_minus : PyNum.format_2f true false (Sample.ratio (-5) 2) = "-2.50".
Proof. vm_compute. reflexivity. Qed.

Example format_2f_special :
  PyNum.format_2f false true (S754_infinity false) = "inf"
  /\ PyNum.format_2f true false (S754_infinity true) = "-inf"
  /\ PyNum.format_2f true false S754_nan = "+nan"
  /\ PyNum.format_2f false true (S754_zero true) = "-0.00"
  /\ PyNum.format_2f false true (Sample.ratio (-1) 1000) = "-0.00".
Proof. vm_compute. repeat split; reflexivity. Qed.

(** [float(2**53 + 1)] is [2**53]; [float(10**400)] raises. *)
Example float_of_int_rounds :
  PyNum.float_of_int (2 ^ 53 + 1) = PyNum.float_of_int (2 ^ 53)
  /\ PyNum.format_2f false true (PyNum.nearest (2 ^ 53 + 1)) = "9,007,199,254,740,992.00"
  /\ PyNum.float_of_int (10 ^ 400) = None.
Proof. vm_compute. repeat split; reflexivity. Qed.

(** The sum of 1712.1 and 773.03 rounds up, and so does the price shown:
  the exact mean of the two floats would print as 1,242.56. *)
Example average_price_rounds :
  option_map (PyNum.format_2f false true)
             (average_price [Sample.ratio 17121 10; Sample.ratio 77303 100])
  = Some "1,242.57".
Proof. vm_compute. reflexivity. Qed.

Example str_in_up : str_in "up" "supply rises" = true.
Proof. reflexivity. Qed.

Example aggregate_sample :
  let si := {| info_ticker := "ACME"; info_company := "Acme";
               prices_found := [PyNum.nearest 100; PyNum.nearest 200; PyNum.nearest 200];
               trends_found := ["bullish"; "bearish"; "bullish"];
               recommendations_found := ["SELL"; "BUY"];
               sources_checked := ["a"; "b"; "a"] |} in
  let r := _aggregate_stock_findings si "Acme" "ACME" in
  (current_price r, price_change_pct r, trend r, recommendation r, confidence r,
   source r, sources_analyzed r)
  = ("₹166.67", "~1% (est.)", "bullish", "BUY", "Moderate", "Web search (2 sources)", 2%nat).
Proof. vm_compute. reflexivity. Qed.


(** ** Substring test *)

Lemma prefix_spec (w t : string) :
  String.prefix w t = true <-> exists rest, t = w +:+ rest.
Proof.
  revert t. induction w as [|c w IH]; intros t.
  - split; [intros _; exists t; reflexivity | intros _; destruct t; reflexivity].
  - destruct t as [|d t]; simpl.
    + split; [discriminate | intros [rest Hr]; discriminate].
    + destruct (Ascii.ascii_dec c d) as [->|Hne].
      * rewrite IH. split; intros [rest Hr]; exists rest.
        -- now rewrite Hr.
        -- now inversion Hr.
      * split; [discriminate | intros [rest Hr]; inversion Hr; congruence].
Qed.

(** [str_in w t] holds exactly when [t] is of the form [before ++ w ++ after]. *)
Lemma str_in_spec (w t : string) :
  str_in w t = true <-> exists before after, t = before +:+ w +:+ after.
Proof.
  induction t as [|d t IH]; cbn [str_in].
  - destruct (String.prefix w "") eqn:Hp.
    + split; [intros _ | reflexivity].
      apply prefix_spec in Hp as [rest Hr]. exists "", rest. exact Hr.
    + split; [discriminate |].
      intros (before & after & Heq). destruct before; simpl in Heq; [|discriminate].
      assert (String.prefix w "" = true) by (apply prefix_spec; eauto). congruence.
  - destruct (String.prefix w (String d t)) eqn:Hp.
    + split; [intros _ | reflexivity].
      apply prefix_spec in Hp as [rest Hr]. exists "", rest. exact Hr.
    + rewrite IH. split.
      * intros (before & after & ->). exists (String d before), after. reflexivity.
      * intros (before & after & Heq). destruct before as [|b before]; simpl in Heq.
        -- assert (String.prefix w (String d t) = true) by (apply prefix_spec; eauto).
           congruence.
        -- inversion Heq; subst. eauto.
Qed.

(** ** Trend extraction *)

Lemma any_in_has_keyword words text :
  any_in words text = true <-> has_keyword words text.
Proof.
  unfold any_in, has_keyword. rewrite existsb_exists. reflexivity.
Qed.

(** The loop with [break] appends its vote once when some word matches and
  nothing otherwise. *)
Lemma vote_on_first_match_any words text vote votes :
  vote_on_first_match words text vote votes
  = if any_in words text then (votes ++ [vote])%list else votes.
Proof.
  induction words as [|w ws IH]; simpl; [reflexivity|].
  destruct (str_in w text); simpl; [reflexivity | exact IH].
Qed.

Lemma extract_trend_votes snippet title si :
  let text := lower (snippet +:+ " " +:+ title) in
  trends_found (_extract_trend_from_text snippet title si)
  = (trends_found si
       ++ (if any_in bullish_words text then ["bullish"] else [])
       ++ (if any_in bearish_words text then ["bearish"] else []))%list.
Proof.
  intros text. unfold _extract_trend_from_text. fold text.
  cbn [trends_found set_trends].
  rewrite !vote_on_first_match_any.
  destruct (any_in bullish_words text), (any_in bearish_words text);
    cbn [trends_found set_trends]; rewrite <- ?app_assoc, ?app_nil_r; reflexivity.
Qed.

(** C1, as the code has it: a text with a bullish and a bearish keyword gets
  both votes, the bullish one first; the bearish loop runs whatever the
  bullish loop found. *)
Theorem extract_trend_both_keywords snippet title si :
  has_keyword bullish_words (lower (snippet +:+ " " +:+ title)) ->
  has_keyword bearish_words (lower (snippet +:+ " " +:+ title)) ->
  trends_found (_extract_trend_from_text snippet title si)
  = (trends_found si ++ ["bullish"; "bearish"])%list.
Proof.
  intros Hb Hr. rewrite extract_trend_votes.
  apply any_in_has_keyword in Hb, Hr. rewrite Hb, Hr. reflexivity.
Qed.

Lemma extract_trend_both_keywords_witness :
  trends_found (_extract_trend_from_text "nifty gains, midcaps slip" "Markets down"
                  (empty_stock_info "Acme" "ACME"))
  = ["bullish"; "bearish"].
Proof.
  apply (extract_trend_both_keywords "nifty gains, midcaps slip" "Markets down"
           (empty_stock_info "Acme" "ACME")).
  - exists "gains". split; [simpl; tauto | reflexivity].
  - exists "down". split; [simpl; tauto | reflexivity].
Defined.

(** C1 as stated fails: on a snippet with "gains" and "falls" the extractor
  records a bearish vote next to the bullish one. *)
Lemma extract_trend_not_bullish_only :
  let snippet := "stock gains early, then falls" in
  let votes := trends_found (_extract_trend_from_text snippet ""
                               (empty_stock_info "Acme" "ACME")) in
  has_keyword bullish_words (lower (snippet +:+ " " +:+ ""))
  /\ has_keyword bearish_words (lower (snippet +:+ " " +:+ ""))
  /\ votes = ["bullish"; "bearish"]
  /\ votes <> ["bullish"].
Proof.
  cbv zeta. split; [|split; [|split]].
  - exists "gains". split; [simpl; tauto | reflexivity].
  - exists "falls". split; [simpl; tauto | reflexivity].
  - reflexivity.
  - discriminate.
Qed.

(** ** Vote aggregation *)

Section Votes.
Variables (si : stock_info) (company_name ticker_ : string).

Let result := _aggregate_stock_findings si company_name ticker_.
Let trends := trends_found si.
Let recs := recommendations_found si.

Lemma aggregate_trend : trend result = trend_consensus trends.
Proof.
  unfold result, _aggregate_stock_findings.
  destruct (recommendation_consensus _); reflexivity.
Qed.

Lemma aggregate_recommendation :
  (recommendation result, confidence result) = recommendation_consensus recs.
Proof.
  unfold result, _aggregate_stock_findings, recs.
  destruct (recommendation_consensus _); reflexivity.
Qed.

Lemma aggregate_current_price :
  current_price result = price_display (average_price (prices_found si)).
Proof.
  unfold result, _aggregate_stock_findings.
  destruct (recommendation_consensus _); reflexivity.
Qed.

End Votes.

Lemma count_nil x : PyNum.count x [] = 0%nat.
Proof. reflexivity. Qed.

Ltac split_counts :=
  repeat match goal with
         | |- context [(?a <? ?b)%nat] => destruct (Nat.ltb_spec a b)
         | |- context [(?a <=? ?b)%nat] => destruct (Nat.leb_spec a b)
         end.

(** C3: the trend is bullish on a bullish majority, bearish on a bearish
  majority, neutral on every tie, the tie of no votes at all included. *)
Theorem aggregate_trend_majority (si : stock_info) (company_name ticker_ : string) :
  let bullish_count := PyNum.count "bullish" (trends_found si) in
  let bearish_count := PyNum.count "bearish" (trends_found si) in
  let result := _aggregate_stock_findings si company_name ticker_ in
  (bearish_count < bullish_count -> trend result = "bullish")
  /\ (bullish_count < bearish_count -> trend result = "bearish")
  /\ (bullish_count = bearish_count -> trend result = "neutral")
  /\ (trends_found si = [] -> trend result = "neutral").
Proof.
  intros b r result. unfold result. rewrite aggregate_trend.
  subst b r. unfold trend_consensus.
  destruct (trends_found si) as [|v vs] eqn:Hv.
  - rewrite !count_nil. repeat split; intros; try reflexivity; lia.
  - repeat split; intros; try discriminate; split_counts; try reflexivity; lia.
Qed.

Lemma aggregate_trend_majority_witness :
  trend (_aggregate_stock_findings
           (set_trends ["bullish"; "bearish"; "bullish"] (empty_stock_info "Acme" "ACME"))
           "Acme" "ACME") = "bullish"
  /\ trend (_aggregate_stock_findings
              (set_trends ["bearish"] (empty_stock_info "Acme" "ACME"))
              "Acme" "ACME") = "bearish"
  /\ trend (_aggregate_stock_findings
              (set_trends ["bullish"; "bearish"] (empty_stock_info "Acme" "ACME"))
              "Acme" "ACME") = "neutral"
  /\ trend (_aggregate_stock_findings (empty_stock_info "Acme" "ACME") "Acme" "ACME")
     = "neutral".
Proof.
  split; [|split; [|split]].
  - apply (proj1 (aggregate_trend_majority
                    (set_trends ["bullish"; "bearish"; "bullish"]
                       (empty_stock_info "Acme" "ACME")) "Acme" "ACME")).
    vm_compute. lia.
  - apply (proj1 (proj2 (aggregate_trend_majority
                           (set_trends ["bearish"] (empty_stock_info "Acme" "ACME"))
                           "Acme" "ACME"))).
    vm_compute. lia.
  - apply (proj1 (proj2 (proj2 (aggregate_trend_majority
                                  (set_trends ["bullish"; "bearish"]
                                     (empty_stock_info "Acme" "ACME")) "Acme" "ACME")))).
    reflexivity.
  - apply (proj2 (proj2 (proj2 (aggregate_trend_majority
                                  (empty_stock_info "Acme" "ACME") "Acme" "ACME")))).
    reflexivity.
Defined.

(** C2: on every list that holds a vote the recommendation is BUY when the
  BUY count is at least the SELL count and at least the HOLD count,
  otherwise SELL when the SELL count is above the BUY count and at least
  the HOLD count, otherwise HOLD; BUY wins a three-way tie of counts above
  zero; when there is no vote at all the result is HOLD. *)
Theorem aggregate_recommendation_rule (si : stock_info) (company_name ticker_ : string) :
  let recs := recommendations_found si in
  let buy_count := PyNum.count "BUY" recs in
  let sell_count := PyNum.count "SELL" recs in
  let hold_count := PyNum.count "HOLD" recs in
  let result := _aggregate_stock_findings si company_name ticker_ in
  (recs <> [] ->
     (sell_count <= buy_count /\ hold_count <= buy_count -> recommendation result = "BUY")
     /\ (~ (sell_count <= buy_count /\ hold_count <= buy_count) ->
         buy_count < sell_count /\ hold_count <= sell_count ->
         recommendation result = "SELL")
     /\ (~ (sell_count <= buy_count /\ hold_count <= buy_count) ->
         ~ (buy_count < sell_count /\ hold_count <= sell_count) ->
         recommendation result = "HOLD"))
  /\ (buy_count = sell_count -> sell_count = hold_count -> 0 < hold_count ->
      recommendation result = "BUY")
  /\ (recs = [] -> recommendation result = "HOLD").
Proof.
  intros recs b s h result.
  pose proof (aggregate_recommendation si company_name ticker_) as Hagg.
  fold result recs in Hagg. unfold recommendation_consensus in Hagg. fold b s h in Hagg.
  destruct recs as [|v vs] eqn:Hrecs.
  - inversion Hagg as [[Hr Hc]]. split; [intros Hne; congruence|].
    split; [|reflexivity].
    subst b s h. rewrite !count_nil. lia.
  - revert Hagg. generalize dependent b. generalize dependent s. generalize dependent h.
    intros h s b.
    destruct (Nat.leb_spec s b), (Nat.leb_spec h b), (Nat.ltb_spec b s), (Nat.leb_spec h s);
      cbn [andb]; intros Hagg; inversion Hagg as [[Hr Hc]];
      (split; [intros _; repeat split; intros; try reflexivity; lia
              |split; [intros; try reflexivity; lia | discriminate]]).
Qed.

Lemma aggregate_recommendation_rule_witness :
  recommendation (_aggregate_stock_findings
                    (set_recommendations ["HOLD"; "SELL"; "BUY"] (empty_stock_info "Acme" "ACME"))
                    "Acme" "ACME") = "BUY"
  /\ recommendation (_aggregate_stock_findings
                       (set_recommendations ["HOLD"; "SELL"; "SELL"]
                          (empty_stock_info "Acme" "ACME"))
                       "Acme" "ACME") = "SELL"
  /\ recommendation (_aggregate_stock_findings
                       (set_recommendations ["HOLD"; "HOLD"; "SELL"]
                          (empty_stock_info "Acme" "ACME"))
                       "Acme" "ACME") = "HOLD"
  /\ recommendation (_aggregate_stock_findings (empty_stock_info "Acme" "ACME")
                       "Acme" "ACME") = "HOLD".
Proof.
  split; [|split; [|split]].
  - apply (proj1 (proj2 (aggregate_recommendation_rule
                           (set_recommendations ["HOLD"; "SELL"; "BUY"]
                              (empty_stock_info "Acme" "ACME")) "Acme" "ACME")));
      vm_compute; lia.
  - apply (proj1 (proj2 (proj1 (aggregate_recommendation_rule
                                  (set_recommendations ["HOLD"; "SELL"; "SELL"]
                                     (empty_stock_info "Acme" "ACME")) "Acme" "ACME")
                                 ltac:(discriminate))));
      vm_compute; lia.
  - apply (proj2 (proj2 (proj1 (aggregate_recommendation_rule
                                  (set_recommendations ["HOLD"; "HOLD"; "SELL"]
                                     (empty_stock_info "Acme" "ACME")) "Acme" "ACME")
                                 ltac:(discriminate))));
      vm_compute; lia.
  - apply (proj2 (proj2 (aggregate_recommendation_rule
                           (empty_stock_info "Acme" "ACME") "Acme" "ACME"))).
    reflexivity.
Defined.

(** C5, as the code has it: on a non-empty list of votes a BUY or SELL winner
  is "Strong" when its own count exceeds 2 and "Moderate" otherwise, a HOLD
  winner is "Moderate" whatever its count; with no vote at all the result is
  HOLD with "Low (limited data)". *)
Theorem aggregate_confidence_rule (si : stock_info) (company_name ticker_ : string) :
  let recs := recommendations_found si in
  let result := _aggregate_stock_findings si company_name ticker_ in
  let winning_count := PyNum.count (recommendation result) recs in
  (recs <> [] ->
     (recommendation result = "BUY" \/ recommendation result = "SELL" ->
      (2 < winning_count -> confidence result = "Strong")
      /\ (winning_count <= 2 -> confidence result = "Moderate"))
     /\ (recommendation result = "HOLD" -> confidence result = "Moderate"))
  /\ (recs = [] ->
      recommendation result = "HOLD" /\ confidence result = "Low (limited data)").
Proof.
  intros recs result winning_count.
  pose proof (aggregate_recommendation si company_name ticker_) as Hagg.
  fold result recs in Hagg. unfold recommendation_consensus in Hagg.
  subst winning_count.
  destruct recs as [|v vs] eqn:Hrecs.
  - inversion Hagg as [[Hr Hc]]. split; [congruence | intros _; split; reflexivity].
  - split; [intros _ | discriminate].
    revert Hagg.
    set (b := PyNum.count "BUY" (v :: vs)).
    set (s := PyNum.count "SELL" (v :: vs)).
    set (h := PyNum.count "HOLD" (v :: vs)).
    destruct ((s <=? b)%nat && (h <=? b)%nat).
    + intros Hagg; injection Hagg as Hr Hc. rewrite Hr, Hc. fold b.
      destruct (Nat.ltb_spec 2 b);
        (split; [intros _; split; intros; try reflexivity; lia | discriminate]).
    + destruct ((b <? s)%nat && (h <=? s)%nat).
      * intros Hagg; injection Hagg as Hr Hc. rewrite Hr, Hc. fold s.
        destruct (Nat.ltb_spec 2 s);
          (split; [intros _; split; intros; try reflexivity; lia | discriminate]).
      * intros Hagg; injection Hagg as Hr Hc. rewrite Hr, Hc.
        split; [intros [?|?]; discriminate | reflexivity].
Qed.

Lemma aggregate_confidence_rule_witness :
  confidence (_aggregate_stock_findings
                (set_recommendations ["BUY"; "BUY"; "SELL"; "BUY"]
                   (empty_stock_info "Acme" "ACME")) "Acme" "ACME") = "Strong"
  /\ confidence (_aggregate_stock_findings
                   (set_recommendations ["SELL"; "SELL"] (empty_stock_info "Acme" "ACME"))
                   "Acme" "ACME") = "Moderate"
  /\ confidence (_aggregate_stock_findings
                   (set_recommendations ["HOLD"; "HOLD"; "HOLD"; "HOLD"]
                      (empty_stock_info "Acme" "ACME")) "Acme" "ACME") = "Moderate"
  /\ confidence (_aggregate_stock_findings (empty_stock_info "Acme" "ACME") "Acme" "ACME")
     = "Low (limited data)".
Proof.
  split; [|split; [|split]].
  - apply (proj1 (proj1 (proj1 (aggregate_confidence_rule
                                  (set_recommendations ["BUY"; "BUY"; "SELL"; "BUY"]
                                     (empty_stock_info "Acme" "ACME")) "Acme" "ACME")
                                 ltac:(discriminate))
                          ltac:(left; reflexivity))).
    vm_compute. lia.
  - apply (proj2 (proj1 (proj1 (aggregate_confidence_rule
                                  (set_recommendations ["SELL"; "SELL"]
                                     (empty_stock_info "Acme" "ACME")) "Acme" "ACME")
                                 ltac:(discriminate))
                          ltac:(right; reflexivity))).
    vm_compute. lia.
  - apply (proj2 (proj1 (aggregate_confidence_rule
                           (set_recommendations ["HOLD"; "HOLD"; "HOLD"; "HOLD"]
                              (empty_stock_info "Acme" "ACME")) "Acme" "ACME")
                          ltac:(discriminate))).
    reflexivity.
  - apply (proj2 (aggregate_confidence_rule (empty_stock_info "Acme" "ACME")
                    "Acme" "ACME")).
    reflexivity.
Defined.

(** C5 as stated fails for a HOLD winner: three HOLD votes win with a count
  above 2 and the confidence is "Moderate". *)
Lemma aggregate_confidence_hold_not_strong :
  let si := set_recommendations ["HOLD"; "HOLD"; "HOLD"] (empty_stock_info "Acme" "ACME") in
  let result := _aggregate_stock_findings si "Acme" "ACME" in
  recommendations_found si <> []
  /\ recommendation result = "HOLD"
  /\ 2 < PyNum.count (recommendation result) (recommendations_found si)
  /\ confidence result = "Moderate"
  /\ confidence result <> "Strong".
Proof.
  cbv zeta. split; [discriminate|]. split; [reflexivity|].
  split; [vm_compute; lia|]. split; [reflexivity | discriminate].
Qed.

(** ** Binary64 rounding *)

Section Rounding.
Import PyNum.
Local Open Scope Z_scope.

Lemma digits2_pos_size (p : positive) : digits2_pos p = Pos.size p.
Proof. induction p; simpl; congruence. Qed.

Lemma digits2_bounds (p : positive) :
  2 ^ (Zpos (digits2_pos p) - 1) <= Zpos p < 2 ^ Zpos (digits2_pos p).
Proof.
  rewrite digits2_pos_size.
  pose proof (Pos.size_gt p) as Hgt. pose proof (Pos.size_le p) as Hle.
  split.
  - assert (H : 2 ^ Zpos (Pos.size p) <= 2 * Zpos p).
    { change (2 * Zpos p) with (Zpos p~0). rewrite <- Pos2Z.inj_pow. apply Pos2Z.pos_le_pos. exact Hle. }
    replace (Zpos (Pos.size p)) with (Z.succ (Zpos (Pos.size p) - 1)) in H by lia.
    rewrite Z.pow_succ_r in H by lia. lia.
  - rewrite <- Pos2Z.inj_pow. apply Pos2Z.pos_lt_pos. exact Hgt.
Qed.

Lemma Zdigits2_log2 (x : Z) : 0 < x -> Zdigits2 x = Z.log2 x + 1.
Proof.
  intros Hx. destruct x as [|p|p]; try lia. cbn [Zdigits2].
  pose proof (digits2_bounds p) as [Hlo Hhi].
  symmetry. apply Z.add_move_r. apply Z.log2_unique; [lia|].
  replace (Z.succ (Zpos (digits2_pos p) - 1)) with (Zpos (digits2_pos p)) by lia.
  split; assumption.
Qed.

Lemma shr_1_m (mrs : shr_record) : 0 <= shr_m mrs -> shr_m (shr_1 mrs) = shr_m mrs / 2.
Proof.
  destruct mrs as [m r s]. cbn [shr_m]. intros Hm. rewrite <- Z.div2_div.
  destruct m as [|[p|p|]|p]; try reflexivity. lia.
Qed.

Lemma iter_shr_1_m (n : positive) (mrs : shr_record) :
  0 <= shr_m mrs -> shr_m (SpecFloat.iter_pos shr_1 n mrs) = shr_m mrs / 2 ^ Zpos n.
Proof.
  revert mrs. induction n as [n IH|n IH|]; intros mrs Hm; cbn [SpecFloat.iter_pos].
  - assert (H1 : 0 <= shr_m (shr_1 mrs)) by (rewrite shr_1_m by exact Hm; apply Z.div_pos; lia).
    assert (H2 : 0 <= shr_m (SpecFloat.iter_pos shr_1 n (shr_1 mrs)))
      by (rewrite IH by exact H1; apply Z.div_pos; [exact H1 | apply Z.pow_pos_nonneg; lia]).
    rewrite IH by exact H2. rewrite IH by exact H1. rewrite shr_1_m by exact Hm.
    assert (Hp : 0 < 2 ^ Zpos n) by (apply Z.pow_pos_nonneg; lia).
    rewrite !Z.div_div by lia. f_equal.
    replace (Zpos n~1) with (1 + Zpos n + Zpos n) by lia.
    rewrite !Z.pow_add_r by lia. change (2 ^ 1) with 2. ring.
  - assert (H2 : 0 <= shr_m (SpecFloat.iter_pos shr_1 n mrs))
      by (rewrite IH by exact Hm; apply Z.div_pos; [exact Hm | apply Z.pow_pos_nonneg; lia]).
    rewrite IH by exact H2. rewrite IH by exact Hm.
    assert (Hp : 0 < 2 ^ Zpos n) by (apply Z.pow_pos_nonneg; lia).
    rewrite !Z.div_div by lia. f_equal.
    replace (Zpos n~0) with (Zpos n + Zpos n) by lia.
    rewrite !Z.pow_add_r by lia. ring.
  - rewrite shr_1_m by exact Hm. reflexivity.
Qed.

Lemma fexp_big (e : Z) : -1021 <= e -> fexp prec emax e = e - 53.
Proof. unfold fexp, SpecFloat.emin, prec, emax. lia. Qed.

Lemma Zdigits2_pos (x : Z) : 0 < x -> 0 < Zdigits2 x.
Proof. intros Hx. rewrite Zdigits2_log2 by exact Hx. pose proof (Z.log2_nonneg x). lia. Qed.

Lemma Zdigits2_le (x y : Z) : 0 < x -> x <= y -> Zdigits2 x <= Zdigits2 y.
Proof.
  intros Hx Hxy. rewrite !Zdigits2_log2 by lia. pose proof (Z.log2_le_mono x y Hxy). lia.
Qed.

Lemma Zdigits2_succ (x : Z) : 0 < x -> Zdigits2 (x + 1) <= Zdigits2 x + 1.
Proof.
  intros Hx. rewrite !Zdigits2_log2 by lia.
  pose proof (Z.log2_succ_le x). unfold Z.succ in *. lia.
Qed.

Lemma Zdigits2_shift (x k : Z) :
  0 < x -> 0 <= k < Zdigits2 x ->
  0 < x / 2 ^ k /\ Zdigits2 (x / 2 ^ k) = Zdigits2 x - k.
Proof.
  intros Hx Hk. rewrite Zdigits2_log2 in Hk by exact Hx.
  assert (Hpos : 0 < x / 2 ^ k).
  { apply Z.lt_le_trans with 1; [lia|].
    apply Z.div_le_lower_bound; [apply Z.pow_pos_nonneg; lia|].
    rewrite Z.mul_1_r. apply Z.le_trans with (2 ^ Z.log2 x).
    - apply Z.pow_le_mono_r; lia.
    - apply Z.log2_spec. exact Hx. }
  split; [exact Hpos|].
  rewrite !Zdigits2_log2 by assumption.
  rewrite <- Z.shiftr_div_pow2 by lia. rewrite Z.log2_shiftr by exact Hx. lia.
Qed.

Lemma shr_record_of_loc_m (m : Z) (l : location) : shr_m (shr_record_of_loc m l) = m.
Proof. destruct l as [|[]]; reflexivity. Qed.

Lemma shr_fexp_big (m e : Z) (l : location) :
  0 < m -> -1021 <= Zdigits2 m + e ->
  shr_m (fst (shr_fexp prec emax m e l)) = m / 2 ^ Z.max 0 (Zdigits2 m - 53)
  /\ snd (shr_fexp prec emax m e l) = e + Z.max 0 (Zdigits2 m - 53).
Proof.
  intros Hm Hmag. unfold shr_fexp, shr. rewrite fexp_big by exact Hmag.
  replace (Zdigits2 m + e - 53 - e) with (Zdigits2 m - 53) by lia.
  destruct (Zdigits2 m - 53) as [|p|p] eqn:Hn; cbn [fst snd].
  - rewrite shr_record_of_loc_m. cbn. rewrite Z.div_1_r. split; lia.
  - rewrite iter_shr_1_m by (rewrite shr_record_of_loc_m; lia).
    rewrite shr_record_of_loc_m. rewrite Z.max_r by lia. split; reflexivity.
  - rewrite shr_record_of_loc_m. rewrite Z.max_l by lia. cbn. rewrite Z.div_1_r. split; lia.
Qed.

Lemma round_nearest_even_range (m : Z) (l : location) :
  m <= round_nearest_even m l <= m + 1.
Proof.
  unfold round_nearest_even. destruct l as [|[]]; try lia. destruct (Z.even m); lia.
Qed.

(** Rounding a positive number that is not too small: the result is finite
    and non-zero, or an infinity, with the sign asked for, and its magnitude
    is that of the number or one more. *)
Lemma binary_round_aux_big (s : bool) (mx ex : Z) (lx : location) :
  0 < mx -> -1021 <= Zdigits2 mx + ex ->
  exists m e,
    binary_round_aux prec emax s mx ex lx
    = (if e <=? emax - prec then S754_finite s m e else S754_infinity s)
    /\ Zdigits2 mx + ex <= Zpos (digits2_pos m) + e <= Zdigits2 mx + ex + 1
    /\ e <= Z.max ex (Zdigits2 mx + ex - 52)
    /\ Zpos (digits2_pos m) <= 53.
Proof.
  intros Hm Hmag. unfold binary_round_aux.
  destruct (shr_fexp_big mx ex lx Hm Hmag) as [Hm1 He1].
  destruct (shr_fexp prec emax mx ex lx) as [mrs1 e1]. cbn [fst snd] in Hm1, He1.
  set (k1 := Z.max 0 (Zdigits2 mx - 53)) in *.
  assert (Hk1 : 0 <= k1 < Zdigits2 mx)
    by (pose proof (Zdigits2_pos mx Hm); unfold k1; lia).
  destruct (Zdigits2_shift mx k1 Hm Hk1) as [Hpos1 Hd1]. rewrite <- Hm1 in Hpos1, Hd1.
  pose proof (round_nearest_even_range (shr_m mrs1) (loc_of_shr_record mrs1)) as Hr.
  set (m2 := round_nearest_even (shr_m mrs1) (loc_of_shr_record mrs1)) in *.
  assert (Hm2 : 0 < m2) by lia.
  assert (Hd2 : Zdigits2 (shr_m mrs1) <= Zdigits2 m2 <= Zdigits2 (shr_m mrs1) + 1).
  { split; [apply Zdigits2_le; lia|].
    apply Z.le_trans with (Zdigits2 (shr_m mrs1 + 1)); [apply Zdigits2_le; lia|].
    apply Zdigits2_succ. exact Hpos1. }
  assert (Hmag2 : -1021 <= Zdigits2 m2 + e1) by lia.
  destruct (shr_fexp_big m2 e1 loc_Exact Hm2 Hmag2) as [Hm3 He3].
  destruct (shr_fexp prec emax m2 e1 loc_Exact) as [mrs3 e3]. cbn [fst snd] in Hm3, He3.
  set (k3 := Z.max 0 (Zdigits2 m2 - 53)) in *.
  assert (Hk3 : 0 <= k3 < Zdigits2 m2)
    by (pose proof (Zdigits2_pos m2 Hm2); unfold k3; lia).
  destruct (Zdigits2_shift m2 k3 Hm2 Hk3) as [Hpos3 Hd3]. rewrite <- Hm3 in Hpos3, Hd3.
  destruct (shr_m mrs3) as [|m3|m3] eqn:Hm3'; try lia.
  exists m3, e3. split; [reflexivity|].
  cbn [Zdigits2] in Hd3. unfold k1, k3 in *. lia.
Qed.

Lemma digits2_pos_iter_xO (m d : positive) :
  Zpos (digits2_pos (Pos.iter xO m d)) = Zpos (digits2_pos m) + Zpos d.
Proof.
  induction d as [|d IH] using Pos.peano_ind.
  - cbn [Pos.iter digits2_pos]. lia.
  - rewrite Pos.iter_succ. cbn [digits2_pos]. lia.
Qed.

Lemma shl_align_mag (mx : positive) (ex ex' : Z) :
  ex' <= ex ->
  snd (shl_align mx ex ex') = ex'
  /\ Zpos (digits2_pos (fst (shl_align mx ex ex'))) + ex' = Zpos (digits2_pos mx) + ex.
Proof.
  intros Hle. unfold shl_align. destruct (ex' - ex) as [|d|d] eqn:Hd; cbn [fst snd]; try lia.
  rewrite digits2_pos_iter_xO. lia.
Qed.

Lemma shl_align_same (mx : positive) (ex ex' : Z) :
  Zpos (digits2_pos (fst (shl_align mx ex ex'))) + snd (shl_align mx ex ex')
  = Zpos (digits2_pos mx) + ex
  /\ snd (shl_align mx ex ex') <= ex.
Proof.
  unfold shl_align. destruct (ex' - ex) as [|d|d] eqn:Hd; cbn [fst snd]; try lia.
  rewrite digits2_pos_iter_xO. lia.
Qed.

Lemma binary_round_big (s : bool) (mx : positive) (ex : Z) :
  -1021 <= Zpos (digits2_pos mx) + ex ->
  exists m e,
    binary_round prec emax s mx ex
    = (if e <=? emax - prec then S754_finite s m e else S754_infinity s)
    /\ Zpos (digits2_pos mx) + ex <= Zpos (digits2_pos m) + e
       <= Zpos (digits2_pos mx) + ex + 1
    /\ e <= Z.max ex (Zpos (digits2_pos mx) + ex - 52)
    /\ Zpos (digits2_pos m) <= 53.
Proof.
  intros Hmag. unfold binary_round.
  pose proof (shl_align_same mx ex (fexp prec emax (Zpos (digits2_pos mx) + ex))) as [Hsame Hle].
  destruct (shl_align mx ex (fexp prec emax (Zpos (digits2_pos mx) + ex))) as [mz ez].
  cbn [fst snd] in Hsame, Hle.
  destruct (binary_round_aux_big s (Zpos mz) ez loc_Exact) as (m & e & Hr & Hm & He & Hd).
  - lia.
  - cbn [Zdigits2]. lia.
  - exists m, e. cbn [Zdigits2] in Hm, He. split; [exact Hr|]. lia.
Qed.

Lemma SFadd_sizeable (x y : spec_float) :
  sizeable x -> sizeable y -> sizeable (SFadd prec emax x y).
Proof.
  destruct x as [sx|[]| |[] mx ex]; try contradiction;
    destruct y as [sy|[]| |[] my ey]; try contradiction; cbn [sizeable SFadd]; try exact (fun _ _ => I).
  intros Hx Hy. cbn [cond_Zopp].
  pose proof (shl_align_mag mx ex (Z.min ex ey) ltac:(lia)) as [_ Hax].
  set (a := fst (shl_align mx ex (Z.min ex ey))) in *.
  set (b := fst (shl_align my ey (Z.min ex ey))).
  change (Zpos a + Zpos b) with (Zpos (a + b)). cbn [binary_normalize].
  assert (Hab : Zpos (digits2_pos a) <= Zpos (digits2_pos (a + b))).
  { apply (Zdigits2_le (Zpos a) (Zpos (a + b))); lia. }
  destruct (binary_round_big false (a + b) (Z.min ex ey)) as (m & e & -> & Hm & _);
    [lia|].
  destruct (e <=? emax - prec); cbn [sizeable]; [lia | exact I].
Qed.

(** The float nearest to a positive integer is that integer rounded, or
    plus infinity. *)
Lemma nearest_positive (n : positive) :
  binary_normalize prec emax (Zpos n) 0 false = S754_infinity false
  \/ exists m e,
      binary_normalize prec emax (Zpos n) 0 false = S754_finite false m e
      /\ 1 <= Zpos (digits2_pos m) + e <= 1024.
Proof.
  cbn [binary_normalize].
  destruct (binary_round_big false n 0) as (m & e & -> & Hm & He & Hd); [lia|].
  destruct (Z.leb_spec e (emax - prec)) as [Hfin|Hinf]; [right | left; reflexivity].
  exists m, e. split; [reflexivity|]. unfold emax, prec in Hfin. lia.
Qed.

(** A sizeable float divided by a positive one that is not huge is a
    positive float or plus infinity: the quotient does not underflow. *)
Lemma SFdiv_sizeable (x : spec_float) (my : positive) (ey : Z) :
  sizeable x -> 1 <= Zpos (digits2_pos my) + ey <= 1024 ->
  SFdiv prec emax x (S754_finite false my ey) = S754_infinity false
  \/ exists m e, SFdiv prec emax x (S754_finite false my ey) = S754_finite false m e.
Proof.
  destruct x as [sx|[]| |[] mx ex]; try contradiction; cbn [sizeable];
    [intros _ _; left; reflexivity|].
  intros Hx Hy. cbn [SFdiv xorb]. unfold SFdiv_core_binary. cbn [Zdigits2].
  set (d1 := Zpos (digits2_pos mx)) in *. set (d2 := Zpos (digits2_pos my)) in *.
  rewrite fexp_big by lia.
  set (e' := Z.min (d1 + ex - (d2 + ey) - 53) (ex - ey)).
  set (s := ex - ey - e').
  assert (Hs : 0 <= s) by (unfold s, e'; lia).
  set (m' := match s with Z.pos _ => Z.shiftl (Zpos mx) s | 0 => Zpos mx | Z.neg _ => 0 end).
  assert (Hm' : m' = Zpos mx * 2 ^ s).
  { unfold m'. destruct s as [|p|p] eqn:Hsp; try lia.
    rewrite Z.shiftl_mul_pow2 by lia. reflexivity. }
  pose proof (Z.div_eucl_eq m' (Zpos my) ltac:(lia)) as Heucl.
  pose proof (Z.mod_pos_bound m' (Zpos my) ltac:(lia)) as Hmod.
  unfold Z.modulo in Hmod. 
  assert (Hq : fst (Z.div_eucl m' (Zpos my)) = m' / Zpos my) by reflexivity.
  destruct (Z.div_eucl m' (Zpos my)) as [q r]. cbn [fst] in Hq.
  set (j := d1 + s - 1 - d2).
  assert (Hj : 52 <= j) by (unfold j, s, e'; lia).
  assert (Hqj : 2 ^ j <= q).
  { rewrite Hq. apply Z.div_le_lower_bound; [lia|].
    pose proof (digits2_bounds mx) as [Hlo1 _]. pose proof (digits2_bounds my) as [_ Hhi2].
    fold d1 in Hlo1. fold d2 in Hhi2.
    apply Z.le_trans with (2 ^ d2 * 2 ^ j).
    - apply Z.mul_le_mono_nonneg_r; [apply Z.pow_nonneg; lia | lia].
    - rewrite <- Z.pow_add_r by lia. rewrite Hm'.
      replace (d2 + j) with ((d1 - 1) + s) by (unfold j; lia).
      rewrite Z.pow_add_r by lia.
      apply Z.mul_le_mono_nonneg_r; [apply Z.pow_nonneg; lia | exact Hlo1]. }
  assert (Hqpos : 0 < q).
  { apply Z.lt_le_trans with (2 ^ j); [apply Z.pow_pos_nonneg; lia | exact Hqj]. }
  assert (Hdq : j + 1 <= Zdigits2 q).
  { rewrite Zdigits2_log2 by exact Hqpos.
    apply Z.log2_le_pow2 in Hqj; lia. }
  destruct (binary_round_aux_big false q e' (new_location (Zpos my) r) Hqpos)
    as (m & e & -> & _).
  - unfold j, s in *. lia.
  - destruct (e <=? emax - prec); [right; eauto | left; reflexivity].
Qed.

End Rounding.

(** ** Price aggregation *)

(** A float strictly above 10 is sizeable. *)
Lemma in_range_sizeable (p : PyNum.float) : in_range p -> sizeable p.
Proof.
  intros [Hgt Hlt]. destruct p as [s|s| |s m e]; cbn [PyNum.gt PyNum.lt] in Hgt, Hlt.
  - destruct (Qlt_le_dec (inject_Z 10) (PyNum.value (S754_zero s))) as [H|];
      [|discriminate Hgt].
    exfalso. revert H. unfold Qlt. cbn. lia.
  - destruct s; discriminate.
  - discriminate Hgt.
  - destruct (Qlt_le_dec (inject_Z 10) (PyNum.value (S754_finite s m e))) as [H|];
      [|discriminate Hgt].
    clear Hgt Hlt. pose proof (digits2_bounds m) as [_ Hhi].
    set (d := Zpos (digits2_pos m)) in *.
    assert (Hd : (0 < d)%Z) by (unfold d; lia).
    unfold PyNum.value in H.
    destruct e as [|e|k].
    + assert (Hm : (10 < Zpos m)%Z)
        by (destruct s; revert H; unfold Qlt, Qopp, inject_Z; cbn [Qnum Qden];
            rewrite Z.pow_0_r; lia).
      destruct s; [revert H; unfold Qlt, Qopp, inject_Z; cbn [Qnum Qden];
                   rewrite Z.pow_0_r; lia|].
      cbn [sizeable]. fold d.
      destruct (Z.le_gt_cases 4 (d + 0)) as [|Hsmall]; [assumption|exfalso].
      assert ((2 ^ d <= 2 ^ 3)%Z) by (apply Z.pow_le_mono_r; lia).
      change ((2 ^ 3)%Z) with 8%Z in *. lia.
    + assert (Hp : (0 < 2 ^ Zpos e)%Z) by (apply Z.pow_pos_nonneg; lia).
      assert (Hm : (10 < Zpos m * 2 ^ Zpos e)%Z /\ s = false).
      { destruct s; revert H; unfold Qlt, Qopp, inject_Z; cbn [Qnum Qden]; [nia|].
        rewrite !Z.mul_1_r. auto. }
      destruct Hm as [Hm ->]. cbn [sizeable]. fold d.
      destruct (Z.le_gt_cases 4 (d + Zpos e)) as [|Hsmall]; [assumption|exfalso].
      assert ((2 ^ (d + Zpos e) <= 2 ^ 3)%Z) by (apply Z.pow_le_mono_r; lia).
      rewrite Z.pow_add_r in * by lia. change ((2 ^ 3)%Z) with 8%Z in *. nia.
    + assert (Hp : (0 < 2 ^ Zpos k)%Z) by (apply Z.pow_pos_nonneg; lia).
      assert (Hm : (10 * 2 ^ Zpos k < Zpos m)%Z /\ s = false).
      { destruct s; revert H; unfold Qlt, Qopp, inject_Z; cbn [Qnum Qden];
          rewrite Pos2Z.inj_pow; [nia|]. rewrite !Z.mul_1_r. auto. }
      destruct Hm as [Hm ->]. cbn [sizeable]. fold d.
      destruct (Z.le_gt_cases 4 (d + Zneg k)) as [|Hsmall]; [assumption|exfalso].
      assert ((2 ^ d <= 2 ^ (Zpos k + 3))%Z) by (apply Z.pow_le_mono_r; lia).
      rewrite Z.pow_add_r in * by lia. change ((2 ^ 3)%Z) with 8%Z in *. nia.
Qed.

Lemma fold_fadd_sizeable (l : list PyNum.float) (acc : PyNum.float) :
  sizeable acc -> Forall in_range l -> sizeable (fold_left PyNum.fadd l acc).
Proof.
  revert acc. induction l as [|p l IH]; intros acc Hacc Hall; cbn [fold_left].
  - exact Hacc.
  - apply IH; [|eapply Forall_inv_tail; exact Hall].
    apply SFadd_sizeable; [exact Hacc | apply in_range_sizeable].
    eapply Forall_inv; exact Hall.
Qed.

(** The leading [0] of [sum] leaves the first price as it is. *)
Lemma sum_from_first (p : PyNum.float) (rest : list PyNum.float) :
  in_range p -> PyNum.sum (p :: rest) = fold_left PyNum.fadd rest p.
Proof.
  intros Hp. apply in_range_sizeable in Hp. unfold PyNum.sum. cbn [fold_left].
  destruct p as [s|[]| |[] m e]; try contradiction; reflexivity.
Qed.

(** A positive float, or plus infinity, is above [0] and truthy. *)
Lemma positive_float_gt (x : PyNum.float) :
  x = S754_infinity false \/ (exists m e, x = S754_finite false m e) ->
  PyNum.gt x 0 = true /\ PyNum.truthy x = true.
Proof.
  intros [->|(m & e & ->)]; [split; reflexivity|]. split; [|reflexivity].
  cbn [PyNum.gt].
  destruct (Qlt_le_dec (inject_Z 0) (PyNum.value (S754_finite false m e))) as [|Hle];
    [reflexivity|exfalso].
  revert Hle. unfold PyNum.value.
  destruct e as [|e|k]; unfold Qle, inject_Z; cbn [Qnum Qden].
  - rewrite Z.pow_0_r. lia.
  - assert ((0 < 2 ^ Zpos e)%Z) by (apply Z.pow_pos_nonneg; lia). nia.
  - lia.
Qed.

(** The quotient of a sizeable sum by the length of a list. *)
Lemma fdiv_int_sizeable (x : PyNum.float) (n : nat) :
  sizeable x -> n <> 0%nat ->
  PyNum.truthy (PyNum.fdiv_int x (Z.of_nat n)) = true
  /\ (PyNum.float_of_int (Z.of_nat n) <> None ->
      PyNum.gt (PyNum.fdiv_int x (Z.of_nat n)) 0 = true).
Proof.
  intros Hx Hn. unfold PyNum.fdiv_int, PyNum.float_of_int, PyNum.nearest.
  destruct (Z.of_nat n) as [|k|k] eqn:Hk; try lia.
  destruct (nearest_positive k) as [Hinf | (m & e & Hfin & Hmag)].
  - rewrite Hinf. split; [reflexivity | congruence].
  - rewrite Hfin.
    destruct (positive_float_gt _ (SFdiv_sizeable x m e Hx Hmag)) as [Hgt Htruthy].
    split; [exact Htruthy | intros _; exact Hgt].
Qed.

Lemma average_price_cons (p : PyNum.float) (l : list PyNum.float) :
  average_price (p :: l)
  = Some (PyNum.fdiv_int (PyNum.sum (p :: l)) (Z.of_nat (length (p :: l)))).
Proof. reflexivity. Qed.

(** With in-range candidates the mean is what is displayed, and it is above
  zero. *)
Lemma price_display_in_range (prices : list PyNum.float) :
  prices <> [] -> Forall in_range prices ->
  exists mean,
    average_price prices = Some mean
    /\ price_display (average_price prices) = rupee +:+ PyNum.format_2f false true mean
    /\ (PyNum.float_of_int (Z.of_nat (length prices)) <> None -> PyNum.gt mean 0 = true).
Proof.
  intros Hne Hall. destruct prices as [|p l]; [congruence|].
  assert (Hsum : sizeable (PyNum.sum (p :: l))).
  { rewrite sum_from_first by (eapply Forall_inv; exact Hall).
    apply fold_fadd_sizeable; [|eapply Forall_inv_tail; exact Hall].
    apply in_range_sizeable. eapply Forall_inv; exact Hall. }
  destruct (fdiv_int_sizeable _ (length (p :: l)) Hsum ltac:(discriminate))
    as [Htruthy Hgt].
  eexists. split; [apply average_price_cons|]. split; [|exact Hgt].
  rewrite average_price_cons. unfold price_display. rewrite Htruthy. reflexivity.
Qed.



(** ** Reasoning about computations *)

Lemma returns_ret {S A} (a : A) : returns (ret (S := S) a).
Proof. intros s. eexists _, _. reflexivity. Qed.

Lemma returns_bind {S A B} (m : M S A) (k : A -> M S B) :
  returns m -> (forall a, returns (k a)) -> returns (bind m k).
Proof.
  intros Hm Hk s. unfold bind. destruct (Hm s) as (a & s' & ->). apply Hk.
Qed.

Lemma returns_try_catch {S A} (m : M S A) (handler : exn -> M S A) :
  (forall e, returns (handler e)) -> returns (try_catch m handler).
Proof.
  intros Hh s. unfold try_catch. destruct (m s) as [[e|a] s'].
  - apply Hh.
  - eexists _, _. reflexivity.
Qed.

Lemma returns_modify {L} (f : L -> L) : returns (modify f).
Proof. intros [t l]. eexists _, _. reflexivity. Qed.

Lemma returns_get_local {L} : returns (get_local (L := L)).
Proof. intros [t l]. eexists _, _. reflexivity. Qed.

Lemma returns_lift {L A} (m : M trace A) : returns m -> returns (lift (L := L) m).
Proof.
  intros Hm [t l]. unfold lift. destruct (Hm t) as (a & t' & ->). eexists _, _. reflexivity.
Qed.

Lemma returns_for_each {S A} (xs : list A) (body : A -> M S unit) :
  (forall x, returns (body x)) -> returns (for_each xs body).
Proof.
  intros Hb. induction xs as [|x xs IH]; cbn [for_each].
  - apply returns_ret.
  - apply returns_bind; [apply Hb | intros _; exact IH].
Qed.

Lemma returns_with_local {L A} (init : L) (m : M (trace * L) A) :
  returns m -> returns (with_local init m).
Proof.
  intros Hm t. unfold with_local. destruct (Hm (t, init)) as (a & [t' l] & ->).
  eexists _, _. reflexivity.
Qed.

Lemma keeps_ret {L A} (P : L -> Prop) (a : A) : keeps P (ret a).
Proof. intros t l Hl. exact Hl. Qed.

Lemma keeps_bind {L A B} (P : L -> Prop) (m : M (trace * L) A) (k : A -> M (trace * L) B) :
  keeps P m -> (forall a, keeps P (k a)) -> keeps P (bind m k).
Proof.
  intros Hm Hk t l Hl. unfold bind. specialize (Hm t l Hl).
  destruct (m (t, l)) as [[e|a] [t' l']]; cbn in *; [exact Hm | apply Hk; exact Hm].
Qed.

Lemma keeps_try_catch {L A} (P : L -> Prop) (m : M (trace * L) A) handler :
  keeps P m -> (forall e, keeps P (handler e)) -> keeps P (try_catch m handler).
Proof.
  intros Hm Hh t l Hl. unfold try_catch. specialize (Hm t l Hl).
  destruct (m (t, l)) as [[e|a] [t' l']]; cbn in *; [apply Hh; exact Hm | exact Hm].
Qed.

Lemma keeps_lift {L A} (P : L -> Prop) (m : M trace A) : keeps P (lift m).
Proof.
  intros t l Hl. unfold lift. destruct (m t) as [r t']. exact Hl.
Qed.

Lemma keeps_modify {L} (P : L -> Prop) (f : L -> L) :
  (forall l, P l -> P (f l)) -> keeps P (modify f).
Proof. intros Hf t l Hl. apply Hf, Hl. Qed.

Lemma keeps_for_each {L A} (P : L -> Prop) (xs : list A) (body : A -> M (trace * L) unit) :
  (forall x, keeps P (body x)) -> keeps P (for_each xs body).
Proof.
  intros Hb. induction xs as [|x xs IH]; cbn [for_each].
  - apply keeps_ret.
  - apply keeps_bind; [apply Hb | intros _; exact IH].
Qed.

(** ** Price extraction keeps the pool in range *)

Section ExtractorFacts.
Context `{PyLib}.

Lemma keep_price_in_range (prices : list PyNum.float) (m : string) :
  Forall in_range prices -> Forall in_range (keep_price prices m).
Proof.
  intros Hall. unfold keep_price.
  destruct (float_of_str (remove_commas m)) as [price|]; [|exact Hall].
  destruct (PyNum.gt price 10) eqn:Hlo; [|exact Hall].
  destruct (PyNum.lt price 500000) eqn:Hhi; [|exact Hall].
  apply Forall_app. split; [exact Hall|]. constructor; [split; assumption | constructor].
Qed.

Lemma fold_keep_price_in_range (ms : list string) (prices : list PyNum.float) :
  Forall in_range prices -> Forall in_range (fold_left keep_price ms prices).
Proof.
  revert prices. induction ms as [|m ms IH]; intros prices Hall; simpl.
  - exact Hall.
  - apply IH, keep_price_in_range, Hall.
Qed.

Lemma extract_price_in_range (text : string) (si : stock_info) :
  Forall in_range (prices_found si) ->
  Forall in_range (prices_found (_extract_price_from_text text si)).
Proof.
  intros Hall. unfold _extract_price_from_text. cbn [prices_found set_prices].
  generalize dependent (prices_found si). generalize inr_patterns.
  intros patterns. induction patterns as [|pat pats IH]; intros prices Hall; simpl.
  - exact Hall.
  - apply IH, fold_keep_price_in_range, Hall.
Qed.

Lemma extract_trend_prices snippet title si :
  prices_found (_extract_trend_from_text snippet title si) = prices_found si.
Proof. reflexivity. Qed.

Lemma extract_recommendation_prices snippet title si :
  prices_found (_extract_recommendation_from_text snippet title si) = prices_found si.
Proof.
  unfold _extract_recommendation_from_text.
  repeat match goal with |- context [if ?c then _ else _] => destruct c end; reflexivity.
Qed.

Lemma scan_hit_in_range (r : gmap string string) (si : stock_info) :
  Forall in_range (prices_found si) -> Forall in_range (prices_found (scan_hit r si)).
Proof.
  intros Hall. unfold scan_hit.
  rewrite extract_recommendation_prices, extract_trend_prices.
  apply extract_price_in_range. exact Hall.
Qed.

Context `{World}.

Lemma scrape_queries_in_range (queries : list string) :
  keeps (fun si => Forall in_range (prices_found si)) (scrape_queries queries).
Proof.
  unfold scrape_queries. apply keeps_for_each. intros query.
  apply keeps_bind; [apply keeps_lift|]. intros results.
  apply keeps_for_each. intros r. apply keeps_modify. apply scan_hit_in_range.
Qed.

(** The web path always returns, and what it returns is the aggregate of a
  pool whose prices are all in range. *)
Lemma scrape_returns_aggregate (company_name ticker_ : string) (t : trace) :
  exists si t',
    _scrape_stock_data_from_web company_name ticker_ t
    = (Returned (_aggregate_stock_findings si company_name ticker_), t')
    /\ Forall in_range (prices_found si).
Proof.
  unfold _scrape_stock_data_from_web, bind, with_local.
  set (body := try_catch (scrape_queries (search_queries company_name)) (fun _ => ret tt)).
  assert (Hret : returns body)
    by (apply returns_try_catch; intros e; apply returns_ret).
  assert (Hkeep : keeps (fun si => Forall in_range (prices_found si)) body)
    by (apply keeps_try_catch; [apply scrape_queries_in_range | intros e; apply keeps_ret]).
  specialize (Hkeep t (empty_stock_info company_name ticker_) (List.Forall_nil _)).
  destruct (Hret (t, empty_stock_info company_name ticker_)) as ([] & [t' si] & Hrun).
  rewrite Hrun in Hkeep |- *. cbn in Hkeep.
  exists si, t'. split; [reflexivity | exact Hkeep].
Qed.

End ExtractorFacts.

Example float_decimal_sample :
  option_map (PyNum.format_2f false false) (Sample.float_decimal "1480.25") = Some "1480.25".
Proof. vm_compute. reflexivity. Qed.

Example scrape_web_only :
  let r := fst (@_scrape_stock_data_from_web Sample.lib Sample.web_only "Acme" "ACME" []) in
  r = Returned
        {| ticker := JStr "ACME"; company := JStr "Acme"; current_price := "₹1,480.25";
           change_24hr := None; price_change_pct := "N/A"; volume := None;
           trend := "neutral"; recommendation := "BUY"; confidence := "Strong";
           source := "Web search (1 sources)"; sources_analyzed := 1;
           data_type := "web_aggregated"; verified := false |}.
Proof. vm_compute. reflexivity. Qed.

Example scrape_silent :
  let r := fst (@_scrape_stock_data_from_web Sample.lib Sample.silent "Acme" "ACME" []) in
  r = Returned
        {| ticker := JStr "ACME"; company := JStr "Acme"; current_price := "Data unavailable";
           change_24hr := None; price_change_pct := "N/A"; volume := None;
           trend := "neutral"; recommendation := "HOLD"; confidence := "Low (limited data)";
           source := "Web search (0 sources)"; sources_analyzed := 1;
           data_type := "web_aggregated"; verified := false |}.
Proof. vm_compute. reflexivity. Qed.

(** ** The price field of a web-aggregated result *)

Lemma price_display_nonempty (avg_price : option PyNum.float) :
  price_display avg_price <> "".
Proof.
  unfold price_display. destruct avg_price as [a|]; [|discriminate].
  destruct (PyNum.truthy a); discriminate.
Qed.

(** A truthy [current_price] is worth two points. *)
Lemma quality_score_price (data : collected) (d : stock_data) :
  cd_stock_performance data = Some d ->
  PyStr.truthy (current_price d) = true ->
  quality_score data = (quality_score (clear_stock_performance data) + 2)%nat.
Proof.
  intros Hd Hp. unfold quality_score. cbn [cd_stock_performance cd_company_info cd_news
    cd_sources clear_stock_performance]. rewrite Hd, Hp. cbn [PyStr.truthy].
  destruct (PyStr.truthy (default "" (cd_company_info data !! "description")));
    destruct (cd_news data); destruct (3 <=? length (cd_sources data))%nat; lia.
Qed.

(** C10: the price field of a web-aggregated result is never empty: it is
  the formatted mean when the pool holds in-range candidates and the
  placeholder "Data unavailable" when it holds none;
  every pool the web path builds is of that kind; and the placeholder,
  being a non-empty string, earns the profile the two points for a present
  price. *)
Theorem web_price_placeholder_scores `{PyLib} `{World} :
  (forall company_name ticker_ t, exists si t',
      _scrape_stock_data_from_web company_name ticker_ t
      = (Returned (_aggregate_stock_findings si company_name ticker_), t')
      /\ Forall in_range (prices_found si))
  /\ (forall si company_name ticker_,
        Forall in_range (prices_found si) ->
        let result := _aggregate_stock_findings si company_name ticker_ in
        current_price result <> ""
        /\ (prices_found si = [] -> current_price result = "Data unavailable")
        /\ (prices_found si <> [] ->
            exists mean, average_price (prices_found si) = Some mean
                         /\ current_price result
                            = rupee +:+ PyNum.format_2f false true mean))
  /\ (forall data si company_name ticker_,
        prices_found si = [] ->
        cd_stock_performance data = Some (_aggregate_stock_findings si company_name ticker_) ->
        quality_score data = (quality_score (clear_stock_performance data) + 2)%nat).
Proof.
  split; [|split].
  - intros. apply scrape_returns_aggregate.
  - intros si company_name ticker_ Hall result.
    unfold result. rewrite aggregate_current_price. split; [|split].
    + apply price_display_nonempty.
    + intros ->. reflexivity.
    + intros Hne.
      destruct (price_display_in_range _ Hne Hall) as (mean & Hsome & Hshow & _).
      eauto.
  - intros data si company_name ticker_ Hempty Hstock.
    apply (quality_score_price data _ Hstock).
    rewrite aggregate_current_price, Hempty. reflexivity.
Qed.

Lemma web_price_placeholder_scores_witness :
  let result := _aggregate_stock_findings (empty_stock_info "Acme" "ACME") "Acme" "ACME" in
  let data :=
    set_stock_performance result
      (initial_collected "Acme" "2024-01-01T00:00:00") in
  current_price result = "Data unavailable"
  /\ quality_score data = 2%nat
  /\ _assess_data_quality data = "low".
Proof.
  cbv zeta.
  pose proof (@web_price_placeholder_scores Sample.lib Sample.silent) as (_ & Hprice & Hscore).
  split; [|split].
  - apply (Hprice (empty_stock_info "Acme" "ACME") "Acme" "ACME"); [constructor | reflexivity].
  - rewrite (Hscore _ (empty_stock_info "Acme" "ACME") "Acme" "ACME");
      [vm_compute; reflexivity | reflexivity | reflexivity].
  - unfold _assess_data_quality.
    rewrite (Hscore _ (empty_stock_info "Acme" "ACME") "Acme" "ACME");
      [vm_compute; reflexivity | reflexivity | reflexivity].
Defined.

(** ** The shape of a formatted amount *)

Example amount_shape_yes : amount_shape "1,234.50" = true /\ amount_shape "0.07" = true.
Proof. split; reflexivity. Qed.

Example amount_shape_no :
  amount_shape "1234.50" = false /\ amount_shape "1,234.5" = false
  /\ amount_shape "1,23.50" = false /\ amount_shape ",123.50" = false.
Proof. repeat split; reflexivity. Qed.

Lemma list_ascii_of_string_app (a b : string) :
  list_ascii_of_string (a +:+ b) = (list_ascii_of_string a ++ list_ascii_of_string b)%list.
Proof. induction a as [|c a IH]; simpl; [reflexivity | now rewrite IH]. Qed.

Lemma digit_char_is_digit (d : Z) : (0 <= d < 10)%Z -> is_digit (PyNum.digit_char d) = true.
Proof.
  intros Hd.
  assert (d = 0 \/ d = 1 \/ d = 2 \/ d = 3 \/ d = 4 \/ d = 5 \/ d = 6 \/ d = 7 \/ d = 8
          \/ d = 9)%Z as Hcases by lia.
  repeat (destruct Hcases as [-> | Hcases]; [reflexivity|]). subst d. reflexivity.
Qed.

Lemma string_of_uint_digits (u : Decimal.uint) :
  Forall (fun c => is_digit c = true) (list_ascii_of_string (NilEmpty.string_of_uint u)).
Proof.
  induction u; simpl; constructor; (reflexivity || assumption).
Qed.

Lemma str_of_N_digits (n : N) :
  Forall (fun c => is_digit c = true) (list_ascii_of_string (PyNum.str_of_N n))
  /\ list_ascii_of_string (PyNum.str_of_N n) <> [].
Proof.
  unfold PyNum.str_of_N, NilZero.string_of_uint.
  destruct (N.to_uint n) as [|u|u|u|u|u|u|u|u|u|u].
  1: split; [repeat constructor | discriminate].
  all: split; [|simpl; discriminate].
  - apply (string_of_uint_digits (Decimal.D0 u)).
  - apply (string_of_uint_digits (Decimal.D1 u)).
  - apply (string_of_uint_digits (Decimal.D2 u)).
  - apply (string_of_uint_digits (Decimal.D3 u)).
  - apply (string_of_uint_digits (Decimal.D4 u)).
  - apply (string_of_uint_digits (Decimal.D5 u)).
  - apply (string_of_uint_digits (Decimal.D6 u)).
  - apply (string_of_uint_digits (Decimal.D7 u)).
  - apply (string_of_uint_digits (Decimal.D8 u)).
  - apply (string_of_uint_digits (Decimal.D9 u)).
Qed.

Lemma group3_rev_grouped (n : nat) (ds : list ascii) :
  (length ds <= n)%nat -> ds <> [] ->
  Forall (fun c => is_digit c = true) ds ->
  grouped_from_right (PyNum.group3_rev ds) = true.
Proof.
  revert ds. induction n as [|n IH]; intros ds Hlen Hne Hall.
  - destruct ds; [congruence | simpl in Hlen; lia].
  - destruct ds as [|a [|b [|c [|d rest]]]]; [congruence | | | |].
    + inversion Hall; subst. simpl. assumption.
    + inversion Hall as [|? ? Ha Hall1]; inversion Hall1; subst. simpl.
      rewrite Ha. assumption.
    + inversion Hall as [|? ? Ha Hall1]; inversion Hall1 as [|? ? Hb Hall2];
        inversion Hall2; subst. simpl. rewrite Ha, Hb. assumption.
    + inversion Hall as [|? ? Ha Hall1]; inversion Hall1 as [|? ? Hb Hall2];
        inversion Hall2 as [|? ? Hc Hall3]; subst.
      change (PyNum.group3_rev (a :: b :: c :: d :: rest))
        with (a :: b :: c :: ","%char :: PyNum.group3_rev (d :: rest)).
      cbn [grouped_from_right]. rewrite Ha, Hb, Hc. cbn [andb Ascii.eqb].
      replace (Ascii.eqb ","%char ","%char) with true by reflexivity. cbn [andb].
      apply IH; [simpl in *; lia | discriminate | assumption].
Qed.

Lemma thousands_grouped (n : N) :
  grouped_from_right (rev (list_ascii_of_string (PyNum.thousands (PyNum.str_of_N n)))) = true.
Proof.
  unfold PyNum.thousands.
  rewrite list_ascii_of_string_of_list_ascii, rev_involutive.
  destruct (str_of_N_digits n) as [Hall Hne].
  apply (group3_rev_grouped (length (rev (list_ascii_of_string (PyNum.str_of_N n))))).
  - lia.
  - intros Hnil. apply Hne. apply (f_equal (@rev ascii)) in Hnil.
    rewrite rev_involutive in Hnil. exact Hnil.
  - apply List.Forall_rev. exact Hall.
Qed.

Lemma hundredths_nonneg (x : Q) : (0 <= PyNum.hundredths x)%Z.
Proof.
  unfold PyNum.hundredths.
  assert (0 <= Z.abs (Qnum x) * 100 / Z.pos (Qden x))%Z
    by (apply Z.div_pos; lia).
  repeat match goal with |- context [if ?c then _ else _] => destruct c end; lia.
Qed.

(** A finite price printed with [",.2f"] is an optional minus sign followed
  by comma-separated groups of three digits, a dot and exactly two digits. *)
Lemma format_2f_shape (x : PyNum.float) :
  PyNum.is_finite x = true ->
  exists body,
    PyNum.format_2f false true x = (if PyNum.sign_bit x then "-" else "") +:+ body
    /\ amount_shape body = true.
Proof.
  intros Hfinite.
  set (h := PyNum.hundredths (PyNum.value x)).
  set (ip := PyNum.thousands (PyNum.str_of_N (Z.to_N (h / 100)))).
  set (c1 := PyNum.digit_char (h mod 100 / 10)).
  set (c2 := PyNum.digit_char ((h mod 100) mod 10)).
  exists (ip +:+ "." +:+ String c1 (String c2 "")). split.
  - destruct x as [s|s| |s m e]; try discriminate Hfinite; reflexivity.
  - unfold amount_shape.
    rewrite !list_ascii_of_string_app, !rev_app_distr. cbn [list_ascii_of_string rev app].
    assert (Hfp : (0 <= h mod 100 < 100)%Z) by (apply Z.mod_pos_bound; lia).
    assert (H1 : is_digit c1 = true).
    { apply digit_char_is_digit. split; [apply Z.div_pos; lia|].
      apply Z.div_lt_upper_bound; lia. }
    assert (H2 : is_digit c2 = true).
    { apply digit_char_is_digit. apply Z.mod_pos_bound. lia. }
    rewrite H1, H2. cbn [andb].
    replace (Ascii.eqb "."%char "."%char) with true by reflexivity. cbn [andb].
    apply thousands_grouped.
Qed.

(** ** The authoritative API adapter *)

Lemma run_pure_bind {A B} (m : pure_m A) (k : A -> pure_m B) :
  run_pure (bind m k)
  = match run_pure m with
    | Returned a => run_pure (k a)
    | Raised e => Raised e
    end.
Proof.
  unfold run_pure, bind. destruct (m tt) as [[e|a] []]; reflexivity.
Qed.

Lemma run_pure_of_outcome {A} (o : outcome A) : run_pure (of_outcome o) = o.
Proof. reflexivity. Qed.

Lemma run_pure_ret {A} (a : A) : run_pure (ret a) = Returned a.
Proof. reflexivity. Qed.

Section IndianApiFacts.
Context `{PyLib}.

(** What a successful parse is made of. *)
Lemma parse_quote_some (company_name : string) (data : json) (d : stock_data) :
  run_pure (parse_quote company_name data) = Returned (Some d) ->
  exists price p c,
    run_pure (resolve_price data) = Returned (Some price)
    /\ PyJson.float price = Returned p
    /\ run_pure (resolve_pct_change data) = Returned c
    /\ current_price d = rupee +:+ PyNum.format_2f false true p
    /\ trend d = trend_of_change c
    /\ recommendation d = _get_recommendation c
    /\ confidence d = confidence_of_change c
    /\ verified d = true
    /\ data_type d = "live"
    /\ source d = "IndianAPI (Live NSE/BSE)".
Proof.
  unfold parse_quote. rewrite run_pure_bind.
  destruct (run_pure (if negb (PyJson.truthy data) then ret true
                      else of_outcome (PyJson.contains "error" data)))
    as [e|has_error]; [discriminate|].
  destruct has_error.
  - rewrite run_pure_bind, run_pure_of_outcome.
    destruct (PyJson.get data "error" (JStr "No data")); discriminate.
  - rewrite run_pure_bind.
    destruct (run_pure (resolve_price data)) as [e|[price|]] eqn:Hprice;
      [discriminate| |discriminate].
    rewrite run_pure_bind.
    destruct (run_pure (resolve_pct_change data)) as [e|c] eqn:Hpct; [discriminate|].
    rewrite run_pure_bind, run_pure_of_outcome.
    destruct (PyJson.float price) as [e|p] eqn:Hfloat; [discriminate|].
    rewrite run_pure_bind, run_pure_of_outcome.
    destruct (PyJson.get data "symbol" _) as [e|symbol]; [discriminate|].
    rewrite run_pure_bind, run_pure_of_outcome.
    destruct (PyJson.get data "companyName" _) as [e|company_]; [discriminate|].
    rewrite run_pure_bind, run_pure_of_outcome.
    destruct (PyJson.get data "totalTradedVolume" _) as [e|volume_]; [discriminate|].
    rewrite run_pure_ret. intros [= <-].
    exists price, p, c. repeat split; assumption || reflexivity.
Qed.

(** Only a non-empty JSON object without an "error" key can be parsed into a
    signal. *)
Lemma parse_quote_object (company_name : string) (data : json) (d : stock_data) :
  run_pure (parse_quote company_name data) = Returned (Some d) ->
  exists fields,
    data = JObj fields /\ fields <> [] /\ PyJson.assoc "error" fields = None.
Proof.
  unfold parse_quote. rewrite run_pure_bind.
  destruct (PyJson.truthy data) eqn:Ht; cbn [negb].
  - rewrite run_pure_of_outcome.
    destruct (PyJson.contains "error" data) as [e|[|]] eqn:Hc; [discriminate| |].
    + rewrite run_pure_bind, run_pure_of_outcome.
      destruct (PyJson.get data "error" (JStr "No data")); discriminate.
    + rewrite run_pure_bind. unfold resolve_price at 1.
      rewrite run_pure_bind, run_pure_of_outcome.
      destruct data as [| | | | | |fields]; cbn [PyJson.get]; try discriminate.
      intros _. exists fields. split; [reflexivity|]. split.
      * intros ->. discriminate Ht.
      * cbn [PyJson.contains] in Hc. destruct (PyJson.assoc "error" fields);
          [discriminate Hc | reflexivity].
  - rewrite run_pure_ret, run_pure_bind, run_pure_of_outcome.
    destruct (PyJson.get data "error" (JStr "No data")); discriminate.
Qed.

(** The record a successful parse returns, field by field. *)
Lemma parse_quote_record (company_name : string) (data : json) (d : stock_data) :
  run_pure (parse_quote company_name data) = Returned (Some d) ->
  exists c,
    run_pure (resolve_pct_change data) = Returned c
    /\ price_change_pct d = PyNum.format_2f true false c +:+ "%"
    /\ change_24hr d = Some (price_change_pct d)
    /\ trend d = trend_of_change c
    /\ recommendation d = _get_recommendation c
    /\ confidence d = confidence_of_change c
    /\ sources_analyzed d = 1%nat
    /\ PyJson.get data "symbol" (JStr (take 6 (upper company_name))) = Returned (ticker d)
    /\ PyJson.get data "companyName" (JStr company_name) = Returned (company d)
    /\ (exists v, volume d = Some v
                  /\ PyJson.get data "totalTradedVolume" (JStr "N/A") = Returned v).
Proof.
  unfold parse_quote. rewrite run_pure_bind.
  destruct (run_pure (if negb (PyJson.truthy data) then ret true
                      else of_outcome (PyJson.contains "error" data)))
    as [e|has_error]; [discriminate|].
  destruct has_error.
  - rewrite run_pure_bind, run_pure_of_outcome.
    destruct (PyJson.get data "error" (JStr "No data")); discriminate.
  - rewrite run_pure_bind.
    destruct (run_pure (resolve_price data)) as [e|[price|]]; [discriminate| |discriminate].
    rewrite run_pure_bind.
    destruct (run_pure (resolve_pct_change data)) as [e|c] eqn:Hpct; [discriminate|].
    rewrite run_pure_bind, run_pure_of_outcome.
    destruct (PyJson.float price) as [e|p]; [discriminate|].
    rewrite run_pure_bind, run_pure_of_outcome.
    destruct (PyJson.get data "symbol" _) as [e|symbol] eqn:Hsym; [discriminate|].
    rewrite run_pure_bind, run_pure_of_outcome.
    destruct (PyJson.get data "companyName" _) as [e|company_] eqn:Hco; [discriminate|].
    rewrite run_pure_bind, run_pure_of_outcome.
    destruct (PyJson.get data "totalTradedVolume" _) as [e|volume_] eqn:Hvol; [discriminate|].
    rewrite run_pure_ret. intros [= <-].
    exists c. cbn. repeat split; eauto.
Qed.

(** A non-empty object without an "error" key that resolves to a price which
    converts, and to a percent change, is parsed into the signal. *)
Lemma parse_quote_run (company_name : string) (fields : list (string * json))
      (price : json) (p c : PyNum.float) :
  fields <> [] ->
  PyJson.assoc "error" fields = None ->
  run_pure (resolve_price (JObj fields)) = Returned (Some price) ->
  PyJson.float price = Returned p ->
  run_pure (resolve_pct_change (JObj fields)) = Returned c ->
  run_pure (parse_quote company_name (JObj fields))
  = Returned (Some (quote_signal company_name fields p c)).
Proof.
  intros Hne Herr Hprice Hfloat Hpct. unfold parse_quote.
  rewrite run_pure_bind.
  replace (PyJson.truthy (JObj fields)) with true
    by (destruct fields; [congruence | reflexivity]).
  cbn [negb]. rewrite run_pure_of_outcome. cbn [PyJson.contains]. rewrite Herr.
  rewrite run_pure_bind, Hprice, run_pure_bind, Hpct.
  rewrite run_pure_bind, run_pure_of_outcome, Hfloat.
  rewrite run_pure_bind, run_pure_of_outcome. cbn [PyJson.get].
  rewrite run_pure_bind, run_pure_of_outcome. cbn [PyJson.get].
  rewrite run_pure_bind, run_pure_of_outcome. cbn [PyJson.get].
  rewrite run_pure_ret. reflexivity.
Qed.

Lemma gt_finite (c : PyNum.float) (n : Z) :
  PyNum.is_finite c = true ->
  PyNum.gt c n = if Qlt_le_dec (inject_Z n) (PyNum.value c) then true else false.
Proof. destruct c; (discriminate || reflexivity). Qed.

Lemma lt_finite (c : PyNum.float) (n : Z) :
  PyNum.is_finite c = true ->
  PyNum.lt c n = if Qlt_le_dec (PyNum.value c) (inject_Z n) then true else false.
Proof. destruct c; (discriminate || reflexivity). Qed.

Lemma value_positive (m : positive) (e : Z) : (0 < PyNum.value (S754_finite false m e))%Q.
Proof.
  unfold PyNum.value. destruct e as [|e|k]; unfold Qlt, inject_Z; cbn [Qnum Qden].
  - rewrite Z.pow_0_r. lia.
  - assert ((0 < 2 ^ Zpos e)%Z) by (apply Z.pow_pos_nonneg; lia). nia.
  - lia.
Qed.

(** The magnitude of a finite float. *)
Lemma value_fabs (c : PyNum.float) :
  PyNum.is_finite c = true ->
  PyNum.is_finite (PyNum.fabs c) = true
  /\ ((0 <= PyNum.value c)%Q -> PyNum.value (PyNum.fabs c) = PyNum.value c)
  /\ ((PyNum.value c <= 0)%Q -> (PyNum.value (PyNum.fabs c) == - PyNum.value c)%Q).
Proof.
  destruct c as [s|s| |s m e]; try discriminate; intros _; (split; [reflexivity|]).
  - split; intros _; reflexivity.
  - pose proof (value_positive m e) as Hpos. destruct s; cbn [PyNum.fabs SFabs].
    + change (PyNum.value (S754_finite true m e))
        with (- PyNum.value (S754_finite false m e))%Q.
      split; [intros Hnn; exfalso; lra | intros _; ring].
    + split; [reflexivity | intros Hle; exfalso; lra].
Qed.

(** The signal of a finite percent change, by the ranges of its value. *)
Lemma signal_of_finite_change (c : PyNum.float) :
  PyNum.is_finite c = true ->
  let v := PyNum.value c in
  ((0 < v)%Q -> trend_of_change c = "bullish")
  /\ ((v < 0)%Q -> trend_of_change c = "bearish")
  /\ ((v == 0)%Q -> trend_of_change c = "neutral")
  /\ ((2 < v)%Q -> _get_recommendation c = "STRONG BUY")
  /\ ((0 < v)%Q /\ (v <= 2)%Q -> _get_recommendation c = "BUY")
  /\ ((-2 < v)%Q /\ (v <= 0)%Q -> _get_recommendation c = "HOLD")
  /\ ((v <= -2)%Q -> _get_recommendation c = "SELL")
  /\ (confidence_of_change c = "High" <-> (2 < v)%Q \/ (v < -2)%Q)
  /\ (confidence_of_change c = "Moderate" <-> (-2 <= v)%Q /\ (v <= 2)%Q).
Proof.
  intros Hfinite v. destruct (value_fabs c Hfinite) as (Hfa & Hpos & Hneg).
  unfold trend_of_change, _get_recommendation, confidence_of_change.
  rewrite !(gt_finite c), (lt_finite c), (gt_finite (PyNum.fabs c)) by assumption.
  fold v in Hpos, Hneg |- *. set (a := PyNum.value (PyNum.fabs c)) in *.
  change (inject_Z 2) with 2%Q. change (inject_Z 0) with 0%Q.
  change (inject_Z (-2)) with (-2 # 1)%Q.
  assert (Ha : ((0 <= v)%Q /\ (a == v)%Q) \/ ((v <= 0)%Q /\ (a == - v)%Q)).
  { destruct (Qlt_le_dec v 0) as [Hlt|Hle].
    - right. split; [lra | apply Hneg; lra].
    - left. split; [exact Hle | rewrite (Hpos Hle); reflexivity]. }
  clear Hpos Hneg.
  destruct (Qlt_le_dec 2 v), (Qlt_le_dec 0 v), (Qlt_le_dec v 0), (Qlt_le_dec (-2 # 1) v),
    (Qlt_le_dec 2 a); destruct Ha as [[Hs Ha]|[Hs Ha]];
    try (exfalso; lra);
    repeat split; intros; try reflexivity; try discriminate; try lra;
    try (exfalso; lra);
    try (left; lra); try (right; lra);
    repeat match goal with H : _ \/ _ |- _ => destruct H end;
    repeat match goal with H : _ /\ _ |- _ => destruct H end;
    exfalso; lra.
Qed.

(** The signal of a percent change that is not a number of its own. *)
Lemma signal_of_special_change :
  (trend_of_change (S754_infinity false) = "bullish"
   /\ _get_recommendation (S754_infinity false) = "STRONG BUY"
   /\ confidence_of_change (S754_infinity false) = "High")
  /\ (trend_of_change (S754_infinity true) = "bearish"
      /\ _get_recommendation (S754_infinity true) = "SELL"
      /\ confidence_of_change (S754_infinity true) = "High")
  /\ (trend_of_change S754_nan = "neutral"
      /\ _get_recommendation S754_nan = "SELL"
      /\ confidence_of_change S754_nan = "Moderate").
Proof. repeat split; reflexivity. Qed.

Context `{World}.

Lemma fetch_indian_api_some (company_name api_key : string) (t t' : trace) (d : stock_data) :
  _fetch_indian_api company_name api_key t = (Returned (Some d), t') ->
  exists response data,
    session_get t indian_api_url company_name api_key = Returned response
    /\ status_code response = 200%Z
    /\ response_json response = Returned data
    /\ run_pure (parse_quote company_name data) = Returned (Some d)
    /\ t' = (t ++ [HttpGet indian_api_url company_name api_key])%list.
Proof.
  unfold _fetch_indian_api, try_catch, bind, call_get, of_outcome, ret.
  destruct (session_get t indian_api_url company_name api_key) as [e|response] eqn:Hget;
    [discriminate|].
  destruct (Z.eqb_spec (status_code response) 200) as [Hs|Hs]; cbn [negb];
    [|discriminate].
  destruct (response_json response) as [e|data] eqn:Hjson; [discriminate|].
  destruct (run_pure (parse_quote company_name data)) as [e|[d'|]] eqn:Hparse;
    [discriminate| |discriminate].
  intros [= <- <-]. exists response, data. repeat split; assumption || reflexivity.
Qed.

(** A 200 answer with a JSON body yields what the body parses to, a raising
    parse included: the adapter turns it into no signal. *)
Lemma fetch_indian_api_run (company_name api_key : string) (t : trace)
      (response : response) (data : json) (r : option stock_data) :
  session_get t indian_api_url company_name api_key = Returned response ->
  status_code response = 200%Z ->
  response_json response = Returned data ->
  run_pure (parse_quote company_name data) = Returned r ->
  _fetch_indian_api company_name api_key t
  = (Returned r, (t ++ [HttpGet indian_api_url company_name api_key])%list).
Proof.
  intros Hget Hstatus Hjson Hparse.
  unfold _fetch_indian_api, try_catch, bind, call_get, of_outcome, ret.
  rewrite Hget, Hstatus, Hjson, Hparse. reflexivity.
Qed.

(** The adapter never raises. *)
Lemma fetch_indian_api_returns (company_name api_key : string) :
  returns (_fetch_indian_api company_name api_key).
Proof.
  unfold _fetch_indian_api. apply returns_try_catch. intros e. apply returns_ret.
Qed.

Lemma fetch_indian_api_trace (company_name api_key : string) (t : trace) :
  snd (_fetch_indian_api company_name api_key t)
  = (t ++ [HttpGet indian_api_url company_name api_key])%list.
Proof.
  unfold _fetch_indian_api, try_catch, bind, call_get, of_outcome, ret.
  destruct (session_get t indian_api_url company_name api_key) as [e|response];
    [reflexivity|].
  destruct (negb (status_code response =? 200)%Z); [reflexivity|].
  destruct (response_json response) as [e|data]; [reflexivity|].
  destruct (run_pure (parse_quote company_name data)) as [e|r]; reflexivity.
Qed.

End IndianApiFacts.

(** C7, as the code has it. A 200 response whose body is a non-empty object
  without an "error" key, which resolves to a price that converts to the
  float [p] and to the percent change [c], yields a verified signal after
  the one request. The price is shown as the rupee sign followed by [p]
  in the format [",.2f"]: for a finite [p] that is [p] rounded to two
  decimals with comma-separated thousands; an infinite [p] is shown as
  "inf" and a NaN as "nan", without separators or decimals. For a finite
  [c] the trend follows the sign of [c], the recommendation the
  thresholds 2, 0 and -2 (the spec's STRONG_BUY is the string
  "STRONG BUY"), and the confidence is "High" exactly when [|c| > 2]; an
  infinite [c] counts as above or below every threshold, and a NaN, which
  compares false with everything, gives neutral, SELL, Moderate. Every
  signal the adapter returns comes from such a response. The scenario of
  the spec (NSE price 1234.5, change 3.1, company "Acme") yields
  "₹1,234.50", bullish, STRONG BUY, High. *)
Theorem indian_api_signal `{PyLib} `{World} :
  (forall company_name api_key t response fields price p c,
      session_get t indian_api_url company_name api_key = Returned response ->
      status_code response = 200%Z ->
      response_json response = Returned (JObj fields) ->
      fields <> [] ->
      PyJson.assoc "error" fields = None ->
      run_pure (resolve_price (JObj fields)) = Returned (Some price) ->
      PyJson.float price = Returned p ->
      run_pure (resolve_pct_change (JObj fields)) = Returned c ->
      let d := quote_signal company_name fields p c in
      let v := PyNum.value c in
      _fetch_indian_api company_name api_key t
      = (Returned (Some d), (t ++ [HttpGet indian_api_url company_name api_key])%list)
      /\ current_price d = rupee +:+ PyNum.format_2f false true p
      /\ (PyNum.is_finite p = true ->
          exists body,
            current_price d
            = rupee +:+ (if PyNum.sign_bit p then "-" else "") +:+ body
            /\ amount_shape body = true)
      /\ (p = S754_infinity false -> current_price d = "₹inf")
      /\ (p = S754_infinity true -> current_price d = "₹-inf")
      /\ (p = S754_nan -> current_price d = "₹nan")
      /\ (PyNum.is_finite c = true ->
          ((0 < v)%Q -> trend d = "bullish")
          /\ ((v < 0)%Q -> trend d = "bearish")
          /\ ((v == 0)%Q -> trend d = "neutral")
          /\ ((2 < v)%Q -> recommendation d = "STRONG BUY")
          /\ ((0 < v)%Q /\ (v <= 2)%Q -> recommendation d = "BUY")
          /\ ((-2 < v)%Q /\ (v <= 0)%Q -> recommendation d = "HOLD")
          /\ ((v <= -2)%Q -> recommendation d = "SELL")
          /\ (confidence d = "High" <-> (2 < v)%Q \/ (v < -2)%Q)
          /\ (confidence d = "Moderate" <-> (-2 <= v)%Q /\ (v <= 2)%Q))
      /\ (c = S754_infinity false ->
          trend d = "bullish" /\ recommendation d = "STRONG BUY" /\ confidence d = "High")
      /\ (c = S754_infinity true ->
          trend d = "bearish" /\ recommendation d = "SELL" /\ confidence d = "High")
      /\ (c = S754_nan ->
          trend d = "neutral" /\ recommendation d = "SELL" /\ confidence d = "Moderate")
      /\ verified d = true)
  /\ (forall company_name api_key t t' d,
        _fetch_indian_api company_name api_key t = (Returned (Some d), t') ->
        exists response fields price p c,
          session_get t indian_api_url company_name api_key = Returned response
          /\ status_code response = 200%Z
          /\ response_json response = Returned (JObj fields)
          /\ fields <> []
          /\ PyJson.assoc "error" fields = None
          /\ run_pure (resolve_price (JObj fields)) = Returned (Some price)
          /\ PyJson.float price = Returned p
          /\ run_pure (resolve_pct_change (JObj fields)) = Returned c
          /\ d = quote_signal company_name fields p c)
  /\ (forall api_key t,
        session_get t indian_api_url "Acme" api_key
        = Returned {| status_code := 200; response_json := Returned Sample.scenario_quote |} ->
        _fetch_indian_api "Acme" api_key t
        = (Returned (Some Sample.scenario_signal),
           (t ++ [HttpGet indian_api_url "Acme" api_key])%list)).
Proof.
  split; [|split].
  - intros company_name api_key t response fields price p c
           Hget Hstatus Hjson Hne Herr Hprice Hfloat Hpct d v.
    split.
    { apply (fetch_indian_api_run _ _ _ response (JObj fields)); try assumption.
      apply (parse_quote_run _ _ price); assumption. }
    split; [reflexivity|].
    split.
    { intros Hfinite. destruct (format_2f_shape p Hfinite) as (body & Hbody & Hshape).
      exists body. split; [|exact Hshape]. cbn [d quote_signal current_price].
      rewrite Hbody. reflexivity. }
    split; [intros ->; reflexivity|]. split; [intros ->; reflexivity|].
    split; [intros ->; reflexivity|].
    split; [intros Hfinite; exact (signal_of_finite_change c Hfinite)|].
    destruct signal_of_special_change as (Hpinf & Hninf & Hnan).
    split; [intros ->; exact Hpinf|]. split; [intros ->; exact Hninf|].
    split; [intros ->; exact Hnan | reflexivity].
  - intros company_name api_key t t' d Hfetch.
    apply fetch_indian_api_some in Hfetch
      as (response & data & Hget & Hstatus & Hjson & Hparse & _).
    destruct (parse_quote_object _ _ _ Hparse) as (fields & -> & Hne & Herr).
    destruct (parse_quote_some _ _ _ Hparse)
      as (price & p & c & Hprice & Hfloat & Hpct & _).
    exists response, fields, price, p, c.
    repeat (split; [assumption|]).
    rewrite (parse_quote_run company_name fields price p c Hne Herr Hprice Hfloat Hpct)
      in Hparse.
    congruence.
  - intros api_key t Hget.
    unfold _fetch_indian_api, try_catch, bind, call_get, of_outcome, ret.
    rewrite Hget. vm_compute. reflexivity.
Qed.

Lemma indian_api_signal_witness :
  exists d,
    fst (@_fetch_indian_api Sample.lib Sample.live "Acme" "k-123" []) = Returned (Some d)
    /\ current_price d = "₹1,234.50"
    /\ trend d = "bullish"
    /\ recommendation d = "STRONG BUY"
    /\ confidence d = "High"
    /\ verified d = true.
Proof.
  destruct (proj1 (@indian_api_signal Sample.lib Sample.live) "Acme" "k-123" []
              {| status_code := 200; response_json := Returned Sample.acme_quote |}
              [("companyName", JStr "Acme Ltd"); ("symbol", JStr "ACME");
               ("currentPrice", JObj [("NSE", JFloat (Sample.ratio 12345 10));
                                      ("BSE", JFloat (Sample.ratio 12344 10))]);
               ("percentChange", JFloat (Sample.ratio 31 10))]
              (JFloat (Sample.ratio 12345 10)) (Sample.ratio 12345 10) (Sample.ratio 31 10)
              eq_refl eq_refl eq_refl ltac:(discriminate) eq_refl eq_refl eq_refl eq_refl)
    as (Hrun & Hshow & _ & _ & _ & _ & Hfinite & _ & _ & _ & Hver).
  destruct (Hfinite eq_refl) as (Hup & _ & _ & Hsb & _ & _ & _ & Hhigh & _).
  eexists. split; [rewrite Hrun; reflexivity|].
  split; [rewrite Hshow; vm_compute; reflexivity|].
  split; [apply Hup; vm_compute; reflexivity|].
  split; [apply Hsb; vm_compute; reflexivity|].
  split; [apply Hhigh; left; vm_compute; reflexivity | exact Hver].
Defined.

(** C7 as stated fails for a price that is not finite: the body
  [{"currentPrice": {"NSE": 1e999}}] is a successful response, and its
  signal shows the price as "₹inf", which has neither separators nor
  decimals. *)
Lemma indian_api_price_without_decimals :
  exists d,
    fst (@_fetch_indian_api Sample.lib
           (Replies.api (Replies.ok (JObj Replies.infinite_price)) (Returned ""))
           "Acme" "k-123" []) = Returned (Some d)
    /\ verified d = true
    /\ current_price d = "₹inf"
    /\ forall body,
        amount_shape body = true ->
        current_price d <> rupee +:+ body /\ current_price d <> rupee +:+ "-" +:+ body.
Proof.
  eexists. split; [vm_compute; reflexivity|]. split; [reflexivity|].
  split; [reflexivity|].
  intros body Hshape. cbn [current_price]. unfold rupee. split; intros Heq.
  - cbn in Heq. injection Heq as Heq. change ("inf" = body) in Heq. subst body.
    discriminate Hshape.
  - cbn in Heq. discriminate Heq.
Qed.

(** ** The source priority resolver *)

Section ResolverFacts.
Context `{PyLib} `{World}.

Lemma aggregate_provenance (si : stock_info) (company_name ticker_ : string) :
  verified (_aggregate_stock_findings si company_name ticker_) = false
  /\ data_type (_aggregate_stock_findings si company_name ticker_) = "web_aggregated".
Proof.
  unfold _aggregate_stock_findings. destruct (recommendation_consensus _). split; reflexivity.
Qed.

(** The loop over the hits of one query touches the pool only. *)
Lemma scan_results_run (results : list (gmap string string)) (t : trace) (si : stock_info) :
  for_each results (fun r => modify (scan_hit r)) (t, si)
  = (Returned tt, (t, scan_hits results si)).
Proof.
  revert si. induction results as [|r rest IH]; intros si; [reflexivity|].
  cbn [for_each]. unfold bind at 1, modify at 1. rewrite IH. reflexivity.
Qed.

Lemma scan_hits_app (a b : list (gmap string string)) (si : stock_info) :
  scan_hits (a ++ b) si = scan_hits b (scan_hits a si).
Proof. unfold scan_hits. apply fold_left_app. Qed.

Lemma scrape_queries_step (query : string) (rest : list string) (t : trace)
      (si : stock_info) :
  scrape_queries (query :: rest) (t, si)
  = match ddgs_text t query 3 with
    | Raised e => (Raised e, ((t ++ [DdgsText query 3])%list, si))
    | Returned results =>
        scrape_queries rest ((t ++ [DdgsText query 3])%list, scan_hits results si)
    end.
Proof.
  unfold scrape_queries. cbn [for_each]. unfold bind at 1 2. unfold lift, call_text.
  destruct (ddgs_text t query 3) as [e|results]; [reflexivity|].
  rewrite scan_results_run. reflexivity.
Qed.

(** The loop over the queries, inside its [try]. *)
Lemma scrape_queries_run (queries : list string) (t : trace) (si : stock_info) :
  try_catch (scrape_queries queries) (fun _ => ret tt) (t, si)
  = (Returned tt,
     ((t ++ map (fun q => DdgsText q 3)
                (firstn (S (length (answered queries t))) queries))%list,
      scan_hits (concat (answered queries t)) si)).
Proof.
  revert t si. induction queries as [|query rest IH]; intros t si.
  - cbn. rewrite app_nil_r. reflexivity.
  - unfold try_catch in *. rewrite scrape_queries_step. cbn [answered].
    destruct (ddgs_text t query 3) as [e|results]; [reflexivity|].
    rewrite IH. cbn [length firstn map concat].
    rewrite scan_hits_app, <- app_assoc. reflexivity.
Qed.

(** The resolver, case by case. *)
Lemma resolver_unfold (company_name : string) (t : trace) :
  let api_key := default "" (getenv "INDIAN_API_KEY") in
  let ticker_ := take 6 (upper company_name) in
  _get_stock_data_multi_source company_name t
  = if api_key_usable api_key then
      match _fetch_indian_api company_name api_key t with
      | (Returned (Some d), t1) =>
          if price_accepted (Some d) then (Returned d, t1)
          else _scrape_stock_data_from_web company_name ticker_ t1
      | (Returned None, t1) => _scrape_stock_data_from_web company_name ticker_ t1
      | (Raised e, t1) => (Raised e, t1)
      end
    else _scrape_stock_data_from_web company_name ticker_ t.
Proof.
  intros api_key ticker_. unfold _get_stock_data_multi_source. fold api_key ticker_.
  destruct (api_key_usable api_key); [|reflexivity].
  unfold bind.
  destruct (_fetch_indian_api company_name api_key t) as [[e|[d|]] t1]; [reflexivity| |].
  - destruct (price_accepted (Some d)); reflexivity.
  - reflexivity.
Qed.

End ResolverFacts.

(** ** Every price the API adapter returns passes the resolver's test *)

Lemma group3_rev_chars (P : ascii -> Prop) (n : nat) (ds : list ascii) :
  (length ds <= n)%nat -> P ","%char -> Forall P ds -> Forall P (PyNum.group3_rev ds).
Proof.
  intros Hlen Hcomma. revert ds Hlen. induction n as [|n IH]; intros ds Hlen Hall.
  - destruct ds; [constructor | simpl in Hlen; lia].
  - destruct ds as [|a [|b [|c [|d rest]]]]; try exact Hall.
    change (PyNum.group3_rev (a :: b :: c :: d :: rest))
      with (a :: b :: c :: ","%char :: PyNum.group3_rev (d :: rest)).
    inversion Hall as [|? ? Ha Hall1]; inversion Hall1 as [|? ? Hb Hall2];
      inversion Hall2 as [|? ? Hc Hall3]; subst.
    repeat constructor; try assumption.
    apply IH; [simpl in *; lia | assumption].
Qed.

Lemma format_2f_chars (x : PyNum.float) :
  PyNum.is_finite x = true ->
  Forall (fun c => amount_char c = true)
         (list_ascii_of_string (PyNum.format_2f false true x)).
Proof.
  intros Hfinite.
  set (h := PyNum.hundredths (PyNum.value x)).
  assert (Hfp : (0 <= h mod 100 < 100)%Z) by (apply Z.mod_pos_bound; lia).
  replace (PyNum.format_2f false true x)
    with ((if PyNum.sign_bit x then "-" else "")
            +:+ PyNum.thousands (PyNum.str_of_N (Z.to_N (h / 100)))
            +:+ "."
            +:+ String (PyNum.digit_char (h mod 100 / 10))
                  (String (PyNum.digit_char ((h mod 100) mod 10)) ""))
    by (destruct x as [s|s| |s m e]; try discriminate Hfinite; reflexivity).
  rewrite !list_ascii_of_string_app. repeat apply Forall_app_2.
  - destruct (PyNum.sign_bit x); repeat constructor.
  - unfold PyNum.thousands. rewrite list_ascii_of_string_of_list_ascii.
    apply List.Forall_rev.
    apply (group3_rev_chars _ (length (rev (list_ascii_of_string
                                              (PyNum.str_of_N (Z.to_N (h / 100))))))).
    + lia.
    + reflexivity.
    + apply List.Forall_rev.
      eapply List.Forall_impl; [|apply str_of_N_digits].
      intros c Hc. unfold amount_char. rewrite Hc. reflexivity.
  - repeat constructor.
  - cbn [list_ascii_of_string]. constructor; [|constructor; [|constructor]].
    + unfold amount_char. rewrite digit_char_is_digit; [reflexivity|].
      split; [apply Z.div_pos; lia | apply Z.div_lt_upper_bound; lia].
    + unfold amount_char. rewrite digit_char_is_digit; [reflexivity|].
      apply Z.mod_pos_bound. lia.
Qed.

Lemma str_in_first_char (c : ascii) (w s : string) :
  str_in (String c w) s = true -> In c (list_ascii_of_string s).
Proof.
  intros Hin. apply str_in_spec in Hin as (before & after & ->).
  rewrite list_ascii_of_string_app. apply in_or_app. right. left. reflexivity.
Qed.

Lemma formatted_price_accepted (p : PyNum.float) :
  PyStr.truthy (rupee +:+ PyNum.format_2f false true p) = true
  /\ str_in "N/A" (rupee +:+ PyNum.format_2f false true p) = false.
Proof.
  split; [reflexivity|].
  destruct (PyNum.is_finite p) eqn:Hfinite;
    [|destruct p as [s|[]| |s m e]; try discriminate Hfinite; reflexivity].
  destruct (str_in "N/A" (rupee +:+ PyNum.format_2f false true p)) eqn:Hin; [|reflexivity].
  apply str_in_first_char in Hin. rewrite list_ascii_of_string_app in Hin.
  apply in_app_or in Hin as [Hin | Hin].
  - cbn in Hin. repeat (destruct Hin as [Hin | Hin]; [discriminate Hin|]). contradiction.
  - pose proof (format_2f_chars p Hfinite) as Hall.
    rewrite List.Forall_forall in Hall. apply Hall in Hin. discriminate Hin.
Qed.

(** Whatever the API adapter returns passes the resolver's price test. *)
Lemma fetched_price_accepted `{PyLib} `{World} company_name api_key t t' d :
  _fetch_indian_api company_name api_key t = (Returned (Some d), t') ->
  price_accepted (Some d) = true.
Proof.
  intros Hfetch.
  apply fetch_indian_api_some in Hfetch as (response & data & _ & _ & _ & Hparse & _).
  apply parse_quote_some in Hparse as (price & p & c & _ & _ & _ & Hshow & _).
  unfold price_accepted. rewrite Hshow.
  destruct (formatted_price_accepted p) as [-> ->]. reflexivity.
Qed.

Section ResolverTheorem.
Context `{PyLib} `{World}.

(** What the web path returns from a trace, and the searches it sends. *)
Lemma scrape_run (company_name ticker_ : string) (t : trace) :
  _scrape_stock_data_from_web company_name ticker_ t
  = (Returned
       (_aggregate_stock_findings
          (scan_hits (concat (answered (search_queries company_name) t))
                     (empty_stock_info company_name ticker_))
          company_name ticker_),
     (t ++ map (fun q => DdgsText q 3)
               (firstn (S (length (answered (search_queries company_name) t)))
                       (search_queries company_name)))%list).
Proof.
  unfold _scrape_stock_data_from_web, bind, with_local.
  rewrite scrape_queries_run. reflexivity.
Qed.

(** C6: when the API fetch returns a result whose price is present and is not
  a placeholder, the resolver returns that very result, verified and of
  live provenance, and the only request made is the one API call: no web
  search is issued. In every other case (no usable key, no result from the
  fetch, or a result whose price is empty or a placeholder) the resolver
  runs the web aggregation from the trace the fetch left: its result is the
  aggregate of the hits of the searches answered, scanned in order from the
  empty pool, unverified and of web provenance, and the requests made are
  the API call, if the key is usable, followed by the search queries in
  order up to and including the first one that fails. Every result the API
  adapter returns has a present price that is not a placeholder. *)
Theorem resolver_two_tiers (company_name : string) (t : trace) :
  let api_key := default "" (getenv "INDIAN_API_KEY") in
  let ticker_ := take 6 (upper company_name) in
  let fetched := HttpGet indian_api_url company_name api_key in
  let queries := search_queries company_name in
  let web t0 :=
    _aggregate_stock_findings
      (scan_hits (concat (answered queries t0)) (empty_stock_info company_name ticker_))
      company_name ticker_ in
  let searched t0 :=
    map (fun q => DdgsText q 3) (firstn (S (length (answered queries t0))) queries) in
  (forall d t1,
      api_key_usable api_key = true ->
      _fetch_indian_api company_name api_key t = (Returned (Some d), t1) ->
      PyStr.truthy (current_price d) = true ->
      str_in "N/A" (current_price d) = false ->
      _get_stock_data_multi_source company_name t = (Returned d, (t ++ [fetched])%list)
      /\ verified d = true
      /\ data_type d = "live"
      /\ source d = "IndianAPI (Live NSE/BSE)")
  /\ (forall r t1,
        api_key_usable api_key = true ->
        _fetch_indian_api company_name api_key t = (r, t1) ->
        (r = Returned None
         \/ exists d, r = Returned (Some d)
                      /\ (PyStr.truthy (current_price d) = false
                          \/ str_in "N/A" (current_price d) = true)) ->
        _get_stock_data_multi_source company_name t
        = _scrape_stock_data_from_web company_name ticker_ (t ++ [fetched])%list
        /\ _get_stock_data_multi_source company_name t
           = (Returned (web (t ++ [fetched])%list),
              (t ++ [fetched] ++ searched (t ++ [fetched])%list)%list)
        /\ verified (web (t ++ [fetched])%list) = false
        /\ data_type (web (t ++ [fetched])%list) = "web_aggregated")
  /\ (api_key_usable api_key = false ->
      _get_stock_data_multi_source company_name t
      = _scrape_stock_data_from_web company_name ticker_ t
      /\ _get_stock_data_multi_source company_name t
         = (Returned (web t), (t ++ searched t)%list)
      /\ verified (web t) = false
      /\ data_type (web t) = "web_aggregated")
  /\ (forall d t1,
        _fetch_indian_api company_name api_key t = (Returned (Some d), t1) ->
        PyStr.truthy (current_price d) = true /\ str_in "N/A" (current_price d) = false).
Proof.
  intros api_key ticker_ fetched queries web searched.
  pose proof (resolver_unfold company_name t) as Hres. cbv zeta in Hres.
  fold api_key ticker_ in Hres.
  split; [|split; [|split]]; cycle 3.
  - intros d t1 Hfetch. apply fetched_price_accepted in Hfetch.
    unfold price_accepted in Hfetch. apply andb_prop in Hfetch as [Hp Hn].
    split; [exact Hp|]. now destruct (str_in "N/A" (current_price d)).
  - intros d t1 Hkey Hfetch Hprice Hna.
    rewrite Hres, Hkey, Hfetch. unfold price_accepted. rewrite Hprice, Hna. cbn [andb negb].
    pose proof (fetch_indian_api_trace company_name api_key t) as Ht.
    rewrite Hfetch in Ht. cbn in Ht. rewrite Ht.
    apply fetch_indian_api_some in Hfetch as (response & data & _ & _ & _ & Hparse & _).
    apply parse_quote_some in Hparse
      as (price & p & c & _ & _ & _ & _ & _ & _ & _ & Hver & Htype & Hsrc).
    repeat split; assumption.
  - intros r t1 Hkey Hfetch Hr.
    pose proof (fetch_indian_api_trace company_name api_key t) as Ht.
    rewrite Hfetch in Ht. cbn in Ht. subst t1.
    assert (Hweb : _get_stock_data_multi_source company_name t
                   = _scrape_stock_data_from_web company_name ticker_ (t ++ [fetched])%list).
    { rewrite Hres, Hkey, Hfetch.
      destruct Hr as [-> | (d & -> & Hbad)]; [reflexivity|].
      unfold price_accepted.
      destruct Hbad as [-> | ->]; [|rewrite andb_false_r]; reflexivity. }
    split; [exact Hweb|]. split; [|apply aggregate_provenance].
    rewrite Hweb, scrape_run, <- app_assoc. reflexivity.
  - intros Hkey.
    assert (Hweb : _get_stock_data_multi_source company_name t
                   = _scrape_stock_data_from_web company_name ticker_ t).
    { rewrite Hres, Hkey. reflexivity. }
    split; [exact Hweb|]. split; [|apply aggregate_provenance].
    rewrite Hweb, scrape_run. reflexivity.
Qed.

End ResolverTheorem.

Lemma resolver_two_tiers_witness :
  @_get_stock_data_multi_source Sample.lib Sample.live "Acme" []
  = (Returned
       {| ticker := JStr "ACME"; company := JStr "Acme Ltd"; current_price := "₹1,234.50";
          change_24hr := Some "+3.10%"; price_change_pct := "+3.10%";
          volume := Some (JStr "N/A");
          trend := "bullish"; recommendation := "STRONG BUY"; confidence := "High";
          source := "IndianAPI (Live NSE/BSE)"; sources_analyzed := 1;
          data_type := "live"; verified := true |},
     [HttpGet indian_api_url "Acme" "k-123"])
  /\ @_get_stock_data_multi_source Sample.lib Sample.failing "Acme" []
     = (Returned (_aggregate_stock_findings (empty_stock_info "Acme" "ACME") "Acme" "ACME"),
        [HttpGet indian_api_url "Acme" "k-123"; DdgsText "Acme stock price today INR" 3])
  /\ (let quote := Sample.hit "Acme share price"
                     "Acme trades at ₹1,480.25, analysts say accumulate"
                     "https://quotes.example/acme" in
      @_get_stock_data_multi_source Sample.lib Sample.web_only "Acme" []
      = (Returned
           (_aggregate_stock_findings
              (@scan_hits Sample.lib [quote; quote; quote; quote]
                 (empty_stock_info "Acme" "ACME"))
              "Acme" "ACME"),
         [DdgsText "Acme stock price today INR" 3; DdgsText "Acme share price live" 3;
          DdgsText "Acme stock buy or sell recommendation" 3;
          DdgsText "Acme stock forecast" 3])).
Proof.
  split; [|split].
  - apply (proj1 (@resolver_two_tiers Sample.lib Sample.live "Acme" [])
             _ [HttpGet indian_api_url "Acme" "k-123"]); reflexivity.
  - destruct (proj1 (proj2 (@resolver_two_tiers Sample.lib Sample.failing "Acme" []))
                (Returned None) [HttpGet indian_api_url "Acme" "k-123"])
      as (_ & Hrun & _); [reflexivity | reflexivity | left; reflexivity |].
    exact Hrun.
  - destruct (proj1 (proj2 (proj2 (@resolver_two_tiers Sample.lib Sample.web_only
                                      "Acme" []))))
      as (_ & Hrun & _); [reflexivity|].
    exact Hrun.
Defined.

(** ** [collect_data]: what it returns *)

Section CollectFacts.
Context `{World}.
Variable search_wikipedia : string -> M trace (option (gmap string string)).
Variable search_news : string -> M trace (list news_item).
Variable search_official_website : string -> M trace (option (gmap string string)).
Variable get_stock_data_multi_source : string -> M trace stock_data.

Let steps := collect_steps search_wikipedia search_news search_official_website
                         get_stock_data_multi_source.
Let collect_with := collect_data_with search_wikipedia search_news search_official_website
                                    get_stock_data_multi_source.

(** [collect_data] returns the profile its [try] block leaves behind, marked
  as an error when the block raised. *)
Lemma collect_data_with_run (company_name : string) (t : trace) :
  collect_with company_name t
  = match steps company_name (t, initial_collected company_name (now_isoformat t)) with
    | (Returned _, (t', c)) => (Returned c, t')
    | (Raised e, (t', c)) =>
        (Returned (set_error (exn_str e) (set_data_quality "error" c)), t')
    end.
Proof.
  unfold collect_with, collect_data_with, bind, with_local, try_catch. fold steps.
  destruct (steps company_name (t, initial_collected company_name (now_isoformat t)))
    as [[e|[]] [t' c]]; reflexivity.
Qed.

Lemma collect_data_with_returns (company_name : string) :
  returns (collect_with company_name).
Proof.
  intros t. rewrite collect_data_with_run.
  destruct (steps company_name (t, initial_collected company_name (now_isoformat t)))
    as [[e|[]] [t' c]]; eexists _, _; reflexivity.
Qed.

(** An exception anywhere in the sequence leaves the tier "error" and the
  message on the profile. *)
Lemma collect_data_with_error (company_name : string) (t t' : trace) (e : exn) (c : collected) :
  steps company_name (t, initial_collected company_name (now_isoformat t))
  = (Raised e, (t', c)) ->
  exists c', collect_with company_name t = (Returned c', t')
             /\ cd_data_quality c' = "error"
             /\ cd_error c' = Some (exn_str e).
Proof.
  intros Hrun. rewrite collect_data_with_run, Hrun. eexists. repeat split.
Qed.

End CollectFacts.

(** A step that follows a call to a trace-only function, when something is
  known of what the function returns. *)
Lemma keeps_bind_lift {L A B} (P : L -> Prop) (R : A -> Prop) (m : M trace A)
      (k : A -> M (trace * L) B) :
  (forall t a t', m t = (Returned a, t') -> R a) ->
  (forall a, R a -> keeps P (k a)) ->
  keeps P (bind (lift m) k).
Proof.
  intros Hm Hk t l Hl. unfold bind, lift.
  destruct (m t) as [[e|a] t'] eqn:Hrun; [exact Hl|].
  apply Hk; [eapply Hm; exact Hrun | exact Hl].
Qed.

Section AdapterFacts.
Context `{World}.

Lemma search_wikipedia_returns company_name : returns (_search_wikipedia company_name).
Proof. apply returns_try_catch. intros e. apply returns_ret. Qed.

Lemma search_news_returns company_name : returns (_search_news company_name).
Proof. apply returns_try_catch. intros e. apply returns_ret. Qed.

Lemma search_official_website_returns company_name :
  returns (_search_official_website company_name).
Proof. apply returns_try_catch. intros e. apply returns_ret. Qed.

(** The three lookups of the encyclopedia adapter, one after the other. *)
Lemma search_wikipedia_unfold company_name t :
  let a := company_name in
  let b := company_name +:+ " company" in
  let c := company_name +:+ " corporation" in
  _search_wikipedia company_name t
  = match wikipedia_page t a with
    | Raised _ => (Returned None, (t ++ [WikiPage a])%list)
    | Returned (Some p) => (Returned (Some (wiki_dict p)), (t ++ [WikiPage a])%list)
    | Returned None =>
        match wikipedia_page (t ++ [WikiPage a])%list b with
        | Raised _ => (Returned None, (t ++ [WikiPage a; WikiPage b])%list)
        | Returned (Some p) =>
            (Returned (Some (wiki_dict p)), (t ++ [WikiPage a; WikiPage b])%list)
        | Returned None =>
            match wikipedia_page (t ++ [WikiPage a; WikiPage b])%list c with
            | Returned (Some p) =>
                (Returned (Some (wiki_dict p)),
                 (t ++ [WikiPage a; WikiPage b; WikiPage c])%list)
            | _ => (Returned None, (t ++ [WikiPage a; WikiPage b; WikiPage c])%list)
            end
        end
    end.
Proof.
  intros a b c. subst a b c. unfold _search_wikipedia, try_catch.
  cbn [first_existing_page]. unfold bind, call_wiki, ret.
  destruct (wikipedia_page t company_name) as [e|[p|]]; [reflexivity | reflexivity |].
  rewrite <- !app_assoc. cbn [app].
  destruct (wikipedia_page (t ++ [WikiPage company_name])%list
              (company_name +:+ " company")) as [e|[p|]]; [reflexivity | reflexivity |].
  destruct (wikipedia_page _ (company_name +:+ " corporation")) as [e|[p|]];
    rewrite <- !app_assoc; reflexivity.
Qed.

(** The answers to the lookups of the names before the [k]-th are known once
  each of them is known to have no page. *)
Lemma no_page_before company_name t k :
  (forall j earlier,
      (j < k)%nat -> nth_error (wiki_terms company_name) j = Some earlier ->
      wikipedia_page (t ++ map WikiPage (firstn j (wiki_terms company_name)))%list earlier
      = Returned None) ->
  ((0 < k)%nat -> wikipedia_page t company_name = Returned None)
  /\ ((1 < k)%nat ->
      wikipedia_page (t ++ [WikiPage company_name])%list (company_name +:+ " company")
      = Returned None)
  /\ ((2 < k)%nat ->
      wikipedia_page
        (t ++ [WikiPage company_name; WikiPage (company_name +:+ " company")])%list
        (company_name +:+ " corporation")
      = Returned None).
Proof.
  intros Hearlier. split; [|split]; intros Hk.
  - specialize (Hearlier 0%nat company_name Hk eq_refl).
    cbn in Hearlier. rewrite app_nil_r in Hearlier. exact Hearlier.
  - exact (Hearlier 1%nat _ Hk eq_refl).
  - exact (Hearlier 2%nat _ Hk eq_refl).
Qed.

(** The adapter returns the first page that exists, under whichever of the
  three names it is found, and stops looking there. *)
Lemma search_wikipedia_found company_name t k term p :
  nth_error (wiki_terms company_name) k = Some term ->
  (forall j earlier,
      (j < k)%nat -> nth_error (wiki_terms company_name) j = Some earlier ->
      wikipedia_page (t ++ map WikiPage (firstn j (wiki_terms company_name)))%list earlier
      = Returned None) ->
  wikipedia_page (t ++ map WikiPage (firstn k (wiki_terms company_name)))%list term
  = Returned (Some p) ->
  _search_wikipedia company_name t
  = (Returned (Some (wiki_dict p)),
     (t ++ map WikiPage (firstn (S k) (wiki_terms company_name)))%list).
Proof.
  intros Hnth Hearlier Hfound.
  apply no_page_before in Hearlier as (H0 & H1 & _).
  rewrite search_wikipedia_unfold. cbv zeta.
  destruct k as [|[|[|k]]]; cbn in Hnth; [| | |destruct k; discriminate Hnth];
    injection Hnth as <-.
  - cbn in Hfound. rewrite app_nil_r in Hfound. rewrite Hfound. reflexivity.
  - cbn in Hfound. rewrite H0, Hfound by lia. reflexivity.
  - cbn in Hfound. rewrite H0, H1, Hfound by lia. reflexivity.
Qed.

(** A lookup that raises ends the search with nothing. *)
Lemma search_wikipedia_raised company_name t k term e :
  nth_error (wiki_terms company_name) k = Some term ->
  (forall j earlier,
      (j < k)%nat -> nth_error (wiki_terms company_name) j = Some earlier ->
      wikipedia_page (t ++ map WikiPage (firstn j (wiki_terms company_name)))%list earlier
      = Returned None) ->
  wikipedia_page (t ++ map WikiPage (firstn k (wiki_terms company_name)))%list term
  = Raised e ->
  _search_wikipedia company_name t
  = (Returned None, (t ++ map WikiPage (firstn (S k) (wiki_terms company_name)))%list).
Proof.
  intros Hnth Hearlier Hraised.
  apply no_page_before in Hearlier as (H0 & H1 & _).
  rewrite search_wikipedia_unfold. cbv zeta.
  destruct k as [|[|[|k]]]; cbn in Hnth; [| | |destruct k; discriminate Hnth];
    injection Hnth as <-.
  - cbn in Hraised. rewrite app_nil_r in Hraised. rewrite Hraised. reflexivity.
  - cbn in Hraised. rewrite H0, Hraised by lia. reflexivity.
  - cbn in Hraised. rewrite H0, H1, Hraised by lia. reflexivity.
Qed.

(** With no page under any of the three names, all three are looked up. *)
Lemma search_wikipedia_none company_name t :
  (forall j earlier,
      (j < 3)%nat -> nth_error (wiki_terms company_name) j = Some earlier ->
      wikipedia_page (t ++ map WikiPage (firstn j (wiki_terms company_name)))%list earlier
      = Returned None) ->
  _search_wikipedia company_name t
  = (Returned None, (t ++ map WikiPage (wiki_terms company_name))%list).
Proof.
  intros Hearlier.
  apply no_page_before in Hearlier as (H0 & H1 & H2).
  rewrite search_wikipedia_unfold. cbv zeta.
  rewrite H0, H1, H2 by lia. reflexivity.
Qed.

(** The website adapter only ever contributes the key [official_url]. *)
Lemma search_official_website_keys company_name t website t' :
  _search_official_website company_name t = (Returned (Some website), t') ->
  website !! "description" = None.
Proof.
  unfold _search_official_website, try_catch, bind, call_text, ret.
  destruct (ddgs_text t (company_name +:+ " official website") 1) as [e|[|r rs]];
    intros [= <- _] || intros [= _]. reflexivity.
Qed.

End AdapterFacts.

(** ** The encyclopedia description on its way through the collector *)

Lemma bind_returned_run {S A B} (m : M S A) (k : A -> M S B) s a s' :
  m s = (Returned a, s') -> bind m k s = k a s'.
Proof. intros Hm. unfold bind. rewrite Hm. reflexivity. Qed.

Lemma bind_lift_run {L A B} (m : M trace A) (k : A -> M (trace * L) B) t l a t' :
  m t = (Returned a, t') -> bind (lift m) k (t, l) = k a (t', l).
Proof. intros Hm. unfold bind, lift. rewrite Hm. reflexivity. Qed.

Section DescriptionFacts.
Context `{PyLib} `{World}.

Lemma cite_news_keeps_info (P : gmap string string -> Prop) news_data :
  keeps (fun c => P (cd_company_info c)) (cite_news news_data).
Proof.
  unfold cite_news. apply keeps_for_each. intros article.
  destruct (PyStr.truthy (news_url article)); [|apply keeps_ret].
  apply keeps_modify. intros c Hc. exact Hc.
Qed.

(** Once the description is in the profile, the rest of the sequence leaves
  it there. *)
Lemma collect_rest_keeps_description (company_name description : string) :
  keeps (fun c => cd_company_info c !! "description" = Some description)
    (let* news_data := lift (_search_news company_name) in
     (match news_data with
      | [] => ret tt
      | _ => modify (set_news news_data) ;; cite_news news_data
      end) ;;
     let* website_data := lift (_search_official_website company_name) in
     (if dict_truthy website_data then
        modify (set_company_info (fun info => default ∅ website_data ∪ info))
      else ret tt) ;;
     let* stock_data_ := lift (_get_stock_data_multi_source company_name) in
     modify (set_stock_performance stock_data_) ;;
     modify (append_source ("Stock: " +:+ source stock_data_)) ;;
     let* data := get_local in
     modify (set_data_quality (_assess_data_quality data))).
Proof.
  apply keeps_bind; [apply keeps_lift|]. intros news_data.
  apply keeps_bind.
  { destruct news_data; [apply keeps_ret|].
    apply keeps_bind; [apply keeps_modify; intros c Hc; exact Hc|].
    intros _. apply (cite_news_keeps_info (fun info => info !! "description" = Some description)). }
  intros _.
  apply (keeps_bind_lift _ (fun website_data =>
           forall website, website_data = Some website -> website !! "description" = None)).
  { intros t a t' Hrun website ->. eapply search_official_website_keys. exact Hrun. }
  intros website_data Hkeys.
  apply keeps_bind.
  { destruct website_data as [website|]; cbn [dict_truthy]; [|apply keeps_ret].
    destruct (negb (bool_decide (website = ∅))); [|apply keeps_ret].
    apply keeps_modify. intros c Hc. cbn [cd_company_info set_company_info default].
    rewrite lookup_union_r; [exact Hc | apply Hkeys; reflexivity]. }
  intros _. apply keeps_bind; [apply keeps_lift|]. intros stock_data_.
  apply keeps_bind; [apply keeps_modify; intros c Hc; exact Hc|]. intros _.
  apply keeps_bind; [apply keeps_modify; intros c Hc; exact Hc|]. intros _.
  apply keeps_bind; [intros t l Hl; exact Hl|]. intros data.
  apply keeps_modify. intros c Hc. exact Hc.
Qed.

(** The summary of the page the encyclopedia adapter returns becomes the
  profile's description, whatever it says. *)
Lemma collect_data_description (company_name : string) (t t1 : trace) (p : wiki_page) :
  _search_wikipedia company_name t = (Returned (Some (wiki_dict p)), t1) ->
  exists c t',
    collect_data company_name t = (Returned c, t')
    /\ cd_company_info c !! "description" = Some (wiki_summary p).
Proof.
  intros Hpage.
  unfold collect_data. rewrite collect_data_with_run. unfold collect_steps.
  erewrite bind_lift_run by exact Hpage.
  erewrite bind_returned_run by reflexivity.
  match goal with
  | |- context [?rest (?t1, ?c1)] =>
      match type of rest with
      | M _ _ =>
          pose proof (collect_rest_keeps_description company_name (wiki_summary p) t1 c1)
            as Hkeep
      end
  end.
  cbv beta in Hkeep.
  match type of Hkeep with
  | ?P -> _ => assert (Hstart : P) by reflexivity; specialize (Hkeep Hstart); clear Hstart
  end.
  match type of Hkeep with
  | context [snd (snd ?run)] => destruct run as [[e|[]] [t' c]]
  end; cbn in Hkeep; eexists _, _; (split; [reflexivity | exact Hkeep]).
Qed.

End DescriptionFacts.

(** ** The analyst's guard *)

Section GuardFacts.
Context `{World}.

Lemma summary_description_clean (raw_data : collected) :
  disambiguation (summary_description raw_data) = false.
Proof.
  unfold summary_description.
  destruct (disambiguation (take 400 (default "" (cd_company_info raw_data !! "description"))))
    eqn:Hd; [reflexivity | exact Hd].
Qed.

(** The only request the summary generator makes is one prompt, and the
  description inside that prompt carries no disambiguation marker. *)
Lemma generate_summary_prompt (raw_data : collected) (t : trace) :
  snd (_generate_summary raw_data t) = t
  \/ exists description stock_info_,
      snd (_generate_summary raw_data t)
      = (t ++ [LlmInvoke (summary_prompt (cd_company_name raw_data) description stock_info_)])%list
      /\ disambiguation description = false.
Proof.
  unfold _generate_summary.
  destruct (negb (PyStr.truthy (summary_description raw_data))
            && negb (bool_decide (is_Some (cd_stock_performance raw_data)))).
  - left. reflexivity.
  - right. eexists _, _. split.
    + unfold try_catch, bind, call_llm.
      destruct (llm_invoke t _) as [e|content]; [reflexivity|].
      destruct (disambiguation (strip content)); reflexivity.
    + destruct (PyStr.truthy (summary_description raw_data));
        [apply summary_description_clean | reflexivity].
Qed.

End GuardFacts.

(** C8, as the code has it: whichever of the three names the encyclopedia
  page is found under, the collector stores its summary (cut to 800
  characters) as the profile's description whether or not it reads like a
  disambiguation page; the guard is in the analyst's summary generator,
  which takes the first 400 characters of the description and drops them
  when, lower-cased, they contain "can refer to" or "may refer to", so
  that the summary prompt never carries a marker. *)
Theorem disambiguation_guard_is_downstream `{PyLib} `{World} :
  (forall company_name t k term p,
      nth_error (wiki_terms company_name) k = Some term ->
      (forall j earlier,
          (j < k)%nat -> nth_error (wiki_terms company_name) j = Some earlier ->
          wikipedia_page (t ++ map WikiPage (firstn j (wiki_terms company_name)))%list
                         earlier
          = Returned None) ->
      wikipedia_page (t ++ map WikiPage (firstn k (wiki_terms company_name)))%list term
      = Returned (Some p) ->
      exists c t',
        collect_data company_name t = (Returned c, t')
        /\ cd_company_info c !! "description" = Some (wiki_summary p)
        /\ ((String.length (page_summary p) <= 800)%nat ->
            cd_company_info c !! "description" = Some (page_summary p)))
  /\ (forall raw_data,
        disambiguation (take 400 (default "" (cd_company_info raw_data !! "description")))
        = true ->
        summary_description raw_data = "")
  /\ (forall raw_data t,
        snd (_generate_summary raw_data t) = t
        \/ exists description stock_info_,
            snd (_generate_summary raw_data t)
            = (t ++ [LlmInvoke (summary_prompt (cd_company_name raw_data)
                                  description stock_info_)])%list
            /\ disambiguation description = false).
Proof.
  split; [|split].
  - intros company_name t k term p Hnth Hearlier Hpage.
    pose proof (search_wikipedia_found company_name t k term p Hnth Hearlier Hpage)
      as Hfound.
    destruct (collect_data_description company_name t _ p Hfound)
      as (c & t' & Hrun & Hdesc).
    exists c, t'. split; [exact Hrun|]. split; [exact Hdesc|].
    intros Hlen. rewrite Hdesc. unfold wiki_summary.
    destruct (Nat.ltb_spec 800 (String.length (page_summary p))); [lia | reflexivity].
  - intros raw_data Hd. unfold summary_description. rewrite Hd. reflexivity.
  - intros raw_data t. apply generate_summary_prompt.
Qed.

Lemma disambiguation_guard_is_downstream_witness :
  (exists c t',
      @collect_data Sample.lib Sample.ambiguous "Mercury" [] = (Returned c, t')
      /\ cd_company_info c !! "description" = Some Sample.ambiguous_summary)
  /\ (exists c t',
         @collect_data Sample.lib Sample.suffixed "Mercury" [] = (Returned c, t')
         /\ cd_company_info c !! "description" = Some Sample.ambiguous_summary)
  /\ summary_description
       (set_company_info (fun _ => <["description" := Sample.ambiguous_summary]> ∅)
          (initial_collected "Mercury" "2024-01-01T00:00:00")) = "".
Proof.
  split; [|split].
  - destruct (proj1 (@disambiguation_guard_is_downstream Sample.lib Sample.ambiguous)
                "Mercury" [] 0%nat "Mercury"
                {| page_summary := Sample.ambiguous_summary;
                   page_fullurl := "https://en.wikipedia.org/wiki/Mercury";
                   page_title := "Mercury" |})
      as (c & t' & Hrun & _ & Hdesc); [reflexivity | intros j earlier Hj; lia | reflexivity |].
    exists c, t'. split; [exact Hrun|]. apply Hdesc. vm_compute. lia.
  - destruct (proj1 (@disambiguation_guard_is_downstream Sample.lib Sample.suffixed)
                "Mercury" [] 1%nat "Mercury company" Sample.suffixed_page)
      as (c & t' & Hrun & _ & Hdesc); [reflexivity | | reflexivity |].
    { intros [|j] earlier Hj Hnth; [injection Hnth as <-; reflexivity | lia]. }
    exists c, t'. split; [exact Hrun|]. apply Hdesc. vm_compute. lia.
  - apply (proj1 (proj2 (@disambiguation_guard_is_downstream Sample.lib Sample.ambiguous))).
    vm_compute. reflexivity.
Defined.

(** C8 as stated fails: the summary of a disambiguation page is in the
  description of the collected profile, and it counts towards the
  quality tier. *)
Lemma disambiguation_reaches_profile :
  str_in "may refer to" Sample.ambiguous_summary = true
  /\ match @collect_data Sample.lib Sample.ambiguous "Mercury" [] with
     | (Returned c, _) =>
         cd_company_info c !! "description" = Some Sample.ambiguous_summary
         /\ cd_data_quality c = "high"
     | (Raised _, _) => False
     end.
Proof.
  split; [reflexivity|]. vm_compute. split; reflexivity.
Qed.

(** ** Failures of the adapters *)

Section FailureFacts.
Context `{PyLib} `{World}.

Lemma scrape_returns company_name ticker_ :
  returns (_scrape_stock_data_from_web company_name ticker_).
Proof.
  intros t. destruct (scrape_returns_aggregate company_name ticker_ t) as (si & t' & Hrun & _).
  eexists _, _. exact Hrun.
Qed.

Lemma get_stock_data_returns company_name :
  returns (_get_stock_data_multi_source company_name).
Proof.
  unfold _get_stock_data_multi_source. apply returns_bind.
  - destruct (api_key_usable _); [|apply returns_ret].
    apply returns_bind; [apply fetch_indian_api_returns|].
    intros indian_data. destruct (price_accepted indian_data); apply returns_ret.
  - intros [d|]; [apply returns_ret | apply scrape_returns].
Qed.

Lemma search_wikipedia_fails company_name t e :
  wikipedia_page t company_name = Raised e ->
  _search_wikipedia company_name t = (Returned None, (t ++ [WikiPage company_name])%list).
Proof.
  intros Hpage. unfold _search_wikipedia, try_catch. cbn [first_existing_page].
  unfold bind, call_wiki. rewrite Hpage. reflexivity.
Qed.

Lemma search_news_fails company_name t e :
  ddgs_news t (company_name +:+ " stock") 5 = Raised e ->
  _search_news company_name t
  = (Returned [], (t ++ [DdgsNews (company_name +:+ " stock") 5])%list).
Proof.
  intros Hnews. unfold _search_news, try_catch, bind, call_news. rewrite Hnews. reflexivity.
Qed.

Lemma search_official_website_fails company_name t e :
  ddgs_text t (company_name +:+ " official website") 1 = Raised e ->
  _search_official_website company_name t
  = (Returned None, (t ++ [DdgsText (company_name +:+ " official website") 1])%list).
Proof.
  intros Htext. unfold _search_official_website, try_catch, bind, call_text.
  rewrite Htext. reflexivity.
Qed.

Lemma fetch_indian_api_fails company_name api_key t e :
  session_get t indian_api_url company_name api_key = Raised e ->
  _fetch_indian_api company_name api_key t
  = (Returned None, (t ++ [HttpGet indian_api_url company_name api_key])%list).
Proof.
  intros Hget. unfold _fetch_indian_api, try_catch, bind, call_get. rewrite Hget. reflexivity.
Qed.

(** When the first search raises, the web path returns the aggregate of an
  empty pool. *)
Lemma scrape_first_search_fails company_name ticker_ t e :
  ddgs_text t (company_name +:+ " stock price today INR") 3 = Raised e ->
  _scrape_stock_data_from_web company_name ticker_ t
  = (Returned (_aggregate_stock_findings (empty_stock_info company_name ticker_)
                 company_name ticker_),
     (t ++ [DdgsText (company_name +:+ " stock price today INR") 3])%list).
Proof.
  intros Htext.
  unfold _scrape_stock_data_from_web, bind, with_local, try_catch, scrape_queries.
  cbn [search_queries for_each]. unfold bind at 1. unfold bind at 1.
  unfold lift at 1, call_text at 1. rewrite Htext. reflexivity.
Qed.

End FailureFacts.

(** ** The workflow sequencer *)

Section OrchestratorFacts.
Variable collect : string -> M trace collected.
Variable analyze : raw_data -> M trace (gmap string string).

Lemma collect_node_run (t : trace) (state : AgentState) :
  _collect_data_node collect (t, state)
  = match collect (st_company_name state) t with
    | (Returned raw, t') => (Returned tt, (t', set_raw_data (RawCollected raw) state))
    | (Raised e, t') => (Returned tt, (t', collection_failed e state))
    end.
Proof.
  unfold _collect_data_node, try_catch, bind, get_local, lift, modify.
  destruct (collect (st_company_name state) t) as [[e|raw] t']; reflexivity.
Qed.

Lemma validate_node_run (t : trace) (state : AgentState) :
  _validate_data_node (t, state) = (Returned tt, (t, validated state)).
Proof.
  unfold _validate_data_node, validated, try_catch, bind, get_local, modify, ret.
  cbn [st_raw_data set_validation_passed st_company_name].
  destruct (negb (String.eqb (raw_quality (st_raw_data state)) "error")
            && (raw_has_company_info (st_raw_data state)
                || raw_has_news (st_raw_data state)
                || raw_has_sources (st_raw_data state))); reflexivity.
Qed.

Lemma analyze_node_returns : returns (_analyze_data_node analyze).
Proof.
  unfold _analyze_data_node. apply returns_try_catch. intros e.
  apply returns_bind; [apply returns_modify | intros _; apply returns_modify].
Qed.

(** The workflow never raises, whatever its collaborators do. *)
Lemma run_returns (company_name : string) : returns (run collect analyze company_name).
Proof.
  unfold run. apply returns_bind; [|intros [[] final]; apply returns_ret].
  apply returns_with_local. unfold graph_invoke.
  apply returns_bind.
  { intros [t s]. rewrite collect_node_run.
    destruct (collect (st_company_name s) t) as [[e|raw] t']; eexists _, _; reflexivity. }
  intros _. apply returns_bind.
  { intros [t s]. rewrite validate_node_run. eexists _, _; reflexivity. }
  intros _. apply returns_bind; [apply returns_get_local|].
  intros state. destruct (_should_analyze state); [apply analyze_node_returns | apply returns_ret].
Qed.

(** What the workflow does when validation fails: it stops after the
  validation node. *)
Lemma run_skips_analysis (company_name : string) (t t1 : trace) (state : AgentState) :
  _collect_data_node collect (t, initial_state company_name) = (Returned tt, (t1, state)) ->
  st_validation_passed (validated state) = false ->
  run collect analyze company_name t = (Returned (validated state), t1).
Proof.
  intros Hcollect Hfail.
  unfold run, bind, with_local, graph_invoke, bind.
  rewrite Hcollect, validate_node_run. unfold get_local, _should_analyze, ret.
  rewrite Hfail. reflexivity.
Qed.

Lemma validated_error (state : AgentState) :
  raw_quality (st_raw_data state) = "error" ->
  st_validation_passed (validated state) = false
  /\ st_analysis_results (validated state)
     = insufficient_results (st_company_name state) "error".
Proof.
  intros Hq. unfold validated. rewrite Hq. cbn [String.eqb negb andb].
  split; reflexivity.
Qed.

(** A profile of tier "error", or a collector that raises, ends the workflow
  before the analysis: the final trace is the collector's, and the result
  is the fixed "insufficient data" answer. *)
Lemma run_on_collection_error (company_name : string) (t t1 : trace) :
  (exists e, collect company_name t = (Raised e, t1))
  \/ (exists c, collect company_name t = (Returned c, t1) /\ cd_data_quality c = "error") ->
  exists final,
    run collect analyze company_name t = (Returned final, t1)
    /\ st_validation_passed final = false
    /\ st_analysis_results final = insufficient_results company_name "error".
Proof.
  intros Hcollect.
  assert (exists state,
             _collect_data_node collect (t, initial_state company_name)
             = (Returned tt, (t1, state))
             /\ raw_quality (st_raw_data state) = "error"
             /\ st_company_name state = company_name) as (state & Hnode & Hq & Hname).
  { rewrite collect_node_run. cbn [st_company_name initial_state].
    destruct Hcollect as [[e ->] | (c & -> & Hq)]; eexists; repeat split. exact Hq. }
  destruct (validated_error state Hq) as [Hfail Hres].
  exists (validated state). split; [|split].
  - apply run_skips_analysis; assumption.
  - exact Hfail.
  - rewrite Hres, Hname. reflexivity.
Qed.

End OrchestratorFacts.

(** C9: no source adapter raises, and a lookup that fails contributes the
  absent value (no page, no news, no site, no authoritative quote, an
  empty evidence pool); [collect_data] never raises whatever its adapters
  do, and an exception inside its sequence leaves the tier "error" and
  the message on the profile; the sequencer never raises whatever its
  collaborators do, and on an "error" profile, or a collector that raises,
  it stops before the analysis with the fixed "insufficient data" answer. *)
Theorem failures_stay_inside `{PyLib} `{World} :
  (forall company_name,
      returns (_search_wikipedia company_name)
      /\ returns (_search_news company_name)
      /\ returns (_search_official_website company_name)
      /\ returns (_get_stock_data_multi_source company_name))
  /\ (forall company_name t e,
        (wikipedia_page t company_name = Raised e ->
         fst (_search_wikipedia company_name t) = Returned None)
        /\ (ddgs_news t (company_name +:+ " stock") 5 = Raised e ->
            fst (_search_news company_name t) = Returned [])
        /\ (ddgs_text t (company_name +:+ " official website") 1 = Raised e ->
            fst (_search_official_website company_name t) = Returned None)
        /\ (forall api_key,
              session_get t indian_api_url company_name api_key = Raised e ->
              fst (_fetch_indian_api company_name api_key t) = Returned None)
        /\ (forall ticker_,
              ddgs_text t (company_name +:+ " stock price today INR") 3 = Raised e ->
              fst (_scrape_stock_data_from_web company_name ticker_ t)
              = Returned (_aggregate_stock_findings (empty_stock_info company_name ticker_)
                            company_name ticker_)))
  /\ (forall search_wikipedia search_news search_official_website
             get_stock_data_multi_source company_name,
        returns (collect_data_with search_wikipedia search_news search_official_website
                   get_stock_data_multi_source company_name)
        /\ forall t t' e c,
            collect_steps search_wikipedia search_news search_official_website
              get_stock_data_multi_source company_name
              (t, initial_collected company_name (now_isoformat t))
            = (Raised e, (t', c)) ->
            exists c',
              collect_data_with search_wikipedia search_news search_official_website
                get_stock_data_multi_source company_name t = (Returned c', t')
              /\ cd_data_quality c' = "error"
              /\ cd_error c' = Some (exn_str e))
  /\ (forall collect analyze company_name,
        returns (run collect analyze company_name)
        /\ forall t t1,
            (exists e, collect company_name t = (Raised e, t1))
            \/ (exists c, collect company_name t = (Returned c, t1)
                          /\ cd_data_quality c = "error") ->
            exists final,
              run collect analyze company_name t = (Returned final, t1)
              /\ st_validation_passed final = false
              /\ st_analysis_results final = insufficient_results company_name "error").
Proof.
  split; [|split; [|split]].
  - intros company_name. repeat split.
    + apply search_wikipedia_returns.
    + apply search_news_returns.
    + apply search_official_website_returns.
    + apply get_stock_data_returns.
  - intros company_name t e. repeat split.
    + intros Hf. now rewrite (search_wikipedia_fails _ _ _ Hf).
    + intros Hf. now rewrite (search_news_fails _ _ _ Hf).
    + intros Hf. now rewrite (search_official_website_fails _ _ _ Hf).
    + intros api_key Hf. now rewrite (fetch_indian_api_fails _ _ _ _ Hf).
    + intros ticker_ Hf. now rewrite (scrape_first_search_fails _ _ _ _ Hf).
  - intros. split.
    + apply collect_data_with_returns.
    + intros t t' e c Hrun. eapply collect_data_with_error. exact Hrun.
  - intros. split.
    + apply run_returns.
    + intros t t1 Hcollect. apply run_on_collection_error. exact Hcollect.
Qed.

Lemma failures_stay_inside_witness :
  fst (@_search_wikipedia Sample.failing "Acme" []) = Returned None
  /\ fst (@_search_news Sample.failing "Acme" []) = Returned []
  /\ (exists c',
         @collect_data_with Sample.silent (fun _ => ret None) (fun _ => ret [])
           (fun _ => ret None) (fun _ => raise (Exception "KeyError" "source")) "Acme" []
         = (Returned c', [])
         /\ cd_data_quality c' = "error"
         /\ cd_error c' = Some "source")
  /\ (exists final,
         run (fun _ => raise (Exception "RuntimeError" "collector down"))
             (fun _ => ret ∅) "Acme" []
         = (Returned final, [])
         /\ st_validation_passed final = false
         /\ st_analysis_results final = insufficient_results "Acme" "error").
Proof.
  destruct (@failures_stay_inside Sample.lib Sample.failing) as (_ & Habsent & _ & Hrun).
  destruct (@failures_stay_inside Sample.lib Sample.silent) as (_ & _ & Hcollect & _).
  destruct (Habsent "Acme" [] (Exception "Timeout" "wikipedia timed out"))
    as (Hwiki & _).
  destruct (Habsent "Acme" [] (Exception "RatelimitException" "202 Ratelimit"))
    as (_ & Hnews & _).
  split; [apply Hwiki; reflexivity|].
  split; [apply Hnews; reflexivity|].
  split.
  - apply (proj2 (Hcollect (fun _ => ret None) (fun _ => ret []) (fun _ => ret None)
                    (fun _ => raise (Exception "KeyError" "source")) "Acme")
             [] [] (Exception "KeyError" "source")
             (initial_collected "Acme" "2024-01-01T00:00:00")).
    reflexivity.
  - apply (proj2 (Hrun (fun _ => raise (Exception "RuntimeError" "collector down"))
                    (fun _ => ret ∅) "Acme")).
    left. eexists. reflexivity.
Defined.

(** * Further properties of the collector, the analyst and the sequencer *)

(** ** The extractors *)

(** X1: One vote at most per snippet, and in the order BUY, SELL, HOLD: a text
    with a BUY phrase votes BUY whatever else it says, a SELL phrase counts
    only without a BUY phrase, a HOLD phrase only without either; a text with
    none of them leaves the votes as they were. Nothing else of the pool is
    touched. *)
Theorem extract_recommendation_priority (snippet title : string) (si : stock_info) :
  let text := lower (snippet +:+ " " +:+ title) in
  let buy := has_keyword ["strong buy"; "buy rating"; "outperform"; "accumulate"] text in
  let sell := has_keyword ["sell rating"; "underperform"; "avoid"; "reduce"] text in
  let hold := has_keyword ["hold"; "neutral"; "maintain"] text in
  let si' := _extract_recommendation_from_text snippet title si in
  (buy -> recommendations_found si' = (recommendations_found si ++ ["BUY"])%list)
  /\ (~ buy -> sell ->
      recommendations_found si' = (recommendations_found si ++ ["SELL"])%list)
  /\ (~ buy -> ~ sell -> hold ->
      recommendations_found si' = (recommendations_found si ++ ["HOLD"])%list)
  /\ (~ buy -> ~ sell -> ~ hold -> si' = si)
  /\ (length (recommendations_found si') <= S (length (recommendations_found si)))%nat
  /\ prices_found si' = prices_found si
  /\ trends_found si' = trends_found si
  /\ sources_checked si' = sources_checked si.
Proof.
  intros text buy sell hold si'. subst si' buy sell hold.
  unfold _extract_recommendation_from_text. fold text.
  rewrite <- !any_in_has_keyword.
  destruct (any_in ["strong buy"; "buy rating"; "outperform"; "accumulate"] text);
    [|destruct (any_in ["sell rating"; "underperform"; "avoid"; "reduce"] text);
      [|destruct (any_in ["hold"; "neutral"; "maintain"] text)]];
    cbn [recommendations_found set_recommendations prices_found trends_found
         sources_checked];
    rewrite ?length_app; cbn [length];
    repeat split; intros; try reflexivity; try congruence; try lia.
Qed.

Lemma extract_recommendation_priority_witness :
  recommendations_found
    (_extract_recommendation_from_text "analysts say avoid, others hold" "Acme: Strong Buy"
       (empty_stock_info "Acme" "ACME")) = ["BUY"]
  /\ recommendations_found
       (_extract_recommendation_from_text "analysts say avoid, others hold" "Acme"
          (empty_stock_info "Acme" "ACME")) = ["SELL"]
  /\ _extract_recommendation_from_text "shares were flat" "Acme"
       (empty_stock_info "Acme" "ACME") = empty_stock_info "Acme" "ACME".
Proof.
  split; [|split].
  - apply (proj1 (extract_recommendation_priority "analysts say avoid, others hold"
                    "Acme: Strong Buy" (empty_stock_info "Acme" "ACME"))).
    exists "strong buy". split; [simpl; tauto | reflexivity].
  - apply (proj1 (proj2 (extract_recommendation_priority "analysts say avoid, others hold"
                           "Acme" (empty_stock_info "Acme" "ACME")))).
    + rewrite <- any_in_has_keyword. vm_compute. discriminate.
    + exists "avoid". split; [simpl; tauto | reflexivity].
  - apply (proj1 (proj2 (proj2 (proj2 (extract_recommendation_priority "shares were flat"
                                         "Acme" (empty_stock_info "Acme" "ACME"))))));
      rewrite <- any_in_has_keyword; vm_compute; discriminate.
Defined.

Section PriceExtraction.
Context `{PyLib}.

(** A candidate the extractor stores: the value of some match of some
    pattern, strictly inside the range. *)
Let stored (text : string) (p : PyNum.float) : Prop :=
  in_range p
  /\ exists pattern m,
      In pattern inr_patterns /\ In m (re_findall pattern text)
      /\ float_of_str (remove_commas m) = Some p.

Lemma keep_price_appends (prices : list PyNum.float) (m : string) :
  exists added,
    keep_price prices m = (prices ++ added)%list
    /\ Forall (fun p => in_range p /\ float_of_str (remove_commas m) = Some p) added.
Proof.
  unfold keep_price.
  destruct (float_of_str (remove_commas m)) as [price|] eqn:Hparse;
    [|exists []; rewrite app_nil_r; split; [reflexivity | constructor]].
  destruct (PyNum.gt price 10) eqn:Hlo;
    [|exists []; rewrite app_nil_r; split; [reflexivity | constructor]].
  destruct (PyNum.lt price 500000) eqn:Hhi;
    [|exists []; rewrite app_nil_r; split; [reflexivity | constructor]].
  exists [price]. split; [reflexivity|]. repeat constructor; assumption.
Qed.

Lemma fold_keep_price_appends (ms : list string) (prices : list PyNum.float) :
  exists added,
    fold_left keep_price ms prices = (prices ++ added)%list
    /\ Forall (fun p => in_range p
                        /\ exists m, In m ms /\ float_of_str (remove_commas m) = Some p)
              added.
Proof.
  revert prices. induction ms as [|m ms IH]; intros prices; cbn [fold_left].
  - exists []. rewrite app_nil_r. split; [reflexivity | constructor].
  - destruct (keep_price_appends prices m) as (a1 & -> & Ha1).
    destruct (IH (prices ++ a1)%list) as (a2 & -> & Ha2).
    exists (a1 ++ a2)%list. split; [now rewrite app_assoc|].
    apply Forall_app. split.
    + eapply List.Forall_impl; [|exact Ha1]. intros p [Hr Hp].
      split; [exact Hr|]. exists m. split; [left; reflexivity | exact Hp].
    + eapply List.Forall_impl; [|exact Ha2]. intros p (Hr & m' & Hin & Hp).
      split; [exact Hr|]. exists m'. split; [right; exact Hin | exact Hp].
Qed.

Lemma fold_patterns_appends (text : string) (patterns : list string)
      (prices : list PyNum.float) :
  exists added,
    fold_left (fun prices pattern => fold_left keep_price (re_findall pattern text) prices)
              patterns prices = (prices ++ added)%list
    /\ Forall (fun p => in_range p
                        /\ exists pattern m,
                            In pattern patterns /\ In m (re_findall pattern text)
                            /\ float_of_str (remove_commas m) = Some p)
              added.
Proof.
  revert prices. induction patterns as [|pat pats IH]; intros prices; cbn [fold_left].
  - exists []. rewrite app_nil_r. split; [reflexivity | constructor].
  - destruct (fold_keep_price_appends (re_findall pat text) prices) as (a1 & -> & Ha1).
    destruct (IH (prices ++ a1)%list) as (a2 & -> & Ha2).
    exists (a1 ++ a2)%list. split; [now rewrite app_assoc|].
    apply Forall_app. split.
    + eapply List.Forall_impl; [|exact Ha1]. intros p (Hr & m & Hin & Hp).
      split; [exact Hr|]. exists pat, m. repeat split; [left; reflexivity | exact Hin | exact Hp].
    + eapply List.Forall_impl; [|exact Ha2]. intros p (Hr & pat' & m & Hpat & Hin & Hp).
      split; [exact Hr|]. exists pat', m. repeat split; [right; exact Hpat | exact Hin | exact Hp].
Qed.

(** X2: Price extraction only ever appends: the prices already in the pool stay,
    in order, and each price added is the value of a match of one of the
    three patterns, strictly between 10 and 500000. When no match parses to
    such a value the pool is unchanged. Votes and sources are not touched. *)
Theorem extract_price_appends_in_range (text : string) (si : stock_info) :
  let si' := _extract_price_from_text text si in
  (exists added,
      prices_found si' = (prices_found si ++ added)%list
      /\ Forall (stored text) added)
  /\ ((forall pattern m p,
          In pattern inr_patterns -> In m (re_findall pattern text) ->
          float_of_str (remove_commas m) = Some p -> ~ in_range p) ->
      si' = si)
  /\ trends_found si' = trends_found si
  /\ recommendations_found si' = recommendations_found si
  /\ sources_checked si' = sources_checked si.
Proof.
  intros si'. subst si'. unfold _extract_price_from_text.
  destruct (fold_patterns_appends text inr_patterns (prices_found si)) as (added & Heq & Hall).
  rewrite Heq. cbn [prices_found set_prices trends_found recommendations_found
                    sources_checked].
  split; [exists added; split; [reflexivity | exact Hall]|].
  split; [|repeat split].
  intros Hnone. destruct added as [|p rest].
  - rewrite app_nil_r. destruct si; reflexivity.
  - exfalso. apply Forall_inv in Hall. destruct Hall as (Hr & pat & m & Hpat & Hin & Hp).
    exact (Hnone pat m p Hpat Hin Hp Hr).
Qed.

End PriceExtraction.

Lemma extract_price_appends_in_range_witness :
  @_extract_price_from_text
    {| re_findall := fun pattern _ => if String.prefix "rs" pattern then ["5"; "10"; "1,250.5"] else [];
       float_of_str := Sample.float_decimal |}
    "rs 5, rs 10, rs 1,250.5" (empty_stock_info "Acme" "ACME")
  = set_prices [Sample.ratio 12505 10] (empty_stock_info "Acme" "ACME")
  /\ @_extract_price_from_text
       {| re_findall := fun pattern _ => if String.prefix "rs" pattern then ["5"; "10"] else [];
          float_of_str := Sample.float_decimal |}
       "rs 5, rs 10" (empty_stock_info "Acme" "ACME")
     = empty_stock_info "Acme" "ACME".
Proof.
  split; [vm_compute; reflexivity|].
  apply (proj1 (proj2 (@extract_price_appends_in_range
                         {| re_findall := fun pattern _ =>
                              if String.prefix "rs" pattern then ["5"; "10"] else [];
                            float_of_str := Sample.float_decimal |}
                         "rs 5, rs 10" (empty_stock_info "Acme" "ACME")))).
  intros pattern m p Hpat Hm Hp [Hlo Hhi].
  cbn [re_findall] in Hm. cbn [float_of_str] in Hp.
  destruct Hpat as [<-|[<-|[<-|[]]]]; cbn in Hm;
    try contradiction;
    destruct Hm as [<-|[<-|[]]]; vm_compute in Hp; injection Hp as <-;
    vm_compute in Hlo; discriminate Hlo.
Defined.

(** ** The quality tier *)

(** X3: The tier in terms of what the profile holds. With [k] of the three main
    facts present (a description, a news item, a price) and [s] telling
    whether there are at least three citations: "high" needs all three, or
    two and [s]; "medium" is two without [s], or one with [s]; "low" is one
    without [s], or none with [s]; "insufficient" is nothing at all. The
    score never exceeds 7. *)
Theorem assess_data_quality_tiers (data : collected) :
  let d := PyStr.truthy (default "" (cd_company_info data !! "description")) in
  let n := match cd_news data with [] => false | _ => true end in
  let p := PyStr.truthy (match cd_stock_performance data with
                         | Some sd => current_price sd
                         | None => ""
                         end) in
  let s := (3 <=? length (cd_sources data))%nat in
  let k := (Nat.b2n d + Nat.b2n n + Nat.b2n p)%nat in
  quality_score data = (2 * k + Nat.b2n s)%nat
  /\ (quality_score data <= 7)%nat
  /\ (_assess_data_quality data = "high" <-> k = 3%nat \/ (k = 2%nat /\ s = true))
  /\ (_assess_data_quality data = "medium"
      <-> (k = 2%nat /\ s = false) \/ (k = 1%nat /\ s = true))
  /\ (_assess_data_quality data = "low"
      <-> (k = 1%nat /\ s = false) \/ (k = 0%nat /\ s = true))
  /\ (_assess_data_quality data = "insufficient" <-> k = 0%nat /\ s = false).
Proof.
  intros d n p s k.
  assert (Hscore : quality_score data = (2 * k + Nat.b2n s)%nat).
  { unfold quality_score. fold d p s. subst k n.
    destruct d, (cd_news data), p, s; reflexivity. }
  split; [exact Hscore|]. unfold _assess_data_quality. rewrite Hscore.
  subst k. destruct d, n, p, s; cbn;
    repeat split; intros; try lia; try discriminate; try reflexivity;
    try (left; split; (reflexivity || lia)); try (right; split; (reflexivity || lia));
    try (left; lia);
    repeat match goal with
           | H : _ \/ _ |- _ => destruct H
           | H : _ /\ _ |- _ => destruct H
           end; try discriminate; try lia.
Qed.

Lemma assess_data_quality_tiers_witness :
  _assess_data_quality
    (set_stock_performance Sample.scenario_signal
       (set_news [{| news_title := "Acme gains"; news_summary := ""; news_url := "";
                     news_date := "" |}]
          (set_company_info (fun _ => <["description" := "Acme makes anvils."]> ∅)
             (initial_collected "Acme" "2024-01-01T00:00:00")))) = "high"
  /\ _assess_data_quality (initial_collected "Acme" "2024-01-01T00:00:00") = "insufficient".
Proof.
  split.
  - apply (proj1 (proj2 (proj2 (assess_data_quality_tiers _)))). left. reflexivity.
  - apply (proj2 (proj2 (proj2 (proj2 (proj2 (assess_data_quality_tiers _)))))).
    split; reflexivity.
Defined.

(** ** The consensus *)

Lemma count_app (x : string) (l1 l2 : list string) :
  PyNum.count x (l1 ++ l2) = (PyNum.count x l1 + PyNum.count x l2)%nat.
Proof. unfold PyNum.count. apply count_occ_app. Qed.

(** X4: The recommendation is a plurality winner: on a non-empty list of votes
    its own count is at least each of the three counts, and when HOLD wins
    its count is strictly above both others. *)
Theorem recommendation_is_plurality (si : stock_info) (company_name ticker_ : string) :
  let recs := recommendations_found si in
  let result := _aggregate_stock_findings si company_name ticker_ in
  let winning_count := PyNum.count (recommendation result) recs in
  recs <> [] ->
  (PyNum.count "BUY" recs <= winning_count)%nat
  /\ (PyNum.count "SELL" recs <= winning_count)%nat
  /\ (PyNum.count "HOLD" recs <= winning_count)%nat
  /\ (recommendation result = "HOLD" ->
      (PyNum.count "BUY" recs < winning_count)%nat
      /\ (PyNum.count "SELL" recs < winning_count)%nat).
Proof.
  intros recs result winning_count Hne. subst winning_count.
  pose proof (aggregate_recommendation si company_name ticker_) as Hagg.
  fold result recs in Hagg. unfold recommendation_consensus in Hagg.
  destruct recs as [|v vs] eqn:Hrecs; [congruence|].
  set (b := PyNum.count "BUY" (v :: vs)) in *.
  set (s := PyNum.count "SELL" (v :: vs)) in *.
  set (h := PyNum.count "HOLD" (v :: vs)) in *.
  destruct (Nat.leb_spec s b), (Nat.leb_spec h b), (Nat.ltb_spec b s), (Nat.leb_spec h s);
    cbn [andb] in Hagg; injection Hagg as Hr Hc; rewrite Hr;
    fold b s h; repeat split; intros; try discriminate; lia.
Qed.

Lemma recommendation_is_plurality_witness :
  let si := set_recommendations ["HOLD"; "BUY"; "HOLD"; "SELL"; "HOLD"]
              (empty_stock_info "Acme" "ACME") in
  recommendation (_aggregate_stock_findings si "Acme" "ACME") = "HOLD"
  /\ (PyNum.count "BUY" (recommendations_found si)
      < PyNum.count (recommendation (_aggregate_stock_findings si "Acme" "ACME"))
          (recommendations_found si))%nat.
Proof.
  cbv zeta. split; [reflexivity|].
  apply (recommendation_is_plurality
           (set_recommendations ["HOLD"; "BUY"; "HOLD"; "SELL"; "HOLD"]
              (empty_stock_info "Acme" "ACME")) "Acme" "ACME");
    [discriminate | reflexivity].
Defined.

(** X5: A snippet that says both "up" and "down" does not move the consensus:
    the two votes it adds cancel, whatever the votes before it. *)
Theorem mixed_snippet_keeps_trend (snippet title : string) (si : stock_info)
        (company_name ticker_ : string) :
  has_keyword bullish_words (lower (snippet +:+ " " +:+ title)) ->
  has_keyword bearish_words (lower (snippet +:+ " " +:+ title)) ->
  trend (_aggregate_stock_findings (_extract_trend_from_text snippet title si)
           company_name ticker_)
  = trend (_aggregate_stock_findings si company_name ticker_).
Proof.
  intros Hb Hr. rewrite !aggregate_trend, extract_trend_votes.
  apply any_in_has_keyword in Hb, Hr. rewrite Hb, Hr.
  unfold trend_consensus.
  destruct (trends_found si ++ ["bullish"] ++ ["bearish"])%list as [|v vs] eqn:Happ.
  { apply app_eq_nil in Happ as [_ Habs]. discriminate Habs. }
  rewrite <- Happ, !count_app.
  change (PyNum.count "bullish" ["bullish"]) with 1%nat.
  change (PyNum.count "bullish" ["bearish"]) with 0%nat.
  change (PyNum.count "bearish" ["bullish"]) with 0%nat.
  change (PyNum.count "bearish" ["bearish"]) with 1%nat.
  destruct (trends_found si) as [|w ws] eqn:Hold.
  - reflexivity.
  - rewrite <- Hold.
    set (b := PyNum.count "bullish" (trends_found si)).
    set (r := PyNum.count "bearish" (trends_found si)).
    destruct (Nat.ltb_spec r b), (Nat.ltb_spec b r),
      (Nat.ltb_spec (r + (0 + 1)) (b + (1 + 0))), (Nat.ltb_spec (b + (1 + 0)) (r + (0 + 1)));
      try reflexivity; lia.
Qed.

Lemma mixed_snippet_keeps_trend_witness :
  trend (_aggregate_stock_findings
           (_extract_trend_from_text "sensex up, nifty down" ""
              (set_trends ["bearish"] (empty_stock_info "Acme" "ACME")))
           "Acme" "ACME") = "bearish".
Proof.
  rewrite (mixed_snippet_keeps_trend "sensex up, nifty down" ""
             (set_trends ["bearish"] (empty_stock_info "Acme" "ACME")) "Acme" "ACME").
  - reflexivity.
  - exists "up". split; [simpl; tauto | reflexivity].
  - exists "down". split; [simpl; tauto | reflexivity].
Defined.

Lemma remove_dups_same_elements (l l' : list string) :
  (forall x, In x l <-> In x l') -> length (remove_dups l) = length (remove_dups l').
Proof.
  intros Hsame. apply Permutation_length. apply NoDup_Permutation.
  - apply NoDup_remove_dups.
  - apply NoDup_remove_dups.
  - intros x. rewrite !elem_of_remove_dups, !list_elem_of_In. apply Hsame.
Qed.

(** X6: The verdict does not depend on the order in which the evidence came in:
    two pools with the same votes in any order, and with the same set of
    sources however often each was seen, get the same trend, estimate,
    recommendation, confidence and source count. *)
Theorem consensus_ignores_order (si si' : stock_info) (company_name ticker_ : string) :
  Permutation (trends_found si) (trends_found si') ->
  Permutation (recommendations_found si) (recommendations_found si') ->
  (forall x, In x (sources_checked si) <-> In x (sources_checked si')) ->
  let r := _aggregate_stock_findings si company_name ticker_ in
  let r' := _aggregate_stock_findings si' company_name ticker_ in
  trend r = trend r'
  /\ price_change_pct r = price_change_pct r'
  /\ recommendation r = recommendation r'
  /\ confidence r = confidence r'
  /\ sources_analyzed r = sources_analyzed r'
  /\ source r = source r'.
Proof.
  intros Htrends Hrecs Hsources r r'.
  assert (Hcount_t : forall x, PyNum.count x (trends_found si)
                               = PyNum.count x (trends_found si')).
  { intros x. unfold PyNum.count.
    apply (proj1 (Permutation_count_occ string_dec _ _) Htrends). }
  assert (Hcount_r : forall x, PyNum.count x (recommendations_found si)
                               = PyNum.count x (recommendations_found si')).
  { intros x. unfold PyNum.count.
    apply (proj1 (Permutation_count_occ string_dec _ _) Hrecs). }
  pose proof (remove_dups_same_elements _ _ Hsources) as Hdistinct.
  assert (Hnil_t : trends_found si = [] <-> trends_found si' = []).
  { split; intros Hnil; rewrite Hnil in Htrends;
      [apply Permutation_nil in Htrends
      |apply Permutation_sym, Permutation_nil in Htrends]; exact Htrends. }
  assert (Hnil_r : recommendations_found si = [] <-> recommendations_found si' = []).
  { split; intros Hnil; rewrite Hnil in Hrecs;
      [apply Permutation_nil in Hrecs
      |apply Permutation_sym, Permutation_nil in Hrecs]; exact Hrecs. }
  assert (Hrec : recommendation_consensus (recommendations_found si)
                 = recommendation_consensus (recommendations_found si')).
  { unfold recommendation_consensus.
    destruct (recommendations_found si) as [|v vs] eqn:H1,
             (recommendations_found si') as [|v' vs'] eqn:H2; try reflexivity.
    - discriminate (proj1 Hnil_r eq_refl).
    - discriminate (proj2 Hnil_r eq_refl).
    - cbn [length]. rewrite !Hcount_r. reflexivity. }
  assert (Htrend : trend_consensus (trends_found si) = trend_consensus (trends_found si')).
  { unfold trend_consensus.
    destruct (trends_found si) as [|v vs] eqn:H1,
             (trends_found si') as [|v' vs'] eqn:H2; try reflexivity.
    - discriminate (proj1 Hnil_t eq_refl).
    - discriminate (proj2 Hnil_t eq_refl).
    - rewrite !Hcount_t. reflexivity. }
  subst r r'. unfold _aggregate_stock_findings.
  rewrite Hrec, Htrend, Hdistinct.
  destruct (recommendation_consensus (recommendations_found si')) as [rec conf].
  cbn [trend price_change_pct recommendation confidence sources_analyzed source].
  repeat split.
  destruct (trends_found si) as [|v vs] eqn:H1,
           (trends_found si') as [|v' vs'] eqn:H2; try reflexivity.
  - discriminate (proj1 Hnil_t eq_refl).
  - discriminate (proj2 Hnil_t eq_refl).
  - rewrite !Hcount_t. reflexivity.
Qed.

Lemma consensus_ignores_order_witness :
  let si := {| info_ticker := "ACME"; info_company := "Acme"; prices_found := [];
               trends_found := ["bullish"; "bearish"; "bullish"];
               recommendations_found := ["SELL"; "BUY"; "BUY"];
               sources_checked := ["a"; "b"; "a"] |} in
  let si' := {| info_ticker := "ACME"; info_company := "Acme"; prices_found := [];
                trends_found := ["bearish"; "bullish"; "bullish"];
                recommendations_found := ["BUY"; "BUY"; "SELL"];
                sources_checked := ["b"; "a"] |} in
  recommendation (_aggregate_stock_findings si "Acme" "ACME")
  = recommendation (_aggregate_stock_findings si' "Acme" "ACME")
  /\ sources_analyzed (_aggregate_stock_findings si "Acme" "ACME")
     = sources_analyzed (_aggregate_stock_findings si' "Acme" "ACME").
Proof.
  cbv zeta.
  destruct (consensus_ignores_order
              {| info_ticker := "ACME"; info_company := "Acme"; prices_found := [];
                 trends_found := ["bullish"; "bearish"; "bullish"];
                 recommendations_found := ["SELL"; "BUY"; "BUY"];
                 sources_checked := ["a"; "b"; "a"] |}
              {| info_ticker := "ACME"; info_company := "Acme"; prices_found := [];
                 trends_found := ["bearish"; "bullish"; "bullish"];
                 recommendations_found := ["BUY"; "BUY"; "SELL"];
                 sources_checked := ["b"; "a"] |} "Acme" "ACME")
    as (_ & _ & Hrec & _ & Hsrc & _).
  - cbn [trends_found]. apply perm_swap.
  - cbn [recommendations_found].
    apply (Permutation_trans (perm_swap "BUY" "SELL" ["BUY"])).
    apply perm_skip, perm_swap.
  - cbn [sources_checked]. intros x. simpl. tauto.
  - split; assumption.
Defined.

(** ** The authoritative API adapter: what it rejects, what it resolves *)

Section IndianApiMore.
Context `{PyLib}.

(** The signal of a percent change: one of the six a number gives, or the
    one of a NaN. *)
Lemma signal_of_change_cases (c : PyNum.float) :
  (trend_of_change c = "bullish" /\ _get_recommendation c = "STRONG BUY"
   /\ confidence_of_change c = "High")
  \/ (trend_of_change c = "bullish" /\ _get_recommendation c = "BUY"
      /\ confidence_of_change c = "Moderate")
  \/ (trend_of_change c = "neutral" /\ _get_recommendation c = "HOLD"
      /\ confidence_of_change c = "Moderate")
  \/ (trend_of_change c = "bearish" /\ _get_recommendation c = "HOLD"
      /\ confidence_of_change c = "Moderate")
  \/ (trend_of_change c = "bearish" /\ _get_recommendation c = "SELL"
      /\ confidence_of_change c = "Moderate")
  \/ (trend_of_change c = "bearish" /\ _get_recommendation c = "SELL"
      /\ confidence_of_change c = "High")
  \/ (c = S754_nan /\ trend_of_change c = "neutral" /\ _get_recommendation c = "SELL"
      /\ confidence_of_change c = "Moderate").
Proof.
  destruct (PyNum.is_finite c) eqn:Hfinite.
  - destruct (signal_of_finite_change c Hfinite)
      as (Hup & Hdown & Hflat & Hsb & Hb & Hh & Hs & Hhigh & Hmod).
    set (v := PyNum.value c) in *.
    destruct (Qlt_le_dec 2 v) as [H2|H2].
    { left. repeat split; [apply Hup; lra | apply Hsb; lra | apply Hhigh; left; lra]. }
    destruct (Qlt_le_dec 0 v) as [H0|H0].
    { right; left. repeat split; [apply Hup; lra | apply Hb; split; lra |].
      apply Hmod. split; lra. }
    destruct (Qlt_le_dec v 0) as [Hn|Hn].
    2:{ right; right; left.
        repeat split; [apply Hflat; lra | apply Hh; split; lra | apply Hmod; split; lra]. }
    destruct (Qlt_le_dec (-2) v) as [Hm2|Hm2].
    { right; right; right; left.
      repeat split; [apply Hdown; lra | apply Hh; split; lra | apply Hmod; split; lra]. }
    destruct (Qlt_le_dec v (-2)) as [Hl|Hl].
    + right; right; right; right; right; left.
      repeat split; [apply Hdown; lra | apply Hs; lra | apply Hhigh; right; lra].
    + right; right; right; right; left.
      repeat split; [apply Hdown; lra | apply Hs; lra | apply Hmod; split; lra].
  - destruct c as [s|[]| |s m e]; try discriminate Hfinite.
    + right; right; right; right; right; left. repeat split.
    + left. repeat split.
    + right; right; right; right; right; right. repeat split.
Qed.

End IndianApiMore.

Section IndianApiTheorems.
Context `{PyLib} `{World}.

(** X7: The API adapter gives no signal, and makes its one request, when the
    status is not 200, when the body is not JSON, and when the decoded body
    is anything but a non-empty object without an "error" key (a list, a
    string, a number, null, an empty object, an error report). *)
Theorem fetch_indian_api_rejects (company_name api_key : string) (t : trace) :
  let absent := (Returned (@None stock_data),
                 (t ++ [HttpGet indian_api_url company_name api_key])%list) in
  (forall response,
      session_get t indian_api_url company_name api_key = Returned response ->
      status_code response <> 200%Z ->
      _fetch_indian_api company_name api_key t = absent)
  /\ (forall response e,
        session_get t indian_api_url company_name api_key = Returned response ->
        response_json response = Raised e ->
        _fetch_indian_api company_name api_key t = absent)
  /\ (forall response data,
        session_get t indian_api_url company_name api_key = Returned response ->
        response_json response = Returned data ->
        (forall fields, data = JObj fields ->
                        fields = [] \/ is_Some (PyJson.assoc "error" fields)) ->
        _fetch_indian_api company_name api_key t = absent).
Proof.
  intros absent. subst absent.
  assert (Hnone : forall response,
             session_get t indian_api_url company_name api_key = Returned response ->
             (forall data d, status_code response = 200%Z ->
                             response_json response = Returned data ->
                             run_pure (parse_quote company_name data) <> Returned (Some d)) ->
             _fetch_indian_api company_name api_key t
             = (Returned None, (t ++ [HttpGet indian_api_url company_name api_key])%list)).
  { intros response Hget Hno.
    pose proof (fetch_indian_api_trace company_name api_key t) as Htrace.
    destruct (fetch_indian_api_returns company_name api_key t) as (r & t' & Hrun).
    rewrite Hrun in Htrace |- *. cbn in Htrace. subst t'.
    destruct r as [d|]; [|reflexivity].
    apply fetch_indian_api_some in Hrun as (response' & data & Hget' & Hs & Hj & Hparse & _).
    rewrite Hget in Hget'. injection Hget' as <-.
    exfalso. exact (Hno data d Hs Hj Hparse). }
  split; [|split].
  - intros response Hget Hstatus. apply (Hnone response Hget).
    intros data d Hs. contradiction.
  - intros response e Hget Hjson. apply (Hnone response Hget).
    intros data d _ Hj. congruence.
  - intros response data Hget Hjson Hbad. apply (Hnone response Hget).
    intros data' d _ Hj Hparse. rewrite Hjson in Hj. injection Hj as <-.
    apply parse_quote_object in Hparse as (fields & -> & Hne & Herr).
    destruct (Hbad fields eq_refl) as [Hempty | [v Hv]]; congruence.
Qed.

Lemma resolve_price_object (fields exchanges : list (string * json)) :
  default (JObj []) (PyJson.assoc "currentPrice" fields) = JObj exchanges ->
  run_pure (resolve_price (JObj fields))
  = Returned (List.find PyJson.truthy
                [default (JInt 0) (PyJson.assoc "NSE" exchanges);
                 default (JInt 0) (PyJson.assoc "BSE" exchanges);
                 default (JInt 0) (PyJson.assoc "price" fields);
                 default (JInt 0) (PyJson.assoc "lastPrice" fields)]).
Proof.
  intros Hcp. unfold resolve_price.
  rewrite run_pure_bind, run_pure_of_outcome. cbn [PyJson.get].
  change (match PyJson.assoc "currentPrice" fields with
          | Some v => v
          | None => JObj []
          end) with (default (JObj []) (PyJson.assoc "currentPrice" fields)).
  rewrite Hcp.
  rewrite run_pure_bind, run_pure_of_outcome. cbn [PyJson.get].
  rewrite run_pure_bind, run_pure_of_outcome. cbn [PyJson.get].
  change (match PyJson.assoc "NSE" exchanges with Some v => v | None => JInt 0 end)
    with (default (JInt 0) (PyJson.assoc "NSE" exchanges)).
  change (match PyJson.assoc "BSE" exchanges with Some v => v | None => JInt 0 end)
    with (default (JInt 0) (PyJson.assoc "BSE" exchanges)).
  set (nse := default (JInt 0) (PyJson.assoc "NSE" exchanges)).
  set (bse := default (JInt 0) (PyJson.assoc "BSE" exchanges)).
  rewrite run_pure_bind. cbn [List.find]. unfold PyJson.or at 1 2.
  destruct (PyJson.truthy nse) eqn:Hn.
  - rewrite Hn, run_pure_ret, Hn, run_pure_ret. reflexivity.
  - destruct (PyJson.truthy bse) eqn:Hb.
    + rewrite run_pure_ret, Hb, run_pure_ret. reflexivity.
    + rewrite run_pure_bind, run_pure_of_outcome. cbn [PyJson.get].
      rewrite run_pure_bind, run_pure_of_outcome. cbn [PyJson.get].
      change (match PyJson.assoc "price" fields with Some v => v | None => JInt 0 end)
        with (default (JInt 0) (PyJson.assoc "price" fields)).
      change (match PyJson.assoc "lastPrice" fields with Some v => v | None => JInt 0 end)
        with (default (JInt 0) (PyJson.assoc "lastPrice" fields)).
      set (pr := default (JInt 0) (PyJson.assoc "price" fields)).
      set (lp := default (JInt 0) (PyJson.assoc "lastPrice" fields)).
      rewrite run_pure_ret. unfold PyJson.or.
      destruct (PyJson.truthy pr) eqn:Hp.
      * rewrite Hp, run_pure_ret. reflexivity.
      * destruct (PyJson.truthy lp) eqn:Hl; rewrite run_pure_ret; reflexivity.
Qed.

(** X8: The price is the first truthy value among the NSE quote, the BSE quote,
    the "price" field and the "lastPrice" field, a zero or an empty string
    counting as missing; there is no price when none is truthy. When
    "currentPrice" is present but is not an object the resolution raises, and
    no signal comes out even if "price" is there. *)
Theorem price_resolution_order (fields : list (string * json)) :
  let field key := default (JInt 0) (PyJson.assoc key fields) in
  match default (JObj []) (PyJson.assoc "currentPrice" fields) with
  | JObj exchanges =>
      let quote key := default (JInt 0) (PyJson.assoc key exchanges) in
      run_pure (resolve_price (JObj fields))
      = Returned (List.find PyJson.truthy
                    [quote "NSE"; quote "BSE"; field "price"; field "lastPrice"])
  | _ =>
      run_pure (resolve_price (JObj fields)) = Raised AttributeError
      /\ forall company_name d,
          run_pure (parse_quote company_name (JObj fields)) <> Returned (Some d)
  end.
Proof.
  intros field.
  assert (Hraise : run_pure (resolve_price (JObj fields)) = Raised AttributeError ->
                   forall company_name d,
                     run_pure (parse_quote company_name (JObj fields)) <> Returned (Some d)).
  { intros Hr company_name d Hparse.
    apply parse_quote_some in Hparse as (price & p & c & Hprice & _). congruence. }
  destruct (default (JObj []) (PyJson.assoc "currentPrice" fields)) as [| | | | | |exchanges]
    eqn:Hcp;
    try (apply resolve_price_object; exact Hcp).
  all: assert (Hr : run_pure (resolve_price (JObj fields)) = Raised AttributeError)
    by (unfold resolve_price; rewrite run_pure_bind, run_pure_of_outcome;
        cbn [PyJson.get];
        change (match PyJson.assoc "currentPrice" fields with
                | Some v => v
                | None => JObj []
                end) with (default (JObj []) (PyJson.assoc "currentPrice" fields));
        rewrite Hcp; reflexivity).
  all: split; [exact Hr | apply Hraise; exact Hr].
Qed.

End IndianApiTheorems.

Lemma fetch_indian_api_rejects_witness :
  fst (@_fetch_indian_api Sample.lib (Replies.api Replies.rate_limited (Returned ""))
         "Acme" "k-123" []) = Returned None
  /\ fst (@_fetch_indian_api Sample.lib
            (Replies.api (Replies.ok Replies.error_report) (Returned ""))
            "Acme" "k-123" []) = Returned None
  /\ fst (@_fetch_indian_api Sample.lib
            (Replies.api (Replies.ok (JArr [JStr "quote"])) (Returned ""))
            "Acme" "k-123" []) = Returned None.
Proof.
  split; [|split].
  - rewrite (proj1 (@fetch_indian_api_rejects Sample.lib
                      (Replies.api Replies.rate_limited (Returned "")) "Acme" "k-123" [])
               _ eq_refl); [reflexivity | discriminate].
  - rewrite (proj2 (proj2 (@fetch_indian_api_rejects Sample.lib
                             (Replies.api (Replies.ok Replies.error_report) (Returned ""))
                             "Acme" "k-123" []))
               _ Replies.error_report eq_refl eq_refl); [reflexivity|].
    intros fields [= <-]. right. eexists. reflexivity.
  - rewrite (proj2 (proj2 (@fetch_indian_api_rejects Sample.lib
                             (Replies.api (Replies.ok (JArr [JStr "quote"])) (Returned ""))
                             "Acme" "k-123" []))
               _ (JArr [JStr "quote"]) eq_refl eq_refl); [reflexivity|].
    intros fields Habs. discriminate Habs.
Defined.

Lemma price_resolution_order_witness :
  run_pure (resolve_price (JObj Replies.bse_only))
  = Returned (Some (JFloat (PyNum.nearest 1500)))
  /\ run_pure (resolve_price (JObj Replies.scalar_price)) = Raised AttributeError
  /\ run_pure (@parse_quote Sample.lib "Acme" (JObj Replies.scalar_price)) = Raised AttributeError.
Proof.
  pose proof (@price_resolution_order Sample.lib Replies.bse_only) as Hbse.
  pose proof (@price_resolution_order Sample.lib Replies.scalar_price) as Hscalar.
  cbn in Hbse, Hscalar. destruct Hscalar as [Hraise Hnone].
  split; [exact Hbse|]. split; [exact Hraise|]. reflexivity.
Defined.

Section IndianApiSignal.
Context `{PyLib} `{World}.

Lemma resolve_pct_change_falsy (fields : list (string * json)) :
  PyJson.truthy (default (JInt 0) (PyJson.assoc "percentChange" fields)) = false ->
  run_pure (resolve_pct_change (JObj fields)) = Returned (PyNum.nearest 0).
Proof.
  intros Hfalsy. unfold resolve_pct_change.
  rewrite run_pure_bind, run_pure_of_outcome. cbn [PyJson.get].
  change (match PyJson.assoc "percentChange" fields with Some v => v | None => JInt 0 end)
    with (default (JInt 0) (PyJson.assoc "percentChange" fields)).
  destruct (default (JInt 0) (PyJson.assoc "percentChange" fields))
    as [| | | | | |[|kv rest]]; cbn [PyJson.is_dict];
    rewrite ?run_pure_bind, ?run_pure_ret, ?run_pure_of_outcome; cbn [PyJson.get PyJson.assoc];
    rewrite ?run_pure_bind, ?run_pure_ret, ?run_pure_of_outcome; cbn [PyJson.get PyJson.assoc];
    rewrite ?run_pure_bind, ?run_pure_ret;
    try rewrite Hfalsy; try discriminate Hfalsy; reflexivity.
Qed.

(** X9: A response without a percent change, or with one that is zero, empty or
    null, gives a flat signal: change "+0.00%", neutral, HOLD, Moderate. *)
Theorem missing_change_is_flat (company_name api_key : string) (t t' : trace)
        (response : response) (fields : list (string * json)) (d : stock_data) :
  session_get t indian_api_url company_name api_key = Returned response ->
  response_json response = Returned (JObj fields) ->
  PyJson.truthy (default (JInt 0) (PyJson.assoc "percentChange" fields)) = false ->
  _fetch_indian_api company_name api_key t = (Returned (Some d), t') ->
  price_change_pct d = "+0.00%"
  /\ change_24hr d = Some "+0.00%"
  /\ trend d = "neutral"
  /\ recommendation d = "HOLD"
  /\ confidence d = "Moderate".
Proof.
  intros Hget Hjson Hfalsy Hfetch.
  apply fetch_indian_api_some in Hfetch as (response' & data & Hget' & _ & Hjson' & Hparse & _).
  rewrite Hget in Hget'. injection Hget' as <-.
  rewrite Hjson in Hjson'. injection Hjson' as <-.
  apply parse_quote_record in Hparse
    as (c & Hpct & Hchange & H24 & Htrend & Hrec & Hconf & _).
  rewrite (resolve_pct_change_falsy fields Hfalsy) in Hpct. injection Hpct as <-.
  rewrite H24, Hchange, Htrend, Hrec, Hconf. repeat split; reflexivity.
Qed.

(** Only a NaN is shown as "+nan%". *)
Lemma format_change_nan (c : PyNum.float) :
  PyNum.format_2f true false c +:+ "%" = "+nan%" -> c = S754_nan.
Proof.
  destruct c as [[]|[]| |s m e]; try discriminate; [reflexivity|].
  intros Heq. exfalso. revert Heq. unfold PyNum.format_2f. cbn [PyNum.sign_bit].
  destruct s; [discriminate|].
  set (h := PyNum.hundredths _).
  destruct (str_of_N_digits (Z.to_N (h / 100))) as [Hdigits Hne].
  destruct (PyNum.str_of_N (Z.to_N (h / 100))) as [|a rest]; [now cbn in Hne|].
  cbn. intros [= Ha _]. inversion Hdigits as [|? ? Hdigit _]; subst. discriminate Hdigit.
Qed.

(** X10: The fields of an API signal agree with each other: the trend is bullish
    exactly when the recommendation is STRONG BUY or BUY; confidence is High
    only with STRONG BUY or SELL, and always with STRONG BUY; the two change
    fields are the same text; one source is counted. Unless the percent
    change is a NaN, a neutral trend goes with HOLD and Moderate and SELL
    only comes with a bearish trend; a NaN, which compares false with every
    threshold and is the only change shown as "+nan%", gives a neutral
    trend with SELL and Moderate. *)
Theorem api_signal_is_coherent (company_name api_key : string) (t t' : trace)
        (d : stock_data) :
  _fetch_indian_api company_name api_key t = (Returned (Some d), t') ->
  (trend d = "bullish" <-> recommendation d = "STRONG BUY" \/ recommendation d = "BUY")
  /\ (confidence d = "High" ->
      recommendation d = "STRONG BUY" \/ recommendation d = "SELL")
  /\ (recommendation d = "STRONG BUY" -> confidence d = "High")
  /\ change_24hr d = Some (price_change_pct d)
  /\ sources_analyzed d = 1%nat
  /\ (price_change_pct d <> "+nan%" ->
      (trend d = "neutral" -> recommendation d = "HOLD" /\ confidence d = "Moderate")
      /\ (recommendation d = "SELL" -> trend d = "bearish"))
  /\ (price_change_pct d = "+nan%" ->
      trend d = "neutral" /\ recommendation d = "SELL" /\ confidence d = "Moderate")
  /\ (price_change_pct d = "+nan%" <->
      exists response data,
        session_get t indian_api_url company_name api_key = Returned response
        /\ response_json response = Returned data
        /\ run_pure (resolve_pct_change data) = Returned S754_nan).
Proof.
  intros Hfetch.
  apply fetch_indian_api_some in Hfetch
    as (response & data & Hget & _ & Hjson & Hparse & _).
  apply parse_quote_record in Hparse
    as (c & Hchange & Hpct & H24 & Htrend & Hrec & Hconf & Hsrc & _).
  assert (Hnan : price_change_pct d = "+nan%" <-> c = S754_nan).
  { rewrite Hpct. split; [apply format_change_nan | intros ->; reflexivity]. }
  assert (Hresp : price_change_pct d = "+nan%" <->
                  exists response data,
                    session_get t indian_api_url company_name api_key = Returned response
                    /\ response_json response = Returned data
                    /\ run_pure (resolve_pct_change data) = Returned S754_nan).
  { rewrite Hnan. split.
    - intros ->. exists response, data. repeat split; assumption.
    - intros (response' & data' & Hget' & Hjson' & Hchange').
      rewrite Hget in Hget'. injection Hget' as <-.
      rewrite Hjson in Hjson'. injection Hjson' as <-.
      rewrite Hchange in Hchange'. injection Hchange' as ->. reflexivity. }
  clear Hpct Hchange.
  destruct (signal_of_change_cases c)
    as [(Ht & Hr & Hc) | [(Ht & Hr & Hc) | [(Ht & Hr & Hc)
       | [(Ht & Hr & Hc) | [(Ht & Hr & Hc) | [(Ht & Hr & Hc) | (Hc0 & Ht & Hr & Hc)]]]]]];
    rewrite Ht in Htrend; rewrite Hr in Hrec; rewrite Hc in Hconf;
    rewrite Htrend, Hrec, Hconf;
    (split;
     [split;
      [intros; first [discriminate | left; reflexivity | right; reflexivity]
      |intros [Hx|Hx]; first [discriminate Hx | reflexivity]]|]);
    (split; [intros; first [discriminate | left; reflexivity | right; reflexivity]|]);
    (split; [intros; first [discriminate | reflexivity]|]);
    (split; [exact H24|]); (split; [exact Hsrc|]);
    (split; [|split; [|exact Hresp]]).
  13: { intros Hne. exfalso. apply Hne, Hnan, Hc0. }
  13: { intros _. repeat split. }
  all: first
         [ intros _; split; intros; first [discriminate | split; reflexivity | reflexivity]
         | intros Hq; apply Hnan in Hq; subst c; vm_compute in Ht, Hr;
           first [discriminate Ht | discriminate Hr] ].
Qed.

End IndianApiSignal.

Lemma missing_change_is_flat_witness :
  exists d,
    fst (@_fetch_indian_api Sample.lib
           (Replies.api (Replies.ok (JObj Replies.no_change)) (Returned ""))
           "Acme" "k-123" []) = Returned (Some d)
    /\ current_price d = "₹250.00"
    /\ price_change_pct d = "+0.00%"
    /\ recommendation d = "HOLD".
Proof.
  destruct (@_fetch_indian_api Sample.lib
              (Replies.api (Replies.ok (JObj Replies.no_change)) (Returned ""))
              "Acme" "k-123" []) as [r t'] eqn:Hrun.
  assert (Hr : exists d, r = Returned (Some d) /\ current_price d = "₹250.00").
  { vm_compute in Hrun. injection Hrun as <- _. eexists. split; reflexivity. }
  destruct Hr as (d & -> & Hprice). exists d.
  destruct (@missing_change_is_flat Sample.lib
              (Replies.api (Replies.ok (JObj Replies.no_change)) (Returned ""))
              "Acme" "k-123" [] t' _ Replies.no_change d eq_refl eq_refl eq_refl Hrun)
    as (Hchange & _ & _ & Hrec & _).
  repeat split; assumption.
Defined.

Lemma api_signal_is_coherent_witness :
  (exists d,
      fst (@_fetch_indian_api Sample.lib
             (Replies.api (Replies.ok (JObj Replies.falling)) (Returned ""))
             "Acme" "k-123" []) = Returned (Some d)
      /\ recommendation d = "SELL"
      /\ trend d = "bearish"
      /\ change_24hr d = Some (price_change_pct d))
  /\ (exists d,
         fst (@_fetch_indian_api Sample.lib
                (Replies.api (Replies.ok (JObj Replies.nan_change)) (Returned ""))
                "Acme" "k-123" []) = Returned (Some d)
         /\ price_change_pct d = "+nan%"
         /\ trend d = "neutral"
         /\ recommendation d = "SELL"
         /\ confidence d = "Moderate").
Proof.
  split.
  - destruct (@_fetch_indian_api Sample.lib
                (Replies.api (Replies.ok (JObj Replies.falling)) (Returned ""))
                "Acme" "k-123" []) as [r t'] eqn:Hrun.
    assert (Hr : exists d, r = Returned (Some d) /\ recommendation d = "SELL"
                           /\ price_change_pct d = "-2.50%").
    { vm_compute in Hrun. injection Hrun as <- _. eexists. repeat split; reflexivity. }
    destruct Hr as (d & -> & Hrec & Hpct). exists d.
    destruct (@api_signal_is_coherent Sample.lib
                (Replies.api (Replies.ok (JObj Replies.falling)) (Returned ""))
                "Acme" "k-123" [] t' d Hrun)
      as (_ & _ & _ & H24 & _ & Hnumber & _).
    destruct Hnumber as [_ Hsell]; [rewrite Hpct; discriminate|].
    repeat split; [exact Hrec | apply Hsell; exact Hrec | exact H24].
  - destruct (@_fetch_indian_api Sample.lib
                (Replies.api (Replies.ok (JObj Replies.nan_change)) (Returned ""))
                "Acme" "k-123" []) as [r t'] eqn:Hrun.
    assert (Hr : exists d, r = Returned (Some d) /\ price_change_pct d = "+nan%").
    { vm_compute in Hrun. injection Hrun as <- _. eexists. split; reflexivity. }
    destruct Hr as (d & -> & Hpct). exists d.
    destruct (@api_signal_is_coherent Sample.lib
                (Replies.api (Replies.ok (JObj Replies.nan_change)) (Returned ""))
                "Acme" "k-123" [] t' d Hrun)
      as (_ & _ & _ & _ & _ & _ & Hnan & _).
    destruct (Hnan Hpct) as (Htrend & Hrec & Hconf).
    repeat split; assumption.
Defined.

(** ** What [collect_data] always delivers *)

Lemma hoare_ret {L A} (P : L -> Prop) (Q : A -> L -> Prop) (a : A) :
  (forall l, P l -> Q a l) -> hoare P (ret a) Q.
Proof. intros HQ t l Hl. exists a, t, l. split; [reflexivity | apply HQ, Hl]. Qed.

Lemma hoare_bind {L A B} (P : L -> Prop) (R : A -> L -> Prop) (Q : B -> L -> Prop)
      (m : M (trace * L) A) (k : A -> M (trace * L) B) :
  hoare P m R -> (forall a, hoare (R a) (k a) Q) -> hoare P (bind m k) Q.
Proof.
  intros Hm Hk t l Hl. destruct (Hm t l Hl) as (a & t1 & l1 & Hrun & HR).
  unfold bind. rewrite Hrun. apply Hk, HR.
Qed.

Lemma hoare_lift {L A} (P : L -> Prop) (R : A -> Prop) (m : M trace A) :
  (forall t, exists a t', m t = (Returned a, t') /\ R a) ->
  hoare P (lift m) (fun a l => R a /\ P l).
Proof.
  intros Hm t l Hl. destruct (Hm t) as (a & t' & Hrun & HR).
  exists a, t', l. unfold lift. rewrite Hrun. repeat split; assumption.
Qed.

Lemma hoare_modify {L} (P : L -> Prop) (Q : unit -> L -> Prop) (f : L -> L) :
  (forall l, P l -> Q tt (f l)) -> hoare P (modify f) Q.
Proof. intros HQ t l Hl. exists tt, t, (f l). split; [reflexivity | apply HQ, Hl]. Qed.

Lemma hoare_get_local {L} (P : L -> Prop) :
  hoare P get_local (fun a l => a = l /\ P l).
Proof. intros t l Hl. exists l, t, l. repeat split. exact Hl. Qed.

Lemma hoare_weaken {L A} (P P' : L -> Prop) (Q Q' : A -> L -> Prop) (m : M (trace * L) A) :
  hoare P m Q -> (forall l, P' l -> P l) -> (forall a l, Q a l -> Q' a l) -> hoare P' m Q'.
Proof.
  intros Hm HP HQ t l Hl. destruct (Hm t l (HP l Hl)) as (a & t' & l' & Hrun & Ha).
  exists a, t', l'. split; [exact Hrun | apply HQ, Ha].
Qed.

Lemma returns_with_result {A} (m : M trace A) :
  returns m -> forall t, exists a t', m t = (Returned a, t') /\ True.
Proof. intros Hm t. destruct (Hm t) as (a & t' & Hrun). eauto. Qed.

Lemma collecting_weaken company_name n n' c :
  (n <= n')%nat -> collecting company_name n c -> collecting company_name n' c.
Proof. intros Hle (Hn & He & Hs). repeat split; try assumption. lia. Qed.

(** Each article cited adds one citation at most. *)
Lemma cite_articles_collecting company_name (articles : list news_item) (n : nat) :
  hoare (collecting company_name n)
    (for_each articles (fun article =>
       if PyStr.truthy (news_url article)
       then modify (append_source ("News: " +:+ news_url article))
       else ret tt))
    (fun _ => collecting company_name (n + length articles)).
Proof.
  revert n. induction articles as [|a rest IH]; intros n; cbn [for_each length].
  - apply hoare_ret. intros l Hl. eapply collecting_weaken; [|exact Hl]. lia.
  - eapply hoare_bind with (R := fun _ => collecting company_name (S n)).
    + destruct (PyStr.truthy (news_url a)).
      * apply hoare_modify. intros l (Hn & He & Hs). repeat split; try assumption.
        cbn [cd_sources append_source]. rewrite length_app. cbn [length]. lia.
      * apply hoare_ret. intros l Hl. eapply collecting_weaken; [|exact Hl]. lia.
    + intros _. eapply hoare_weaken; [apply (IH (S n)) | intros l Hl; exact Hl |].
      intros u l Hl. eapply collecting_weaken; [|exact Hl]. lia.
Qed.

Lemma truthy_nonempty (s : string) : s <> "" -> PyStr.truthy s = true.
Proof. destruct s; [congruence | reflexivity]. Qed.

Section CollectAlways.
Context `{PyLib} `{World}.

(** The stock lookup always comes back with a non-empty price field. *)
Lemma get_stock_data_price (company_name : string) (t : trace) :
  exists d t',
    _get_stock_data_multi_source company_name t = (Returned d, t')
    /\ PyStr.truthy (current_price d) = true.
Proof.
  assert (Hweb : forall t1, exists d t',
             _scrape_stock_data_from_web company_name (take 6 (upper company_name)) t1
             = (Returned d, t') /\ PyStr.truthy (current_price d) = true).
  { intros t1.
    destruct (scrape_returns_aggregate company_name (take 6 (upper company_name)) t1)
      as (si & t' & Hrun & _).
    eexists _, _. split; [exact Hrun|].
    rewrite aggregate_current_price. apply truthy_nonempty, price_display_nonempty. }
  pose proof (resolver_unfold company_name t) as Hres. cbv zeta in Hres. rewrite Hres.
  destruct (api_key_usable _); [|apply Hweb].
  destruct (_fetch_indian_api company_name _ t) as [[e|[d|]] t1] eqn:Hfetch.
  - destruct (fetch_indian_api_returns company_name
                (default "" (getenv "INDIAN_API_KEY")) t) as (r & t2 & Hr). congruence.
  - destruct (price_accepted (Some d)) eqn:Hacc; [|apply Hweb].
    exists d, t1. split; [reflexivity|].
    unfold price_accepted in Hacc. apply andb_prop in Hacc as [Hp _]. exact Hp.
  - apply Hweb.
Qed.

Lemma assess_ignores_tier (q : string) (c : collected) :
  _assess_data_quality (set_data_quality q c) = _assess_data_quality c.
Proof. reflexivity. Qed.

(** The profile at the end of the [try] block. *)
Lemma collect_steps_delivers (company_name : string) :
  hoare (collecting company_name 0)
    (collect_steps _search_wikipedia _search_news _search_official_website
       _get_stock_data_multi_source company_name)
    (fun _ c =>
       collecting company_name 5 c
       /\ cd_data_quality c = _assess_data_quality c
       /\ exists d pre,
           cd_stock_performance c = Some d
           /\ PyStr.truthy (current_price d) = true
           /\ cd_sources c = (pre ++ ["Stock: " +:+ source d])%list).
Proof.
  unfold collect_steps.
  (* 1. Wikipedia *)
  eapply hoare_bind;
    [apply hoare_lift, returns_with_result, search_wikipedia_returns|].
  intros wiki_data. cbv beta.
  eapply hoare_bind with (R := fun _ => collecting company_name 1).
  { destruct (dict_truthy wiki_data).
    - eapply hoare_bind with (R := fun _ => collecting company_name 0).
      + apply hoare_modify. intros l [_ Hl]. exact Hl.
      + intros _. apply hoare_modify. intros l (Hn & He & Hs).
        repeat split; try assumption.
        cbn [cd_sources append_source]. rewrite length_app. cbn [length]. lia.
    - apply hoare_ret. intros l [_ Hl]. eapply collecting_weaken; [|exact Hl]. lia. }
  intros _.
  (* 2. News *)
  eapply hoare_bind;
    [apply hoare_lift, returns_with_result, search_news_returns|].
  intros news_data. cbv beta.
  eapply hoare_bind with (R := fun _ => collecting company_name 4).
  { destruct news_data as [|article rest].
    - apply hoare_ret. intros l [_ Hl]. eapply collecting_weaken; [|exact Hl]. lia.
    - eapply hoare_bind with (R := fun _ => collecting company_name 1).
      + apply hoare_modify. intros l [_ Hl]. exact Hl.
      + intros _. unfold cite_news.
        eapply hoare_weaken;
          [apply (cite_articles_collecting company_name _ 1) | intros l Hl; exact Hl |].
        intros u l Hl. cbv beta in Hl. eapply collecting_weaken; [|exact Hl].
        pose proof (firstn_le_length 3 (article :: rest)). lia. }
  intros _.
  (* 3. Official website *)
  eapply hoare_bind;
    [apply hoare_lift, returns_with_result, search_official_website_returns|].
  intros website_data. cbv beta.
  eapply hoare_bind with (R := fun _ => collecting company_name 4).
  { destruct (dict_truthy website_data).
    - apply hoare_modify. intros l [_ Hl]. exact Hl.
    - apply hoare_ret. intros l [_ Hl]. exact Hl. }
  intros _.
  (* 4. Stock *)
  eapply hoare_bind; [apply hoare_lift, get_stock_data_price|].
  intros d. cbv beta.
  eapply hoare_bind with
    (R := fun _ c => collecting company_name 4 c
                     /\ cd_stock_performance c = Some d
                     /\ PyStr.truthy (current_price d) = true).
  { apply hoare_modify. intros l (Hp & Hl). repeat split; try apply Hl. exact Hp. }
  intros _.
  eapply hoare_bind with
    (R := fun _ c => collecting company_name 5 c
                     /\ cd_stock_performance c = Some d
                     /\ PyStr.truthy (current_price d) = true
                     /\ exists pre, cd_sources c = (pre ++ ["Stock: " +:+ source d])%list).
  { apply hoare_modify. intros l ((Hn & He & Hs) & Hstock & Hp).
    repeat split; try assumption.
    - cbn [cd_sources append_source]. rewrite length_app. cbn [length]. lia.
    - exists (cd_sources l). reflexivity. }
  intros _.
  (* 5. Quality *)
  eapply hoare_bind; [apply hoare_get_local|].
  intros data. cbv beta.
  apply hoare_modify. intros l (-> & Hl & Hstock & Hp & pre & Hpre).
  split; [exact Hl|]. split; [symmetry; apply assess_ignores_tier|].
  exists d, pre. repeat split; assumption.
Qed.

End CollectAlways.

(** A profile with a price is of tier high, medium or low. *)
Lemma tier_with_price (c : collected) (d : stock_data) :
  cd_stock_performance c = Some d ->
  PyStr.truthy (current_price d) = true ->
  _assess_data_quality c = "high" \/ _assess_data_quality c = "medium"
  \/ _assess_data_quality c = "low".
Proof.
  intros Hstock Hprice. unfold _assess_data_quality.
  rewrite (quality_score_price c d Hstock Hprice).
  destruct (5 <=? _)%nat; [left; reflexivity|].
  destruct (3 <=? _)%nat; [right; left; reflexivity|].
  destruct (Nat.leb_spec 1 (quality_score (clear_stock_performance c) + 2));
    [right; right; reflexivity | lia].
Qed.

(** [collect_data] returns the profile its [try] block delivers. *)
Lemma collect_data_profile `{PyLib} `{World} (company_name : string) (t : trace) :
  exists c t',
    collect_data company_name t = (Returned c, t')
    /\ collecting company_name 5 c
    /\ cd_data_quality c = _assess_data_quality c
    /\ exists d pre,
        cd_stock_performance c = Some d
        /\ PyStr.truthy (current_price d) = true
        /\ cd_sources c = (pre ++ ["Stock: " +:+ source d])%list.
Proof.
  unfold collect_data. rewrite collect_data_with_run.
  destruct (collect_steps_delivers company_name t
              (initial_collected company_name (now_isoformat t)))
    as ([] & t' & c & Hrun & Hpost).
  { repeat split. cbn. lia. }
  rewrite Hrun. exists c, t'. split; [reflexivity | exact Hpost].
Qed.

(** X11: [collect_data] always returns a profile for the company asked for, with
    no error, a stock signal whose price field is not empty, the stock
    citation as the last of one to five citations, and a tier that is the
    scorer's verdict on that very profile; the tier is high, medium or low,
    never "insufficient" and never "error". *)
Theorem collect_data_delivers `{PyLib} `{World} (company_name : string) (t : trace) :
  exists c t',
    collect_data company_name t = (Returned c, t')
    /\ cd_company_name c = company_name
    /\ cd_error c = None
    /\ (1 <= length (cd_sources c) <= 5)%nat
    /\ (exists d pre,
           cd_stock_performance c = Some d
           /\ current_price d <> ""
           /\ cd_sources c = (pre ++ ["Stock: " +:+ source d])%list)
    /\ cd_data_quality c = _assess_data_quality c
    /\ (cd_data_quality c = "high" \/ cd_data_quality c = "medium"
        \/ cd_data_quality c = "low").
Proof.
  destruct (collect_data_profile company_name t)
    as (c & t' & Hrun & (Hname & Herr & Hlen) & Htier & d & pre & Hstock & Hprice & Hsrc).
  exists c, t'.
  split; [exact Hrun|]. split; [exact Hname|]. split; [exact Herr|].
  split; [split; [rewrite Hsrc, length_app; cbn [length]; lia | exact Hlen]|].
  split.
  { exists d, pre. repeat split; try assumption. intros Hempty.
    rewrite Hempty in Hprice. discriminate Hprice. }
  split; [exact Htier|].
  rewrite Htier. exact (tier_with_price c d Hstock Hprice).
Qed.

Lemma collect_data_delivers_witness :
  exists c t',
    @collect_data Sample.lib Sample.failing "Acme" [] = (Returned c, t')
    /\ cd_data_quality c = "low"
    /\ cd_sources c = ["Stock: Web search (0 sources)"].
Proof.
  destruct (@collect_data_delivers Sample.lib Sample.failing "Acme" [])
    as (c & t' & Hrun & _ & _ & _ & _ & Htier & _).
  exists c, t'. split; [exact Hrun|].
  vm_compute in Hrun. injection Hrun as <- _. split; reflexivity.
Defined.

(** ** The analyst *)

Lemma string_app_assoc (a b c : string) : (a +:+ b) +:+ c = a +:+ b +:+ c.
Proof.
  induction a as [|x a IH]; [reflexivity|].
  change (String x ((a +:+ b) +:+ c) = String x (a +:+ b +:+ c)). f_equal. exact IH.
Qed.

Lemma str_in_after (w before s : string) :
  str_in w s = true -> str_in w (before +:+ s) = true.
Proof.
  intros Hin. apply str_in_spec in Hin as (b & a & ->). apply str_in_spec.
  exists (before +:+ b), a. now rewrite !string_app_assoc.
Qed.

Lemma str_in_before (w s after : string) :
  str_in w s = true -> str_in w (s +:+ after) = true.
Proof.
  intros Hin. apply str_in_spec in Hin as (b & a & ->). apply str_in_spec.
  exists b, (a +:+ after). now rewrite !string_app_assoc.
Qed.

Section AnalystFacts.
Context `{World}.

Lemma generate_summary_run (raw : collected) (t : trace) :
  exists text calls,
    _generate_summary raw t = (Returned text, (t ++ calls)%list)
    /\ (length calls <= 1)%nat
    /\ Forall (fun e => is_llm_call e = true) calls.
Proof.
  unfold _generate_summary.
  destruct (negb (PyStr.truthy (summary_description raw))
            && negb (bool_decide (is_Some (cd_stock_performance raw)))).
  - eexists _, []. rewrite app_nil_r. split; [reflexivity|]. split; [cbn; lia | constructor].
  - unfold try_catch, bind, call_llm.
    destruct (llm_invoke t _) as [e|content];
      [|destruct (disambiguation (strip content))];
      eexists _, [_]; (split; [reflexivity|]); (split; [cbn; lia | repeat constructor]).
Qed.

Lemma generate_insights_run (raw : collected) (t : trace) :
  _generate_insights raw t
  = (Returned match llm_invoke t (insights_request raw) with
              | Returned content => strip content
              | Raised _ =>
                  insights_fallback match cd_stock_performance raw with
                                    | Some d => trend d
                                    | None => "neutral"
                                    end
              end,
     (t ++ [LlmInvoke (insights_request raw)])%list).
Proof.
  unfold _generate_insights, try_catch, bind, call_llm. fold (insights_request raw).
  destruct (llm_invoke t (insights_request raw)); reflexivity.
Qed.

Lemma generate_risks_run (raw : collected) (t : trace) :
  _generate_risks_opportunities raw t
  = (Returned match llm_invoke t (risks_request raw) with
              | Returned content => strip content
              | Raised _ => risks_fallback
              end,
     (t ++ [LlmInvoke (risks_request raw)])%list).
Proof.
  unfold _generate_risks_opportunities, try_catch, bind, call_llm. fold (risks_request raw).
  destruct (llm_invoke t (risks_request raw)); reflexivity.
Qed.

End AnalystFacts.

Ltac lookup_key := repeat (rewrite lookup_insert_ne by done); rewrite lookup_insert_eq.

Section AnalyzeFacts.
Context `{World}.

(** [analyze], step by step. *)
Lemma analyze_run (r : raw_data) (t : trace) :
  let raw := raw_view r in
  if without_data raw then
    analyze r t = (Returned (_insufficient_data_response (cd_company_name raw) r), t)
  else
    exists summary calls,
      _generate_summary raw t = (Returned summary, (t ++ calls)%list)
      /\ (length calls <= 1)%nat
      /\ Forall (fun e => is_llm_call e = true) calls
      /\ analyze r t
         = (Returned
              (analysis_of summary
                 match llm_invoke (t ++ calls) (insights_request raw) with
                 | Returned content => strip content
                 | Raised _ =>
                     insights_fallback match cd_stock_performance raw with
                                       | Some d => trend d
                                       | None => "neutral"
                                       end
                 end
                 match llm_invoke ((t ++ calls) ++ [LlmInvoke (insights_request raw)])
                                  (risks_request raw) with
                 | Returned content => strip content
                 | Raised _ => risks_fallback
                 end
                 raw),
            (t ++ calls ++ [LlmInvoke (insights_request raw);
                            LlmInvoke (risks_request raw)])%list).
Proof.
  intros raw. unfold analyze. fold raw. fold (without_data raw).
  destruct (without_data raw); [reflexivity|].
  destruct (generate_summary_run raw t) as (summary & calls & Hrun & Hle & Hall).
  exists summary, calls. repeat split; try assumption.
  unfold try_catch, bind. rewrite Hrun, generate_insights_run, generate_risks_run.
  unfold ret, analysis_of. rewrite <- !app_assoc. reflexivity.
Qed.

Lemma analysis_of_keys summary insights risks raw :
  Forall (fun key => is_Some (analysis_of summary insights risks raw !! key)) analysis_keys
  /\ analysis_of summary insights risks raw !! "data_quality" = Some (cd_data_quality raw)
  /\ analysis_of summary insights risks raw !! "data_sources"
     = Some (sources_text (cd_sources raw))
  /\ analysis_of summary insights risks raw !! "executive_summary" = Some summary
  /\ analysis_of summary insights risks raw !! "market_insights" = Some insights
  /\ analysis_of summary insights risks raw !! "risks_opportunities" = Some risks.
Proof.
  unfold analysis_of, analysis_keys.
  split; [repeat (apply List.Forall_cons; [lookup_key; eauto|]); apply List.Forall_nil|].
  repeat split; lookup_key; reflexivity.
Qed.

(** X12: The analyst always answers, with all five fields, after at most three
    requests to the language model and no other request. For a profile of
    tier "insufficient" or "error" it makes no request and gives the fixed
    answer, whose tier reads "insufficient" in both cases; for any other
    profile it makes two or three requests and reports the profile's tier. *)
Theorem analyze_always_answers (r : raw_data) (t : trace) :
  exists result calls,
    analyze r t = (Returned result, (t ++ calls)%list)
    /\ Forall (fun e => is_llm_call e = true) calls
    /\ (length calls <= 3)%nat
    /\ Forall (fun key => is_Some (result !! key)) analysis_keys
    /\ (without_data (raw_view r) = true ->
        calls = []
        /\ result = _insufficient_data_response (cd_company_name (raw_view r)) r
        /\ result !! "data_quality" = Some "insufficient")
    /\ (without_data (raw_view r) = false ->
        (2 <= length calls)%nat
        /\ result !! "data_quality" = Some (cd_data_quality (raw_view r))
        /\ result !! "data_sources" = Some (sources_text (cd_sources (raw_view r)))).
Proof.
  pose proof (analyze_run r t) as Hrun. cbv zeta in Hrun.
  destruct (without_data (raw_view r)) eqn:Hw.
  - exists (_insufficient_data_response (cd_company_name (raw_view r)) r), [].
    rewrite app_nil_r. split; [exact Hrun|]. split; [constructor|]. split; [cbn; lia|].
    split; [|split; [intros _ | discriminate]].
    + unfold _insufficient_data_response, analysis_keys.
      repeat (apply List.Forall_cons; [lookup_key; eauto|]); apply List.Forall_nil.
    + split; [reflexivity|]. split; [reflexivity|].
      unfold _insufficient_data_response. lookup_key. reflexivity.
  - destruct Hrun as (summary & calls & _ & Hle & Hall & Hrun).
    eexists _, _. split; [exact Hrun|].
    destruct (analysis_of_keys summary
                match llm_invoke (t ++ calls) (insights_request (raw_view r)) with
                | Returned content => strip content
                | Raised _ =>
                    insights_fallback match cd_stock_performance (raw_view r) with
                                      | Some d => trend d
                                      | None => "neutral"
                                      end
                end
                match llm_invoke ((t ++ calls) ++ [LlmInvoke (insights_request (raw_view r))])
                                 (risks_request (raw_view r)) with
                | Returned content => strip content
                | Raised _ => risks_fallback
                end (raw_view r)) as (Hkeys & Hq & Hs & _).
    split; [apply Forall_app; split; [exact Hall | repeat constructor]|].
    split; [rewrite length_app; cbn [length]; lia|].
    split; [exact Hkeys|].
    split; [discriminate | intros _].
    split; [rewrite length_app; cbn [length]; lia|]. split; assumption.
Qed.

End AnalyzeFacts.

Lemma analyze_always_answers_witness :
  (exists result,
      @analyze Sample.live (RawQualityOnly "error") []
      = (Returned result, ([] ++ [])%list)
      /\ result !! "data_quality" = Some "insufficient")
  /\ (exists result calls,
         @analyze Sample.live (RawCollected (Replies.profile "Acme makes anvils.")) []
         = (Returned result, ([] ++ calls)%list)
         /\ (2 <= length calls)%nat
         /\ result !! "data_quality" = Some "high").
Proof.
  split.
  - destruct (@analyze_always_answers Sample.live (RawQualityOnly "error") [])
      as (result & calls & Hrun & _ & _ & _ & Hfixed & _).
    destruct (Hfixed eq_refl) as (-> & _ & Hq). exists result. split; assumption.
  - destruct (@analyze_always_answers Sample.live
                (RawCollected (Replies.profile "Acme makes anvils.")) [])
      as (result & calls & Hrun & _ & _ & _ & _ & Hfull).
    destruct (Hfull eq_refl) as (Hlen & Hq & _). exists result, calls.
    repeat split; assumption.
Defined.

Section AnalystTheorems.
Context `{World}.

(** X13: With the language model out of reach the analyst still answers, from
    its canned texts: the insight lines name the stock's trend, the risks
    are the stock ones, and the summary is the one-line description of the
    company (the "limited information" line when the profile has neither a
    usable description nor a stock signal). *)
Theorem analyze_without_llm (r : raw_data) (t : trace) :
  (forall t' prompt, exists e, llm_invoke t' prompt = Raised e) ->
  without_data (raw_view r) = false ->
  let raw := raw_view r in
  let company_name := cd_company_name raw in
  let summary :=
    if negb (PyStr.truthy (summary_description raw))
       && negb (bool_decide (is_Some (cd_stock_performance raw)))
    then "**" +:+ company_name
           +:+ "** - A company in the market. Limited public information available."
    else "**" +:+ company_name +:+ "**" +:+ nl +:+ nl +:+ company_name
           +:+ " is a company. Analysis based on market data." in
  let insights :=
    insights_fallback match cd_stock_performance raw with
                      | Some d => trend d
                      | None => "neutral"
                      end in
  fst (analyze r t) = Returned (analysis_of summary insights risks_fallback raw).
Proof.
  intros Hdown Hw raw company_name summary insights.
  pose proof (analyze_run r t) as Hrun. cbv zeta in Hrun. fold raw in Hrun.
  fold raw in Hw. rewrite Hw in Hrun.
  destruct Hrun as (text & calls & Hsummary & _ & _ & ->). cbn [fst].
  destruct (Hdown (t ++ calls)%list (insights_request raw)) as [e1 ->].
  destruct (Hdown ((t ++ calls) ++ [LlmInvoke (insights_request raw)])%list
                  (risks_request raw)) as [e2 ->].
  fold insights. f_equal. f_equal.
  subst summary. unfold _generate_summary in Hsummary. fold raw company_name in Hsummary.
  destruct (negb (PyStr.truthy (summary_description raw))
            && negb (bool_decide (is_Some (cd_stock_performance raw)))).
  - injection Hsummary as <- _. reflexivity.
  - unfold try_catch, bind, call_llm in Hsummary.
    match type of Hsummary with
    | context [llm_invoke t ?p] => destruct (Hdown t p) as [e0 He0]; rewrite He0 in Hsummary
    end.
    injection Hsummary as <- _. reflexivity.
Qed.

(** X14: The risk prompt carries the first 300 characters of the description as
    they are: whatever occurs in them occurs in the one request the risk
    generator makes. No disambiguation test is applied on this path. *)
Theorem risks_prompt_carries_description (raw : collected) (t : trace) (w : string) :
  let context := take 300 (default "" (cd_company_info raw !! "description")) in
  str_in w context = true ->
  context <> "" ->
  snd (_generate_risks_opportunities raw t) = (t ++ [LlmInvoke (risks_request raw)])%list
  /\ str_in w (risks_request raw) = true.
Proof.
  intros context Hin Hne. rewrite generate_risks_run. split; [reflexivity|].
  unfold risks_request, risks_prompt. fold context.
  rewrite (truthy_nonempty context Hne).
  do 6 apply str_in_after. apply str_in_before. exact Hin.
Qed.

End AnalystTheorems.

Lemma analyze_without_llm_witness :
  fst (@analyze Sample.failing (RawCollected (Replies.profile "Acme makes anvils.")) [])
  = Returned
      (analysis_of
         ("**Acme**" +:+ nl +:+ nl +:+ "Acme is a company. Analysis based on market data.")
         (insights_fallback "neutral") risks_fallback
         (Replies.profile "Acme makes anvils.")).
Proof.
  apply (@analyze_without_llm Sample.failing
           (RawCollected (Replies.profile "Acme makes anvils.")) []).
  - intros t' prompt. eexists. reflexivity.
  - reflexivity.
Defined.

Lemma risks_prompt_carries_description_witness :
  str_in "may refer to" (risks_request (Replies.profile Sample.ambiguous_summary)) = true
  /\ disambiguation (summary_description (Replies.profile Sample.ambiguous_summary)) = false.
Proof.
  split.
  - apply (@risks_prompt_carries_description Sample.live
             (Replies.profile Sample.ambiguous_summary) [] "may refer to").
    + reflexivity.
    + discriminate.
  - reflexivity.
Defined.

(** ** The sequencer, from collection to analysis *)

Section SequencerFacts.
Variable collect : string -> M trace collected.
Variable analyze_ : raw_data -> M trace (gmap string string).

(** A run whose profile passes validation ends with the analyst's answer, or
    with the fixed failure answer when the analyst raises. *)
Lemma run_reaches_analysis (company_name : string) (t t1 : trace) (c : collected) :
  collect company_name t = (Returned c, t1) ->
  usable c = true ->
  run collect analyze_ company_name t
  = match analyze_ (RawCollected c) t1 with
    | (Returned results, t2) => (Returned (analysed company_name c results None), t2)
    | (Raised e, t2) =>
        (Returned (analysed company_name c analysis_failed_results
                     (Some ("Analysis error: " +:+ exn_str e))), t2)
    end.
Proof.
  intros Hcollect Husable.
  unfold run, bind, with_local, graph_invoke, bind.
  rewrite collect_node_run. cbn [st_company_name initial_state]. rewrite Hcollect.
  rewrite validate_node_run. unfold get_local, _should_analyze, validated.
  cbn [st_raw_data set_raw_data raw_quality raw_has_company_info raw_has_news
       raw_has_sources].
  unfold usable in Husable. rewrite Husable.
  cbn [st_validation_passed set_validation_passed].
  unfold _analyze_data_node, try_catch, bind, get_local, lift, modify, ret, raise.
  cbn [st_raw_data set_validation_passed set_raw_data raw_truthy negb].
  destruct (analyze_ (RawCollected c) t1) as [[e|results] t2]; reflexivity.
Qed.

(** X15: When the analyst raises, the run still returns: the result is the fixed
    "analysis unavailable" answer with tier "error", the message is kept in
    the state's error field, and the profile and the passed validation stay
    as they were. *)
Theorem analysis_failure_is_reported (company_name : string) (t t1 t2 : trace)
        (c : collected) (e : exn) :
  collect company_name t = (Returned c, t1) ->
  usable c = true ->
  analyze_ (RawCollected c) t1 = (Raised e, t2) ->
  exists final,
    run collect analyze_ company_name t = (Returned final, t2)
    /\ st_analysis_results final = analysis_failed_results
    /\ st_analysis_results final !! "data_quality" = Some "error"
    /\ st_error final = Some ("Analysis error: " +:+ exn_str e)
    /\ st_validation_passed final = true
    /\ st_raw_data final = RawCollected c.
Proof.
  intros Hcollect Husable Hraise.
  rewrite (run_reaches_analysis company_name t t1 c Hcollect Husable), Hraise.
  eexists. split; [reflexivity|]. repeat split.
Qed.

(** X16: A profile with no company info, no news and no citation stops the run
    before the analysis whatever its tier: the analyst is not called, and
    the result is the fixed "insufficient data" answer carrying that tier. *)
Theorem empty_profile_skips_analysis (company_name : string) (t t1 : trace)
        (c : collected) :
  collect company_name t = (Returned c, t1) ->
  cd_company_info c = ∅ -> cd_news c = [] -> cd_sources c = [] ->
  exists final,
    run collect analyze_ company_name t = (Returned final, t1)
    /\ st_validation_passed final = false
    /\ st_analysis_results final = insufficient_results company_name (cd_data_quality c)
    /\ st_error final = None.
Proof.
  intros Hcollect Hinfo Hnews Hsources.
  assert (Hnode : _collect_data_node collect (t, initial_state company_name)
                  = (Returned tt, (t1, set_raw_data (RawCollected c)
                                         (initial_state company_name)))).
  { rewrite collect_node_run. cbn [st_company_name initial_state]. now rewrite Hcollect. }
  assert (Hfail : validated (set_raw_data (RawCollected c) (initial_state company_name))
                  = set_analysis_results
                      (insufficient_results company_name (cd_data_quality c))
                      (set_validation_passed false
                         (set_raw_data (RawCollected c) (initial_state company_name)))).
  { unfold validated.
    cbn [st_raw_data set_raw_data raw_quality raw_has_company_info raw_has_news
         raw_has_sources st_company_name initial_state].
    rewrite Hinfo, Hnews, Hsources. rewrite bool_decide_eq_true_2 by reflexivity.
    cbn [negb orb]. rewrite andb_false_r. reflexivity. }
  eexists. split.
  - apply (run_skips_analysis collect analyze_ company_name t t1 _ Hnode).
    rewrite Hfail. reflexivity.
  - rewrite Hfail. repeat split.
Qed.

End SequencerFacts.

Lemma analysis_failure_is_reported_witness :
  exists final,
    run (fun _ => ret (Replies.profile "Acme makes anvils."))
        (fun _ => raise (Exception "RuntimeError" "model down")) "Acme" []
    = (Returned final, [])
    /\ st_error final = Some "Analysis error: model down"
    /\ st_analysis_results final !! "data_quality" = Some "error".
Proof.
  destruct (analysis_failure_is_reported
              (fun _ => ret (Replies.profile "Acme makes anvils."))
              (fun _ => raise (Exception "RuntimeError" "model down"))
              "Acme" [] [] [] (Replies.profile "Acme makes anvils.")
              (Exception "RuntimeError" "model down") eq_refl eq_refl eq_refl)
    as (final & Hrun & _ & Hq & Herr & _).
  exists final. repeat split; assumption.
Defined.

Lemma empty_profile_skips_analysis_witness :
  exists final,
    run (fun _ => ret (initial_collected "Acme" "2024-01-01T00:00:00"))
        (fun _ => raise (Exception "RuntimeError" "never called")) "Acme" []
    = (Returned final, [])
    /\ st_validation_passed final = false
    /\ st_analysis_results final = insufficient_results "Acme" "unknown".
Proof.
  destruct (empty_profile_skips_analysis
              (fun _ => ret (initial_collected "Acme" "2024-01-01T00:00:00"))
              (fun _ => raise (Exception "RuntimeError" "never called"))
              "Acme" [] [] (initial_collected "Acme" "2024-01-01T00:00:00")
              eq_refl eq_refl eq_refl eq_refl)
    as (final & Hrun & Hfail & Hres & _).
  exists final. repeat split; assumption.
Defined.

Section SequencerTheorems.
Context `{World}.

(** X17: The only tier the validation node tests for is "error". A profile of tier
    "insufficient" that carries any company info, news or citation passes
    validation and goes to the analyst, who answers with the fixed "limited
    data" text without asking the language model: the final trace is the
    collector's. *)
Theorem insufficient_tier_passes_validation
        (collect : string -> M trace collected) (company_name : string) (t t1 : trace)
        (c : collected) :
  collect company_name t = (Returned c, t1) ->
  cd_data_quality c = "insufficient" ->
  cd_company_info c <> ∅ \/ cd_news c <> [] \/ cd_sources c <> [] ->
  run collect analyze company_name t
  = (Returned (analysed company_name c
                 (_insufficient_data_response (cd_company_name c) (RawCollected c)) None),
     t1).
Proof.
  intros Hcollect Htier Hdata.
  assert (Husable : usable c = true).
  { unfold usable. rewrite Htier. cbn [String.eqb negb andb].
    destruct Hdata as [Hinfo | [Hnews | Hsrc]].
    - rewrite bool_decide_eq_false_2 by exact Hinfo. reflexivity.
    - destruct (cd_news c); [congruence|]. now rewrite orb_true_r.
    - destruct (cd_sources c); [congruence|]. now rewrite orb_true_r. }
  rewrite (run_reaches_analysis collect analyze company_name t t1 c Hcollect Husable).
  pose proof (analyze_run (RawCollected c) t1) as Hrun. cbv zeta in Hrun.
  unfold without_data in Hrun. cbn [raw_view] in Hrun. rewrite Htier in Hrun.
  cbn [String.eqb orb] in Hrun. rewrite Hrun. reflexivity.
Qed.

Context `{PyLib}.

(** X18: With the collector and the analyst of this repository, every run passes
    validation and reaches the analyst: the "insufficient data" branch of the
    sequencer is never taken. The run ends without error, with the profile
    collected for the company asked for, of tier high, medium or low, and
    with an analysis of five fields that reports that tier. *)
Theorem orchestrator_run_always_analyses (company_name : string) (t : trace) :
  exists final t' c,
    orchestrator_run company_name t = (Returned final, t')
    /\ st_validation_passed final = true
    /\ st_error final = None
    /\ st_company_name final = company_name
    /\ st_raw_data final = RawCollected c
    /\ cd_company_name c = company_name
    /\ (cd_data_quality c = "high" \/ cd_data_quality c = "medium"
        \/ cd_data_quality c = "low")
    /\ st_analysis_results final !! "data_quality" = Some (cd_data_quality c)
    /\ Forall (fun key => is_Some (st_analysis_results final !! key)) analysis_keys.
Proof.
  destruct (collect_data_profile company_name t)
    as (c & t1 & Hcollect & (Hname & _ & _) & Htier & d & pre & Hstock & Hprice & Hsrc).
  pose proof (tier_with_price c d Hstock Hprice) as Htiers. rewrite <- Htier in Htiers.
  assert (Husable : usable c = true).
  { unfold usable. rewrite Hsrc.
    assert (Hne : (pre ++ ["Stock: " +:+ source d])%list <> []).
    { intros Hnil. apply app_eq_nil in Hnil as [_ Hnil]. discriminate Hnil. }
    destruct (pre ++ ["Stock: " +:+ source d])%list; [congruence|].
    rewrite orb_true_r, andb_true_r.
    destruct Htiers as [-> | [-> | ->]]; reflexivity. }
  assert (Hwith : without_data c = false).
  { unfold without_data. destruct Htiers as [-> | [-> | ->]]; reflexivity. }
  unfold orchestrator_run.
  rewrite (run_reaches_analysis collect_data analyze company_name t t1 c Hcollect Husable).
  pose proof (analyze_run (RawCollected c) t1) as Hrun. cbv zeta in Hrun.
  cbn [raw_view] in Hrun. rewrite Hwith in Hrun.
  destruct Hrun as (summary & calls & _ & _ & _ & Hrun). rewrite Hrun.
  match goal with
  | |- context [analysis_of summary ?i ?k c] =>
      destruct (analysis_of_keys summary i k c) as (Hkeys & Hq & _)
  end.
  eexists _, _, c. split; [reflexivity|].
  cbn [st_validation_passed st_error st_company_name st_raw_data st_analysis_results
       analysed].
  repeat split; assumption.
Qed.

End SequencerTheorems.

Lemma insufficient_tier_passes_validation_witness :
  exists final,
    @run (fun _ => ret (set_data_quality "insufficient" (Replies.profile "")))
         (@analyze Sample.failing) "Acme" []
    = (Returned final, [])
    /\ st_validation_passed final = true
    /\ st_analysis_results final !! "data_quality" = Some "insufficient".
Proof.
  eexists. split.
  - apply (@insufficient_tier_passes_validation Sample.failing
             (fun _ => ret (set_data_quality "insufficient" (Replies.profile "")))
             "Acme" [] [] (set_data_quality "insufficient" (Replies.profile ""))
             eq_refl eq_refl).
    right. left. discriminate.
  - split; reflexivity.
Defined.

(** ** The encyclopedia adapter *)

Lemma take_length (n : nat) (s : string) : (String.length (take n s) <= n)%nat.
Proof.
  revert s. induction n as [|n IH]; intros s; [reflexivity|].
  destruct s as [|c s]; cbn [take String.length]; [lia|]. specialize (IH s). lia.
Qed.

Lemma take_is_prefix (n : nat) (s : string) : exists rest, s = take n s +:+ rest.
Proof.
  revert s. induction n as [|n IH]; intros s.
  - exists s. destruct s; reflexivity.
  - destruct s as [|c s]; [exists ""; reflexivity|].
    destruct (IH s) as [rest Hrest]. exists rest. cbn [take].
    change (String c s = String c (take n s +:+ rest)). now f_equal.
Qed.

Section WikipediaFacts.
Context `{World}.

(** The lookups of the loop over the terms, and what comes out of it. *)
Lemma first_existing_page_run (terms : list string) (t : trace) :
  exists k,
    (k <= length terms)%nat
    /\ snd (first_existing_page terms t) = (t ++ map WikiPage (firstn k terms))%list
    /\ match fst (first_existing_page terms t) with
       | Returned (Some wiki) =>
           exists term p,
             nth_error terms (pred k) = Some term /\ (1 <= k)%nat
             /\ wikipedia_page (t ++ map WikiPage (firstn (pred k) terms))%list term
                = Returned (Some p)
             /\ wiki = wiki_dict p
       | Returned None => k = length terms
       | Raised _ => (1 <= k)%nat
       end.
Proof.
  revert t. induction terms as [|term rest IH]; intros t.
  - exists 0%nat. cbn. rewrite app_nil_r. repeat split. lia.
  - cbn [first_existing_page]. unfold bind, call_wiki.
    destruct (wikipedia_page t term) as [e|[p|]] eqn:Hpage.
    + exists 1%nat. cbn. repeat split; lia.
    + exists 1%nat. cbn [fst snd firstn map length pred nth_error].
      split; [lia|]. split; [reflexivity|].
      exists term, p. rewrite app_nil_r. repeat split; [lia | exact Hpage].
    + destruct (IH (t ++ [WikiPage term])%list) as (k & Hk & Htrace & Hres).
      exists (S k). cbn [length firstn map]. split; [lia|].
      split; [rewrite Htrace, <- app_assoc; reflexivity|].
      destruct (fst (first_existing_page rest (t ++ [WikiPage term])%list))
        as [e|[wiki|]].
      * lia.
      * destruct Hres as (term' & p & Hnth & Hpos & Hfound & ->).
        exists term', p. cbn [pred]. destruct k as [|k]; [lia|].
        cbn [pred] in Hnth, Hfound. cbn [nth_error firstn map].
        rewrite <- app_assoc in Hfound. repeat split; [exact Hnth | lia | exact Hfound].
      * now f_equal.
Qed.

(** What [_search_wikipedia] returns is nothing or the dict of a page. *)
Lemma search_wikipedia_shape (company_name : string) (t : trace) :
  exists r t',
    _search_wikipedia company_name t = (Returned r, t')
    /\ (r = None \/ exists p, r = Some (wiki_dict p)).
Proof.
  unfold _search_wikipedia, try_catch. fold (wiki_terms company_name).
  destruct (first_existing_page_run (wiki_terms company_name) t) as (k & _ & _ & Hres).
  destruct (first_existing_page (wiki_terms company_name) t) as [[e|[wiki|]] t'];
    cbn [fst] in Hres; eexists _, _; (split; [reflexivity|]).
  - left. reflexivity.
  - destruct Hres as (term & p & _ & _ & _ & ->). right. eauto.
  - left. reflexivity.
Qed.

(** The adapter makes one to three lookups, and a dict it returns is that of
    the page found by the last of them. *)
Lemma search_wikipedia_stops (company_name : string) (t : trace) :
  exists k,
    (1 <= k <= 3)%nat
    /\ snd (_search_wikipedia company_name t)
       = (t ++ map WikiPage (firstn k (wiki_terms company_name)))%list
    /\ (forall wiki,
           fst (_search_wikipedia company_name t) = Returned (Some wiki) ->
           exists term p description rest,
             nth_error (wiki_terms company_name) (pred k) = Some term
             /\ wikipedia_page
                  (t ++ map WikiPage (firstn (pred k) (wiki_terms company_name)))%list term
                = Returned (Some p)
             /\ wiki = wiki_dict p
             /\ wiki !! "description" = Some description
             /\ (String.length description <= 800)%nat
             /\ page_summary p = description +:+ rest)
    /\ ((forall t' term, wikipedia_page t' term = Returned None) ->
        k = 3%nat /\ fst (_search_wikipedia company_name t) = Returned None).
Proof.
  unfold _search_wikipedia, try_catch. fold (wiki_terms company_name).
  destruct (first_existing_page_run (wiki_terms company_name) t) as (k & Hk & Htrace & Hres).
  cbn [length wiki_terms] in Hk. fold (wiki_terms company_name) in *.
  assert (Hpos : (1 <= k)%nat).
  { destruct (fst (first_existing_page (wiki_terms company_name) t)) as [e|[wiki|]].
    - exact Hres.
    - destruct Hres as (_ & _ & _ & Hpos & _). exact Hpos.
    - rewrite Hres. cbn. lia. }
  exists k. split; [lia|].
  destruct (first_existing_page (wiki_terms company_name) t) as [[e|[wiki|]] t'] eqn:Hrun;
    cbn [fst snd ret] in *; (split; [exact Htrace|]); split.
  - intros wiki [=].
  - intros Hnone. exfalso.
    assert (Hno : forall terms t0 e0 t1,
               first_existing_page terms t0 <> (Raised e0, t1)).
    { induction terms as [|term rest IH]; intros t0 e0 t1; cbn [first_existing_page].
      - discriminate.
      - unfold bind, call_wiki. rewrite Hnone. apply IH. }
    exact (Hno _ _ _ _ Hrun).
  - intros wiki' [= <-]. destruct Hres as (term & p & Hnth & _ & Hfound & ->).
    destruct (take_is_prefix 800 (page_summary p)) as [rest Hrest].
    exists term, p, (wiki_summary p).
    exists (if (800 <? String.length (page_summary p))%nat then rest else "").
    repeat split; try assumption.
    + unfold wiki_summary.
      destruct (Nat.ltb_spec 800 (String.length (page_summary p)));
        [apply take_length | lia].
    + unfold wiki_summary.
      destruct (800 <? String.length (page_summary p))%nat; [exact Hrest|].
      clear. induction (page_summary p) as [|c s IH]; [reflexivity|].
      change (String c s = String c (s +:+ "")). now f_equal.
  - intros Hnone. exfalso. destruct Hres as (term & p & _ & _ & Hfound & _).
    rewrite Hnone in Hfound. discriminate Hfound.
  - intros wiki [=].
  - intros _. split; [exact Hres | reflexivity].
Qed.

(** The description in the dict of a page. *)
Lemma wiki_dict_description (p : wiki_page) :
  exists description rest,
    wiki_dict p !! "description" = Some description
    /\ (String.length description <= 800)%nat
    /\ page_summary p = description +:+ rest
    /\ ((String.length (page_summary p) <= 800)%nat -> description = page_summary p).
Proof.
  destruct (take_is_prefix 800 (page_summary p)) as [rest Hrest].
  exists (wiki_summary p).
  exists (if (800 <? String.length (page_summary p))%nat then rest else "").
  split; [reflexivity|]. unfold wiki_summary.
  destruct (Nat.ltb_spec 800 (String.length (page_summary p))) as [Hlong|Hshort].
  - split; [apply take_length|]. split; [exact Hrest | lia].
  - split; [exact Hshort|]. split; [|reflexivity].
    clear. induction (page_summary p) as [|c s IH]; [reflexivity|].
    change (String c s = String c (s +:+ "")). now f_equal.
Qed.

(** X19: The encyclopedia adapter looks up the company name, then the name
    followed by "company", then by "corporation", in that order. It
    returns the dict of the first page that exists and looks no further; a
    lookup that raises ends the search with nothing; with no page under any
    of the three names it has made all three lookups and returns nothing.
    So it makes one to three lookups, and a dict it returns is that of the
    page found by the last of them. The dict of a page has the page's url
    and title and a description of at most 800 characters that is the
    beginning of the page's summary: the whole summary when that has at
    most 800 characters. *)
Theorem search_wikipedia_lookups (company_name : string) (t : trace) :
  let terms := wiki_terms company_name in
  let asked k := (t ++ map WikiPage (firstn k terms))%list in
  let none_before k :=
    forall j earlier,
      (j < k)%nat -> nth_error terms j = Some earlier ->
      wikipedia_page (asked j) earlier = Returned None in
  (forall k term p,
      nth_error terms k = Some term -> none_before k ->
      wikipedia_page (asked k) term = Returned (Some p) ->
      _search_wikipedia company_name t = (Returned (Some (wiki_dict p)), asked (S k)))
  /\ (forall k term e,
        nth_error terms k = Some term -> none_before k ->
        wikipedia_page (asked k) term = Raised e ->
        _search_wikipedia company_name t = (Returned None, asked (S k)))
  /\ (none_before 3%nat ->
      _search_wikipedia company_name t = (Returned None, asked 3%nat))
  /\ (exists k,
         (1 <= k <= 3)%nat
         /\ snd (_search_wikipedia company_name t) = asked k
         /\ (forall wiki,
                fst (_search_wikipedia company_name t) = Returned (Some wiki) ->
                exists term p description rest,
                  nth_error terms (pred k) = Some term
                  /\ wikipedia_page (asked (pred k)) term = Returned (Some p)
                  /\ wiki = wiki_dict p
                  /\ wiki !! "description" = Some description
                  /\ (String.length description <= 800)%nat
                  /\ page_summary p = description +:+ rest)
         /\ ((forall t' term, wikipedia_page t' term = Returned None) ->
             k = 3%nat /\ fst (_search_wikipedia company_name t) = Returned None))
  /\ (forall p,
         wiki_dict p !! "url" = Some (page_fullurl p)
         /\ wiki_dict p !! "title" = Some (page_title p)
         /\ exists description rest,
             wiki_dict p !! "description" = Some description
             /\ (String.length description <= 800)%nat
             /\ page_summary p = description +:+ rest
             /\ ((String.length (page_summary p) <= 800)%nat ->
                 description = page_summary p)).
Proof.
  intros terms asked none_before.
  split; [|split; [|split; [|split]]].
  - intros k term p Hnth Hnone Hfound.
    exact (search_wikipedia_found company_name t k term p Hnth Hnone Hfound).
  - intros k term e Hnth Hnone Hraised.
    exact (search_wikipedia_raised company_name t k term e Hnth Hnone Hraised).
  - intros Hnone. exact (search_wikipedia_none company_name t Hnone).
  - exact (search_wikipedia_stops company_name t).
  - intros p. split; [reflexivity|]. split; [reflexivity|].
    apply wiki_dict_description.
Qed.

End WikipediaFacts.

(** ** The citations of a collected profile *)

Lemma hoare_assume {L A} (F : Prop) (P : L -> Prop) (m : M (trace * L) A)
      (Q : A -> L -> Prop) :
  (F -> hoare P m Q) -> hoare (fun l => F /\ P l) m Q.
Proof. intros Hm t l [HF HP]. exact (Hm HF t l HP). Qed.

(** The citation loop appends one citation for each article with a url and
    touches nothing else. *)
Lemma cite_articles_appends (articles : list news_item) (c0 : collected) :
  hoare (eq c0)
    (for_each articles (fun article =>
       if PyStr.truthy (news_url article)
       then modify (append_source ("News: " +:+ news_url article))
       else ret tt))
    (fun _ c =>
       cd_sources c
       = (cd_sources c0
            ++ map (fun article => "News: " +:+ news_url article)
                   (List.filter (fun article => PyStr.truthy (news_url article)) articles))%list
       /\ cd_company_info c = cd_company_info c0
       /\ cd_news c = cd_news c0).
Proof.
  revert c0. induction articles as [|a rest IH]; intros c0; cbn [for_each List.filter].
  - apply hoare_ret. intros l <-. cbn [map]. rewrite app_nil_r. repeat split.
  - destruct (PyStr.truthy (news_url a)).
    + eapply hoare_bind with
        (R := fun _ => eq (append_source ("News: " +:+ news_url a) c0)).
      * apply hoare_modify. intros l <-. reflexivity.
      * intros _. eapply hoare_weaken; [apply IH | intros l Hl; exact Hl |].
        intros u l (Hs & Hi & Hn). cbv beta in *. rewrite Hs, Hi, Hn.
        cbn [append_source cd_sources cd_company_info cd_news map].
        rewrite <- app_assoc. repeat split.
    + eapply hoare_bind with (R := fun _ => eq c0).
      * apply hoare_ret. intros l Hl. exact Hl.
      * intros _. apply IH.
Qed.

Lemma wiki_dict_truthy (p : wiki_page) : dict_truthy (Some (wiki_dict p)) = true.
Proof.
  unfold dict_truthy, wiki_dict. rewrite bool_decide_eq_false_2; [reflexivity|].
  apply insert_non_empty.
Qed.

Lemma wiki_dict_keys (p : wiki_page) (k : string) :
  is_Some (wiki_dict p !! k) -> k = "description" \/ k = "url" \/ k = "title".
Proof.
  unfold wiki_dict. intros Hk.
  destruct (decide (k = "description")) as [|Hd]; [now left|].
  destruct (decide (k = "url")) as [|Hu]; [now right; left|].
  destruct (decide (k = "title")) as [|Ht]; [now right; right|].
  rewrite !lookup_insert_ne, lookup_empty in Hk by congruence.
  destruct Hk as [x Hx]. discriminate Hx.
Qed.

Section CitationFacts.
Context `{PyLib} `{World}.

(** What [_search_official_website] returns is nothing or a dict with the
    single key official_url. *)
Lemma search_official_website_shape (company_name : string) (t : trace) :
  exists r t',
    _search_official_website company_name t = (Returned r, t')
    /\ (r = None \/ exists url, r = Some (<["official_url" := url]> ∅)).
Proof.
  unfold _search_official_website, try_catch, bind, call_text, ret.
  destruct (ddgs_text t (company_name +:+ " official website") 1) as [e|[|r rs]];
    eexists _, _; (split; [reflexivity|]); eauto.
Qed.

(** The company info and the citations at the end of the [try] block. *)
Lemma collect_steps_cites (company_name : string) :
  hoare (fun c => cd_sources c = [] /\ cd_company_info c = ∅ /\ cd_news c = [])
    (collect_steps _search_wikipedia _search_news _search_official_website
       _get_stock_data_multi_source company_name)
    (fun _ c =>
       (forall k, is_Some (cd_company_info c !! k) ->
                  k = "description" \/ k = "url" \/ k = "title" \/ k = "official_url")
       /\ exists d,
           cd_stock_performance c = Some d
           /\ cd_sources c
              = (wiki_citations (cd_company_info c) ++ news_citations (cd_news c)
                   ++ ["Stock: " +:+ source d])%list).
Proof.
  unfold collect_steps.
  pose (keys := fun c : collected =>
                  forall k, is_Some (cd_company_info c !! k) ->
                            k = "description" \/ k = "url" \/ k = "title"
                            \/ k = "official_url").
  (* 1. Wikipedia *)
  eapply hoare_bind; [apply hoare_lift, search_wikipedia_shape|].
  intros wiki_data. cbv beta.
  eapply hoare_bind with
    (R := fun _ c => keys c /\ cd_sources c = wiki_citations (cd_company_info c)
                     /\ cd_news c = []).
  { apply hoare_assume. intros [->|[p ->]].
    - apply hoare_ret. intros l (Hs & Hi & Hn). unfold keys. rewrite Hs, Hi, Hn.
      repeat split. intros k [x Hx]. rewrite lookup_empty in Hx. discriminate Hx.
    - rewrite wiki_dict_truthy. cbn [default].
      eapply hoare_bind with
        (R := fun _ c => cd_sources c = [] /\ cd_company_info c = wiki_dict p
                         /\ cd_news c = []).
      + apply hoare_modify. intros l (Hs & Hi & Hn).
        cbn [set_company_info cd_sources cd_company_info cd_news].
        rewrite Hi, Hs, Hn. repeat split; apply (right_id_L ∅ (∪)).
      + intros _. apply hoare_modify. intros l (Hs & Hi & Hn).
        unfold keys. cbn [append_source cd_sources cd_company_info cd_news].
        rewrite Hs, Hi, Hn. split; [|split; reflexivity].
        intros k Hk. destruct (wiki_dict_keys p k Hk) as [?|[?|?]]; tauto. }
  intros _.
  (* 2. News *)
  eapply hoare_bind;
    [apply hoare_lift, returns_with_result, search_news_returns|].
  intros news_data. cbv beta.
  eapply hoare_bind with
    (R := fun _ c => keys c
                     /\ cd_sources c
                        = (wiki_citations (cd_company_info c)
                             ++ news_citations (cd_news c))%list).
  { destruct news_data as [|article rest].
    - apply hoare_ret. intros l (_ & Hk & Hs & Hn). split; [exact Hk|].
      rewrite Hs, Hn. unfold news_citations. cbn. now rewrite app_nil_r.
    - intros t l (_ & Hk & Hs & Hn). unfold bind at 1, modify at 1.
      destruct (cite_articles_appends (firstn 3 (article :: rest))
                  (set_news (article :: rest) l) t _ eq_refl)
        as (u & t' & l' & Hrun & Hs' & Hi' & Hn').
      exists u, t', l'. split; [exact Hrun|].
      cbn [set_news cd_sources cd_company_info cd_news] in Hs', Hi', Hn'.
      unfold keys. rewrite Hs', Hi', Hn', Hs. split; [exact Hk | reflexivity]. }
  intros _.
  (* 3. Official website *)
  eapply hoare_bind; [apply hoare_lift, search_official_website_shape|].
  intros website_data. cbv beta.
  eapply hoare_bind with
    (R := fun _ c => keys c
                     /\ cd_sources c
                        = (wiki_citations (cd_company_info c)
                             ++ news_citations (cd_news c))%list).
  { apply hoare_assume. intros [->|[url ->]].
    - apply hoare_ret. intros l Hl. exact Hl.
    - replace (dict_truthy (Some (<["official_url" := url]> ∅))) with true
        by (unfold dict_truthy; rewrite bool_decide_eq_false_2;
            [reflexivity | apply insert_non_empty]).
      apply hoare_modify. intros l (Hk & Hs).
      cbn [set_company_info cd_sources cd_company_info cd_news from_option].
      unfold id. split.
      + intros k Hin. apply lookup_union_is_Some in Hin as [Hin|Hin].
        * destruct (decide (k = "official_url")) as [|Hne]; [tauto|].
          rewrite lookup_insert_ne, lookup_empty in Hin by congruence.
          destruct Hin as [x Hx]. discriminate Hx.
        * apply Hk, Hin.
      + rewrite Hs. f_equal. unfold wiki_citations.
        rewrite !lookup_union_r by reflexivity. reflexivity. }
  intros _.
  (* 4. Stock *)
  eapply hoare_bind;
    [apply hoare_lift, returns_with_result, get_stock_data_returns|].
  intros d. cbv beta.
  eapply hoare_bind with
    (R := fun _ c => keys c /\ cd_stock_performance c = Some d
                     /\ cd_sources c
                        = (wiki_citations (cd_company_info c)
                             ++ news_citations (cd_news c))%list).
  { apply hoare_modify. intros l (_ & Hk & Hs). repeat split; assumption. }
  intros _.
  eapply hoare_bind with
    (R := fun _ c => keys c /\ cd_stock_performance c = Some d
                     /\ cd_sources c
                        = (wiki_citations (cd_company_info c)
                             ++ news_citations (cd_news c)
                             ++ ["Stock: " +:+ source d])%list).
  { apply hoare_modify. intros l (Hk & Hd & Hs).
    cbn [append_source cd_sources cd_company_info cd_news cd_stock_performance].
    rewrite Hs, <- app_assoc. repeat split; assumption. }
  intros _.
  (* 5. Quality *)
  eapply hoare_bind; [apply hoare_get_local|].
  intros data. cbv beta.
  apply hoare_modify. intros l (_ & Hk & Hd & Hs).
  split; [exact Hk|]. exists d. split; assumption.
Qed.

(** The citation loop, run from a given profile: the trace is untouched. *)
Lemma cite_articles_run (articles : list news_item) (t : trace) (c : collected) :
  exists c',
    for_each articles (fun article =>
       if PyStr.truthy (news_url article)
       then modify (append_source ("News: " +:+ news_url article))
       else ret tt) (t, c)
    = (Returned tt, (t, c'))
    /\ cd_news c' = cd_news c
    /\ cd_company_info c' = cd_company_info c.
Proof.
  revert c. induction articles as [|a rest IH]; intros c; cbn [for_each].
  - exists c. repeat split.
  - unfold bind at 1. destruct (PyStr.truthy (news_url a)).
    + cbn [modify]. destruct (IH (append_source ("News: " +:+ news_url a) c))
        as (c' & Hrun & Hnews & Hinfo).
      exists c'. repeat split; assumption.
    + cbn [ret]. apply IH.
Qed.

Lemma dict_falsy_default (d : option (gmap string string)) :
  dict_truthy d = false -> default ∅ d = ∅.
Proof.
  destruct d as [m|]; cbn [dict_truthy default from_option]; [|reflexivity].
  intros Hm. apply negb_false_iff, bool_decide_eq_true_1 in Hm. exact Hm.
Qed.

(** The [try] block of [collect_data] follows the four adapters, each from
    the trace the one before it left; the news and the company info at its
    end are what the adapters returned. *)
Lemma collect_steps_run (company_name : string) (t t1 t2 t3 t4 : trace)
      (wiki website : option (gmap string string)) (news : list news_item)
      (d : stock_data) (c0 : collected) :
  _search_wikipedia company_name t = (Returned wiki, t1) ->
  _search_news company_name t1 = (Returned news, t2) ->
  _search_official_website company_name t2 = (Returned website, t3) ->
  _get_stock_data_multi_source company_name t3 = (Returned d, t4) ->
  cd_company_info c0 = ∅ ->
  cd_news c0 = [] ->
  exists c,
    collect_steps _search_wikipedia _search_news _search_official_website
      _get_stock_data_multi_source company_name (t, c0)
    = (Returned tt, (t4, c))
    /\ cd_news c = news
    /\ cd_company_info c = default ∅ website ∪ default ∅ wiki
    /\ cd_stock_performance c = Some d.
Proof.
  intros Hwiki Hnews Hweb Hstock Hinfo0 Hnews0. unfold collect_steps.
  erewrite bind_lift_run by exact Hwiki.
  (* 1. Wikipedia *)
  assert (Hstep1 : exists c1,
             (if dict_truthy wiki then
                modify (set_company_info (fun info => default ∅ wiki ∪ info)) ;;
                modify (append_source
                          ("Wikipedia: " +:+ default "N/A" (default ∅ wiki !! "url")))
              else ret tt) (t1, c0) = (Returned tt, (t1, c1))
             /\ cd_news c1 = [] /\ cd_company_info c1 = default ∅ wiki).
  { destruct (dict_truthy wiki) eqn:Htruthy.
    - eexists. split; [reflexivity|].
      cbn [append_source set_company_info cd_news cd_company_info].
      rewrite Hinfo0. split; [exact Hnews0 | apply (right_id_L ∅ (∪))].
    - exists c0. split; [reflexivity|]. split; [exact Hnews0|].
      rewrite Hinfo0. symmetry. apply dict_falsy_default, Htruthy. }
  destruct Hstep1 as (c1 & Hrun1 & Hnews1 & Hinfo1).
  erewrite bind_returned_run by exact Hrun1.
  erewrite bind_lift_run by exact Hnews.
  (* 2. News *)
  assert (Hstep2 : exists c2,
             (match news with
              | [] => ret tt
              | _ => modify (set_news news) ;; cite_news news
              end) (t2, c1) = (Returned tt, (t2, c2))
             /\ cd_news c2 = news /\ cd_company_info c2 = default ∅ wiki).
  { destruct news as [|article rest].
    - exists c1. split; [reflexivity|]. split; assumption.
    - unfold bind at 1, modify at 1, cite_news.
      destruct (cite_articles_run (firstn 3 (article :: rest)) t2
                  (set_news (article :: rest) c1)) as (c2 & Hrun2 & Hn & Hi).
      exists c2. split; [exact Hrun2|]. rewrite Hn, Hi. split; [reflexivity | exact Hinfo1]. }
  destruct Hstep2 as (c2 & Hrun2 & Hnews2 & Hinfo2).
  erewrite bind_returned_run by exact Hrun2.
  erewrite bind_lift_run by exact Hweb.
  (* 3. Official website *)
  assert (Hstep3 : exists c3,
             (if dict_truthy website then
                modify (set_company_info (fun info => default ∅ website ∪ info))
              else ret tt) (t3, c2) = (Returned tt, (t3, c3))
             /\ cd_news c3 = news
             /\ cd_company_info c3 = default ∅ website ∪ default ∅ wiki).
  { destruct (dict_truthy website) eqn:Htruthy.
    - eexists. split; [reflexivity|].
      cbn [set_company_info cd_news cd_company_info]. rewrite Hinfo2.
      split; [exact Hnews2 | reflexivity].
    - exists c2. split; [reflexivity|]. split; [exact Hnews2|].
      rewrite (dict_falsy_default website Htruthy), Hinfo2.
      symmetry. apply (left_id_L ∅ (∪)). }
  destruct Hstep3 as (c3 & Hrun3 & Hnews3 & Hinfo3).
  erewrite bind_returned_run by exact Hrun3.
  erewrite bind_lift_run by exact Hstock.
  (* 4. Stock, 5. Quality *)
  eexists. split; [reflexivity|].
  cbn [set_data_quality append_source set_stock_performance
       cd_news cd_company_info cd_stock_performance].
  repeat split; assumption.
Qed.

(** X20: [collect_data] calls the four adapters in order, each from the
    trace the one before it left, and ends with the trace of the stock
    lookup. The profile it returns holds all the news items the news adapter
    returned, not only the three cited, the signal the stock lookup
    returned, and as company info the dict of the website adapter laid
    over that of the encyclopedia adapter, so that it has no key other
    than description, url, title and official_url. Its citations are, in
    this order: the encyclopedia citation when the company info has a page
    title, one citation for each of the first three news items that has a
    url, and the stock citation; every citation is backed by content of the
    profile, and the other way round. *)
Theorem collect_data_citations (company_name : string) (t : trace) :
  let looked := _search_wikipedia company_name t in
  let searched := _search_news company_name (snd looked) in
  let visited := _search_official_website company_name (snd searched) in
  let resolved := _get_stock_data_multi_source company_name (snd visited) in
  exists c t' d,
    collect_data company_name t = (Returned c, t')
    /\ cd_stock_performance c = Some d
    /\ cd_sources c
       = (wiki_citations (cd_company_info c) ++ news_citations (cd_news c)
            ++ ["Stock: " +:+ source d])%list
    /\ (forall k, is_Some (cd_company_info c !! k) ->
                  k = "description" \/ k = "url" \/ k = "title" \/ k = "official_url")
    /\ t' = snd resolved
    /\ fst searched = Returned (cd_news c)
    /\ fst resolved = Returned d
    /\ exists wiki website,
        fst looked = Returned wiki
        /\ fst visited = Returned website
        /\ cd_company_info c = default ∅ website ∪ default ∅ wiki.
Proof.
  intros looked searched visited resolved.
  destruct (search_wikipedia_returns company_name t) as (wiki & t1 & Hwiki).
  destruct (search_news_returns company_name t1) as (news & t2 & Hnews).
  destruct (search_official_website_returns company_name t2) as (website & t3 & Hweb).
  destruct (get_stock_data_returns company_name t3) as (d & t4 & Hstock).
  subst looked searched visited resolved.
  rewrite Hwiki. cbn [fst snd]. rewrite Hnews. cbn [fst snd].
  rewrite Hweb. cbn [fst snd]. rewrite Hstock. cbn [fst snd].
  destruct (collect_steps_run company_name t t1 t2 t3 t4 wiki website news d
              (initial_collected company_name (now_isoformat t))
              Hwiki Hnews Hweb Hstock eq_refl eq_refl)
    as (c & Hrun & Hkept & Hinfo & Hsignal).
  destruct (collect_steps_cites company_name t
              (initial_collected company_name (now_isoformat t)))
    as ([] & t' & c' & Hrun' & Hkeys & d' & Hstock' & Hsources).
  { repeat split. }
  rewrite Hrun in Hrun'. injection Hrun' as <- <-.
  rewrite Hsignal in Hstock'. injection Hstock' as <-.
  unfold collect_data. rewrite collect_data_with_run, Hrun.
  exists c, t4, d. rewrite Hkept.
  repeat split; try assumption.
  - rewrite <- Hkept. exact Hsources.
  - exists wiki, website. repeat split. exact Hinfo.
Qed.

End CitationFacts.

(** ** What the web scan keeps when a search fails *)

Section ScanFacts.
Context `{PyLib} `{World}.

(** X21: The web scan sends its four searches in order and stops at the first
    one that fails. Its result is the aggregate of all the hits of the
    searches answered before that failure, scanned in order: what was found
    before a failing search is kept, and the searches after it are not
    sent. *)
Theorem scrape_keeps_findings (company_name ticker_ : string) (t : trace) :
  let queries := search_queries company_name in
  let answers := answered queries t in
  _scrape_stock_data_from_web company_name ticker_ t
  = (Returned
       (_aggregate_stock_findings
          (scan_hits (concat answers) (empty_stock_info company_name ticker_))
          company_name ticker_),
     (t ++ map (fun q => DdgsText q 3) (firstn (S (length answers)) queries))%list).
Proof.
  intros queries answers.
  unfold _scrape_stock_data_from_web, bind, with_local.
  fold queries. rewrite scrape_queries_run. reflexivity.
Qed.

End ScanFacts.

(** ** Sample runs *)

Lemma orchestrator_run_always_analyses_witness :
  exists final t',
    @orchestrator_run Sample.lib Sample.failing "Acme" [] = (Returned final, t')
    /\ st_validation_passed final = true
    /\ st_error final = None.
Proof.
  destruct (@orchestrator_run_always_analyses Sample.failing Sample.lib "Acme" [])
    as (final & t' & c & Hrun & Hpassed & Herror & _).
  exists final, t'. repeat split; assumption.
Defined.

Lemma search_wikipedia_lookups_witness :
  @_search_wikipedia Sample.suffixed "Mercury" []
  = (Returned (Some (wiki_dict Sample.suffixed_page)),
     [WikiPage "Mercury"; WikiPage "Mercury company"])
  /\ @_search_wikipedia Sample.failing "Acme" [] = (Returned None, [WikiPage "Acme"])
  /\ @_search_wikipedia Sample.silent "Acme" []
     = (Returned None,
        [WikiPage "Acme"; WikiPage "Acme company"; WikiPage "Acme corporation"]).
Proof.
  split; [|split].
  - apply (proj1 (@search_wikipedia_lookups Sample.suffixed "Mercury" [])
             1%nat "Mercury company" Sample.suffixed_page); [reflexivity | | reflexivity].
    intros [|j] earlier Hj Hnth; [injection Hnth as <-; reflexivity | lia].
  - apply (proj1 (proj2 (@search_wikipedia_lookups Sample.failing "Acme" []))
             0%nat "Acme" (Exception "Timeout" "wikipedia timed out"));
      [reflexivity | intros j earlier Hj; lia | reflexivity].
  - apply (proj1 (proj2 (proj2 (@search_wikipedia_lookups Sample.silent "Acme" [])))).
    intros j earlier _ _. reflexivity.
Defined.

Lemma collect_data_citations_witness :
  exists c t',
    @collect_data Sample.lib Sample.web_only "Acme" [] = (Returned c, t')
    /\ cd_news c
       = [{| news_title := "Acme gains on strong results";
             news_summary := "Shares of Acme rose.";
             news_url := "https://news.example/acme";
             news_date := "" |}]
    /\ cd_sources c
       = ["Wikipedia: https://en.wikipedia.org/wiki/Acme";
          "News: https://news.example/acme";
          "Stock: Web search (1 sources)"].
Proof.
  destruct (@collect_data_citations Sample.lib Sample.web_only "Acme" [])
    as (c & t' & d & Hrun & _ & _ & _ & _ & Hnews & _).
  exists c, t'. split; [exact Hrun|]. split.
  - vm_compute in Hnews. injection Hnews as Hnews. symmetry. exact Hnews.
  - vm_compute in Hrun. injection Hrun as <- _. reflexivity.
Defined.

Lemma scrape_keeps_findings_witness :
  @_scrape_stock_data_from_web Sample.lib Sample.flaky "Acme" "ACME" []
  = (Returned
       (@_aggregate_stock_findings
          (@scan_hit Sample.lib
             (Sample.hit "Acme share price"
                "Acme trades at ₹1,480.25, analysts say accumulate"
                "https://quotes.example/acme")
             (empty_stock_info "Acme" "ACME"))
          "Acme" "ACME"),
     [DdgsText "Acme stock price today INR" 3; DdgsText "Acme share price live" 3]).
Proof. exact (@scrape_keeps_findings Sample.lib Sample.flaky "Acme" "ACME" []). Defined.
